(** * Helios: stats sampler, stats aggregator, log demultiplexer, bulk
      operations and action journal, embedded from the Go sources.

    Layout:
    - [Go]        machine integers, IEEE-754 binary64, errors, the world monad
    - [Api]       the daemon's wire types the code consumes
    - [statsutil] utils/statsutil/stats.go
    - [service]   core/service (container.go, logs, stats cache)
    - [handler]   handler (bulk endpoints, log download)
    - [healthcheck] cmd/main.go (checkContainer)
    then the theorems, grouped by component. *)

From Stdlib Require Import ZArith List Bool Lia Ascii String.
From Stdlib Require Import Floats.SpecFloat.
From Stdlib Require Strings.Byte.
From stdpp Require Import base option list strings gmap fin_maps pretty.

Set Default Proof Using "Type".

(* ===================================================================== *)
(** ** Go base types *)
(* ===================================================================== *)

Module Go.

Local Open Scope Z_scope.

(** [uint64]: a [Z] in [0, 2^64); arithmetic wraps. *)
Definition uint64_modulus : Z := 2 ^ 64.
Definition wrap64 (z : Z) : Z := z mod uint64_modulus.
Definition u64_add (a b : Z) : Z := wrap64 (a + b).
Definition u64_sub (a b : Z) : Z := wrap64 (a - b).
Definition is_uint64 (z : Z) : Prop := 0 <= z < uint64_modulus.

(** [float64]: IEEE-754 binary64, round to nearest even. *)
Definition float64 : Type := spec_float.
Definition prec : Z := 53.
Definition emax : Z := 1024.

(** Conversion [float64(n)] of an integer. *)
Definition float64_of_Z (z : Z) : float64 := binary_normalize prec emax z 0 false.
Definition fadd : float64 -> float64 -> float64 := SFadd prec emax.
Definition fmul : float64 -> float64 -> float64 := SFmul prec emax.
Definition fdiv : float64 -> float64 -> float64 := SFdiv prec emax.
(** [x > y] on floats: false as soon as one side is NaN. *)
Definition fgt (x y : float64) : bool := SFltb y x.

Definition fzero : float64 := S754_zero false.
Definition f100 : float64 := Eval vm_compute in float64_of_Z 100.
Definition f20 : float64 := Eval vm_compute in float64_of_Z 20.

Definition is_zero (x : float64) : bool :=
  match x with S754_zero _ => true | _ => false end.
Definition is_nan (x : float64) : bool :=
  match x with S754_nan => true | _ => false end.
Definition is_inf (x : float64) : bool :=
  match x with S754_infinity _ => true | _ => false end.

(** A Go [error] value is observed through its message; [nil] is [None]. *)
Definition error : Type := string.

Inductive result (A : Type) : Type :=
| Ok (a : A)
| Err (e : error).
Arguments Ok {A} a.
Arguments Err {A} e.

(** Code that talks to the daemon, the database, the clock and the
    process log threads the state [W] of that outside world. *)
Definition M (W A : Type) : Type := W -> A * W.

Definition ret {W A} (a : A) : M W A := fun w => (a, w).
Definition bind {W A B} (m : M W A) (k : A -> M W B) : M W B :=
  fun w => let (a, w') := m w in k a w'.

(** [s[1:]] when [s] starts with a slash, [s] otherwise. *)
Definition trim_leading_slash (s : string) : string :=
  match s with
  | String "/"%char rest => rest
  | _ => s
  end.

End Go.

Export Go.

Declare Scope go_scope.
Delimit Scope go_scope with go.
Notation "'let!' x ':=' m 'in' k" := (bind m (fun x => k))
  (at level 10, x pattern, m at level 100, k at level 200,
   format "'[v' 'let!'  x  ':='  m  'in' '/' k ']'") : go_scope.
Notation "'run!' m 'in' k" := (bind m (fun _ => k))
  (at level 10, m at level 100, k at level 200,
   format "'[v' 'run!'  m  'in' '/' k ']'") : go_scope.

(* ===================================================================== *)
(** ** The daemon's wire types (github.com/docker/docker/api/types) *)
(* ===================================================================== *)

Module Api.

Record CPUUsage := {
  TotalUsage : Z;            (* uint64 *)
  PercpuUsage : list Z       (* []uint64 *)
}.

Record CPUStats := {
  CPUUsage_ : CPUUsage;
  SystemUsage : Z            (* uint64 *)
}.

Record MemoryStats := {
  Usage : Z;                 (* uint64 *)
  Limit : Z                  (* uint64 *)
}.

Record NetworkStats := {
  RxBytes : Z;               (* uint64 *)
  TxBytes : Z                (* uint64 *)
}.

Record BlkioStatEntry := {
  Major : Z;
  Minor : Z;
  Op : string;
  Value : Z                  (* uint64 *)
}.

Record StatsResponse := {
  CPUStats_ : CPUStats;
  PreCPUStats : CPUStats;
  MemoryStats_ : MemoryStats;
  IoServiceBytesRecursive : list BlkioStatEntry;   (* BlkioStats *)
  Networks : gmap string NetworkStats
}.

(** Options of the container-logs endpoint. *)
Record LogsOptions := {
  ShowStdout : bool;
  ShowStderr : bool;
  LogsSince : string;
  LogsUntil : string;
  LogsTimestamps : bool;
  LogsFollow : bool;
  LogsTail : string
}.

(** What the code reads of an entry of the container list. *)
Record Container := {
  ID : string;
  Names : list string
}.

End Api.

Export Api.

(* ===================================================================== *)
(** ** utils/statsutil/stats.go *)
(* ===================================================================== *)

Module statsutil.

Local Open Scope Z_scope.

Definition cpuDelta (stats : StatsResponse) : float64 :=
  float64_of_Z (u64_sub (TotalUsage (CPUUsage_ (CPUStats_ stats)))
                        (TotalUsage (CPUUsage_ (PreCPUStats stats)))).

Definition systemDelta (stats : StatsResponse) : float64 :=
  float64_of_Z (u64_sub (SystemUsage (CPUStats_ stats))
                        (SystemUsage (PreCPUStats stats))).

Definition cpuCount (stats : StatsResponse) : float64 :=
  float64_of_Z (Z.of_nat (length (PercpuUsage (CPUUsage_ (CPUStats_ stats))))).

Definition CalculateCPUPercent (stats : StatsResponse) : float64 :=
  if fgt (systemDelta stats) fzero && fgt (cpuDelta stats) fzero
  then fmul (fmul (fdiv (cpuDelta stats) (systemDelta stats)) (cpuCount stats)) f100
  else fzero.

(** [range] over the map visits every interface once, in an order the
    language leaves open; the fold is over the map's entries. *)
Definition GetNetworkRx (stats : StatsResponse) : Z :=
  map_fold (fun _ v total => u64_add total (RxBytes v)) 0 (Networks stats).

Definition GetNetworkTx (stats : StatsResponse) : Z :=
  map_fold (fun _ v total => u64_add total (TxBytes v)) 0 (Networks stats).

Definition is_read_op (op : string) : bool :=
  bool_decide (op = "Read"%string) || bool_decide (op = "read"%string).

Definition is_write_op (op : string) : bool :=
  bool_decide (op = "Write"%string) || bool_decide (op = "write"%string).

Definition GetBlockRead (stats : StatsResponse) : Z :=
  fold_left (fun total bioEntry =>
               if is_read_op (Op bioEntry) then u64_add total (Value bioEntry) else total)
            (IoServiceBytesRecursive stats) 0.

Definition GetBlockWrite (stats : StatsResponse) : Z :=
  fold_left (fun total bioEntry =>
               if is_write_op (Op bioEntry) then u64_add total (Value bioEntry) else total)
            (IoServiceBytesRecursive stats) 0.

End statsutil.

(* ===================================================================== *)
(** ** Collaborators: io, time, log, json, the daemon client, the journal *)
(* ===================================================================== *)

Module io.

(** Errors of a read: the two sentinels the code compares against, and
    anything else the transport reports. *)
Inductive Error :=
| EOF
| ErrUnexpectedEOF
| Transport (msg : string).

Definition Error_msg (e : Error) : error :=
  match e with
  | EOF => "EOF"
  | ErrUnexpectedEOF => "unexpected EOF"
  | Transport msg => msg
  end.

(** A byte stream as [io.ReadFull] sees it: the bytes still to come and
    how the stream ends after them, [EOF] for a clean end. *)
Record Reader := {
  pending : list Byte.byte;
  ending : Error
}.

(** [io.ReadFull(r, buf)] with [len(buf) = n]: the [n] bytes and the rest
    of the stream, or the error. With [n = 0] nothing is read. A stream
    that ends cleanly before the first byte gives [io.EOF], one that ends
    cleanly after some but not all bytes gives [io.ErrUnexpectedEOF], a
    transport error is returned as it is. *)
Definition ReadFull (r : Reader) (n : nat) : (list Byte.byte + Error) * Reader :=
  if decide (n <= length (pending r))%nat
  then (inl (take n (pending r)),
        {| pending := drop n (pending r); ending := ending r |})
  else
    let r' := {| pending := []; ending := ending r |} in
    match ending r with
    | EOF =>
        match pending r with
        | [] => (inr EOF, r')
        | _ :: _ => (inr ErrUnexpectedEOF, r')
        end
    | e => (inr e, r')
    end.

(** An [io.Writer], with [Flush] when the writer has one. *)
Class Writer (Wr : Type) := {
  Write : list Byte.byte -> Wr -> option error * Wr;
  Flush : option (Wr -> option error * Wr)
}.

End io.

Module time.

(** A wall-clock instant, by its calendar fields. *)
Record Time := {
  year : N; month : N; day : N;
  hour : N; minute : N; second : N
}.

Fixpoint zeros (n : nat) : string :=
  match n with
  | O => EmptyString
  | S n' => String "0"%char (zeros n')
  end.

(** Decimal digits of [n], zero-padded on the left to [width]. *)
Definition appendInt (n : N) (width : nat) : string :=
  zeros (width - String.length (pretty n)) +:+ pretty n.

(** [t.Format("20060102-150405")]. *)
Definition Format_20060102_150405 (t : Time) : string :=
  appendInt (year t) 4 +:+ appendInt (month t) 2 +:+ appendInt (day t) 2
  +:+ "-" +:+ appendInt (hour t) 2 +:+ appendInt (minute t) 2
  +:+ appendInt (second t) 2.

End time.

(** The process environment: clock, log and the JSON decoder. *)
Class Runtime (W : Type) := {
  time_Now : M W time.Time;
  log_Printf : string -> M W unit;
  json_Decode : list Byte.byte -> result StatsResponse;
  (** the rendering of a float under the verb [%.2f] *)
  fmt_2f : float64 -> string
}.

Module context.

(** A cancellable context as the polling loop sees it: whether it is
    found done at the n-th poll, and the error it then reports. *)
Record Context := {
  Done : nat -> bool;
  Err : error
}.

Definition Background : Context :=
  {| Done := fun _ => false; Err := "context canceled" |}.

End context.

Module zip.

(** [archive/zip]'s writer over the response body. *)
Class Writer (Zw : Type) := {
  Create : string -> Zw -> option error * Zw;
  Write : list Byte.byte -> Zw -> option error * Zw;
  Close : Zw -> Zw
}.

End zip.

Module docker.

Record ContainerJSON := {
  Name : string
}.

(** The client of utils/docker: each call answers and moves the world. *)
Class Client (W : Type) := {
  ContainerList : bool -> M W (result (list Container));
  ContainerInspect : string -> M W (result ContainerJSON);
  ContainerStart : string -> M W (option error);
  ContainerStop : string -> Z -> M W (option error);
  ContainerRestart : string -> Z -> M W (option error);
  ContainerRemove : string -> bool -> bool -> M W (option error);
  ContainerStats : string -> bool -> M W (result (list Byte.byte));
  ContainerLogs : string -> LogsOptions -> M W (result io.Reader)
}.

End docker.

Module models.

Record ActionLog := {
  ActionType : string;
  ResourceType : string;
  ResourceID : string;
  ResourceName : string;
  Success : bool;
  ErrorMessage : string;
  ExecutedAt : time.Time
}.

Record HealthCheckLog := {
  ContainerID : string;
  ContainerName : string;
  Status : string;
  ResourceCPU : float64;
  ResourceMemory : Z;
  ResourceMemoryLimit : Z;
  ResourceNetworkRx : Z;
  ResourceNetworkTx : Z;
  HealthErrorMessage : string;
  CheckedAt : time.Time
}.

End models.

Module repository.

Class ActionLogRepository (W : Type) := {
  Create : models.ActionLog -> M W (option error)
}.

Class HealthCheckLogRepository (W : Type) := {
  CreateHealth : models.HealthCheckLog -> M W (option error)
}.

End repository.

(* ===================================================================== *)
(** ** core/service: containers *)
(* ===================================================================== *)

Module service.

Local Open Scope Z_scope.
Local Open Scope go_scope.

Record ContainerStats := {
  CPUPercent : float64;
  MemoryUsage : Z;
  MemoryLimit : Z;
  MemoryPercent : float64;
  NetworkRx : Z;
  NetworkTx : Z;
  BlockRead : Z;
  BlockWrite : Z
}.

Record DashboardSummary := {
  TotalCPUPercent : float64;
  TotalMemoryUsage : Z;
  TotalMemoryLimit : Z;
  TotalMemoryPercent : float64;
  TotalNetworkRx : Z;
  TotalNetworkTx : Z;
  ContainerCount : Z
}.

Record BulkOperationResult := {
  ContainerID : string;
  ContainerName : string;
  Success : bool;
  Error : string
}.

(** The part of [getContainerStats] after the body is decoded. *)
Definition calculateMetrics (statsJSON : StatsResponse) : ContainerStats :=
  let cpuPercent := statsutil.CalculateCPUPercent statsJSON in
  let memoryUsage := Usage (MemoryStats_ statsJSON) in
  let memoryLimit := Limit (MemoryStats_ statsJSON) in
  let memoryPercent :=
    fmul (fdiv (float64_of_Z memoryUsage) (float64_of_Z memoryLimit)) f100 in
  {| CPUPercent := cpuPercent;
     MemoryUsage := memoryUsage;
     MemoryLimit := memoryLimit;
     MemoryPercent := memoryPercent;
     NetworkRx := statsutil.GetNetworkRx statsJSON;
     NetworkTx := statsutil.GetNetworkTx statsJSON;
     BlockRead := statsutil.GetBlockRead statsJSON;
     BlockWrite := statsutil.GetBlockWrite statsJSON |}.

Section ContainerService.

Context {W : Type}.
Context `{!Runtime W, !docker.Client W, !repository.ActionLogRepository W}.

Definition decodeStats (body : list Byte.byte) : result StatsResponse :=
  json_Decode body.

Definition getContainerStats (containerID : string) : M W (result ContainerStats) :=
  let! statsResponse := docker.ContainerStats containerID false in
  match statsResponse with
  | Err e => ret (Err e)
  | Ok body =>
      match decodeStats body with
      | Err e => ret (Err e)
      | Ok statsJSON => ret (Ok (calculateMetrics statsJSON))
      end
  end.

Definition logAction (actionType resourceType resourceID resourceName : string)
    (success : bool) (err : option error) : M W (option error) :=
  let! now := time_Now in
  let actionLog :=
    {| models.ActionType := actionType;
       models.ResourceType := resourceType;
       models.ResourceID := resourceID;
       models.ResourceName := resourceName;
       models.Success := success;
       models.ErrorMessage := default ""%string err;
       models.ExecutedAt := now |} in
  let! logErr := repository.Create actionLog in
  match logErr with
  | Some e => run! log_Printf ("Failed to log action: " +:+ e) in ret err
  | None => ret err
  end.

Definition StartContainer (containerID : string) : M W (option error) :=
  let! inspected := docker.ContainerInspect containerID in
  match inspected with
  | Err e => logAction "start" "container" containerID "" false (Some e)
  | Ok containerJSON =>
      let! err := docker.ContainerStart containerID in
      match err with
      | Some e =>
          logAction "start" "container" containerID (docker.Name containerJSON) false (Some e)
      | None =>
          run! log_Printf ("Container " +:+ docker.Name containerJSON +:+ " started successfully") in
          logAction "start" "container" containerID (docker.Name containerJSON) true None
      end
  end.

Definition StopContainer (containerID : string) : M W (option error) :=
  let! inspected := docker.ContainerInspect containerID in
  match inspected with
  | Err e => logAction "stop" "container" containerID "" false (Some e)
  | Ok containerJSON =>
      let timeout := 10 in
      let! err := docker.ContainerStop containerID timeout in
      match err with
      | Some e =>
          logAction "stop" "container" containerID (docker.Name containerJSON) false (Some e)
      | None =>
          run! log_Printf ("Container " +:+ docker.Name containerJSON +:+ " stopped successfully") in
          logAction "stop" "container" containerID (docker.Name containerJSON) true None
      end
  end.

Definition RestartContainer (containerID : string) : M W (option error) :=
  let! inspected := docker.ContainerInspect containerID in
  match inspected with
  | Err e => logAction "restart" "container" containerID "" false (Some e)
  | Ok containerJSON =>
      let timeout := 10 in
      let! err := docker.ContainerRestart containerID timeout in
      match err with
      | Some e =>
          logAction "restart" "container" containerID (docker.Name containerJSON) false (Some e)
      | None =>
          run! log_Printf ("Container " +:+ docker.Name containerJSON +:+ " restarted successfully") in
          logAction "restart" "container" containerID (docker.Name containerJSON) true None
      end
  end.

Definition RemoveContainer (containerID : string) (force : bool) : M W (option error) :=
  let! inspected := docker.ContainerInspect containerID in
  match inspected with
  | Err e => logAction "remove" "container" containerID "" false (Some e)
  | Ok containerJSON =>
      let! err := docker.ContainerRemove containerID force false in
      match err with
      | Some e =>
          logAction "remove" "container" containerID (docker.Name containerJSON) false (Some e)
      | None =>
          run! log_Printf ("Container " +:+ docker.Name containerJSON +:+ " removed successfully") in
          logAction "remove" "container" containerID (docker.Name containerJSON) true None
      end
  end.

(** One turn of the loop shared by the three bulk operations: [mutate]
    is [StartContainer], [StopContainer] or [RemoveContainer force]. *)
Definition bulkOne (mutate : string -> M W (option error)) (containerID : string)
    : M W BulkOperationResult :=
  let! inspected := docker.ContainerInspect containerID in
  let name :=
    match inspected with
    | Ok containerJSON => docker.Name containerJSON
    | Err _ => ""%string
    end in
  let! err := mutate containerID in
  match err with
  | Some e =>
      ret {| ContainerID := containerID; ContainerName := name;
             Success := false; Error := e |}
  | None =>
      ret {| ContainerID := containerID; ContainerName := name;
             Success := true; Error := "" |}
  end.

(** [results := make([]BulkOperationResult, len(containerIDs))] filled
    at index [i] for every [i]: the results in input order. *)
Fixpoint bulkLoop (mutate : string -> M W (option error)) (containerIDs : list string)
    : M W (list BulkOperationResult) :=
  match containerIDs with
  | [] => ret []
  | containerID :: rest =>
      let! result := bulkOne mutate containerID in
      let! results := bulkLoop mutate rest in
      ret (result :: results)
  end.

Definition BulkStartContainers (containerIDs : list string) :=
  bulkLoop StartContainer containerIDs.

Definition BulkStopContainers (containerIDs : list string) :=
  bulkLoop StopContainer containerIDs.

Definition BulkRemoveContainers (containerIDs : list string) (force : bool) :=
  bulkLoop (fun containerID => RemoveContainer containerID force) containerIDs.

End ContainerService.

(* --------------------------------------------------------------------- *)
(** *** core/service: logs *)
(* --------------------------------------------------------------------- *)

Record LogStreamOptions := {
  Follow : bool;
  Tail : string;
  Since : string;
  Until : string;
  Timestamps : bool
}.

Definition byteZ (b : Byte.byte) : Z := Z.of_N (Byte.to_N b).

(** [uint32(header[4])<<24 | uint32(header[5])<<16 | uint32(header[6])<<8
    | uint32(header[7])]; each operand fits 32 bits, nothing wraps. *)
Definition payloadSize (header : list Byte.byte) : Z :=
  Z.lor (Z.lor (Z.lor (Z.shiftl (byteZ (nth 4 header Byte.x00)) 24)
                      (Z.shiftl (byteZ (nth 5 header Byte.x00)) 16))
               (Z.shiftl (byteZ (nth 6 header Byte.x00)) 8))
        (byteZ (nth 7 header Byte.x00)).

(** [make([]byte, n)]. *)
Definition make (n : nat) : list Byte.byte := repeat Byte.x00 n.

Definition initialBufLen : nat := 32 * 1024.

(** [if size > uint32(len(buf)) { buf = make([]byte, size) }]. *)
Definition growBuf (buf : list Byte.byte) (size : Z) : list Byte.byte :=
  if Z.ltb (Z.of_nat (length buf)) size then make (Z.to_nat size) else buf.

(** [io.ReadFull(reader, buf[:size])] stores what it read at the front
    of [buf]. *)
Definition storeFront (bytes buf : list Byte.byte) : list Byte.byte :=
  bytes ++ drop (length bytes) buf.

(** The loop of [GetLogs]. Every turn either stops or consumes a header,
    so [fuel] above the number of pending bytes is never used up. *)
Fixpoint GetLogs_loop (fuel : nat) (reader : io.Reader)
    (buf result : list Byte.byte) : option (Go.result (list Byte.byte)) :=
  match fuel with
  | O => None
  | S fuel' =>
      match io.ReadFull reader 8 with
      | (inr io.EOF, _) => Some (Ok result)
      | (inr err, _) =>
          Some (Err ("failed to read log header: " +:+ io.Error_msg err))
      | (inl header, reader1) =>
          let size := payloadSize header in
          if Z.eqb size 0 then GetLogs_loop fuel' reader1 buf result
          else
            let buf1 := growBuf buf size in
            match io.ReadFull reader1 (Z.to_nat size) with
            | (inr io.EOF, _) => Some (Ok result)
            | (inr err, _) =>
                Some (Err ("failed to read log payload: " +:+ io.Error_msg err))
            | (inl bytes, reader2) =>
                let buf2 := storeFront bytes buf1 in
                let n := length bytes in
                GetLogs_loop fuel' reader2 buf2 (result ++ take n buf2)
            end
      end
  end.

Definition GetLogs_fuel (reader : io.Reader) : nat := S (length (io.pending reader)).

Definition logsOptionsOf (opts : LogStreamOptions) (follow : bool) : LogsOptions :=
  {| ShowStdout := true;
     ShowStderr := true;
     LogsSince := Since opts;
     LogsUntil := Until opts;
     LogsTimestamps := Timestamps opts;
     LogsFollow := follow;
     LogsTail := Tail opts |}.

Section LogService.

Context {W : Type}.
Context `{!Runtime W, !docker.Client W}.

(** [GetLogs]: the options it builds leave [Follow] unset. *)
Definition GetLogs (containerID : string) (opts : LogStreamOptions)
    : M W (option (result (list Byte.byte))) :=
  let logOpts := logsOptionsOf opts false in
  let! opened := docker.ContainerLogs containerID logOpts in
  match opened with
  | Err e => ret (Some (Err ("failed to get container logs: " +:+ e)))
  | Ok reader =>
      ret (GetLogs_loop (GetLogs_fuel reader) reader (make initialBufLen) [])
  end.

End LogService.

Section LogStream.

Context {Wr : Type} `{!io.Writer Wr}.

Definition flushIfSupported (writer : Wr) : Wr :=
  match io.Flush with
  | Some flush => snd (flush writer)
  | None => writer
  end.

(** The goroutine of [StreamLogs]: what it sends on [errChan] before
    closing it ([None] when it closes the channel without sending),
    and the writer afterwards. [turn] counts the polls of [ctx]. *)
Fixpoint StreamLogs_loop (fuel : nat) (ctx : context.Context) (turn : nat)
    (reader : io.Reader) (buf : list Byte.byte) (writer : Wr)
    : option (option error * Wr) :=
  match fuel with
  | O => None
  | S fuel' =>
      if context.Done ctx turn then Some (Some (context.Err ctx), writer)
      else
        match io.ReadFull reader 8 with
        | (inr io.EOF, _) => Some (None, writer)
        | (inr err, _) =>
            Some (Some ("failed to read log header: " +:+ io.Error_msg err), writer)
        | (inl header, reader1) =>
            let size := payloadSize header in
            if Z.eqb size 0
            then StreamLogs_loop fuel' ctx (S turn) reader1 buf writer
            else
              let buf1 := growBuf buf size in
              match io.ReadFull reader1 (Z.to_nat size) with
              | (inr io.EOF, _) => Some (None, writer)
              | (inr err, _) =>
                  Some (Some ("failed to read log payload: " +:+ io.Error_msg err), writer)
              | (inl bytes, reader2) =>
                  let buf2 := storeFront bytes buf1 in
                  let n := length bytes in
                  match io.Write (take n buf2) writer with
                  | (Some e, writer1) =>
                      Some (Some ("failed to write log data: " +:+ e), writer1)
                  | (None, writer1) =>
                      StreamLogs_loop fuel' ctx (S turn) reader2 buf2
                                      (flushIfSupported writer1)
                  end
              end
        end
  end.

Context {W : Type}.
Context `{!Runtime W, !docker.Client W}.

(** [StreamLogs]: the error of opening the stream, or what the
    goroutine leaves on the channel. *)
Definition StreamLogs (ctx : context.Context) (containerID : string)
    (opts : LogStreamOptions) (writer : Wr)
    : M W (Go.result (option (option error * Wr))) :=
  let logOpts := logsOptionsOf opts (Follow opts) in
  let! opened := docker.ContainerLogs containerID logOpts in
  match opened with
  | Go.Err e =>
      run! log_Printf ("Failed to get logs for container " +:+ containerID +:+ ": " +:+ e) in
      ret (Go.Err ("failed to get container logs: " +:+ e))
  | Ok reader =>
      ret (Ok (StreamLogs_loop (GetLogs_fuel reader) ctx 0 reader
                               (make initialBufLen) writer))
  end.

End LogStream.

Section LogArchive.

Context {Zw : Type} `{!zip.Writer Zw}.
Context {W : Type}.
Context `{!Runtime W, !docker.Client W}.

(** [CreateLogArchive]: the returned error and the archive written so
    far ([defer zipWriter.Close()] runs once the archive writer
    exists). The outer [option] is the fuel of [GetLogs_loop]. *)
Definition CreateLogArchive (containerID : string) (writer : Zw)
    : M W (option (option error * Zw)) :=
  let! inspected := docker.ContainerInspect containerID in
  match inspected with
  | Go.Err e => ret (Some (Some ("failed to inspect container: " +:+ e), writer))
  | Ok containerJSON =>
      let! fetched :=
        GetLogs containerID
                {| Follow := false; Tail := "all"; Since := ""; Until := "";
                   Timestamps := true |} in
      match fetched with
      | None => ret None
      | Some (Go.Err e) => ret (Some (Some ("failed to get logs: " +:+ e), writer))
      | Some (Ok logs) =>
          let containerName := trim_leading_slash (docker.Name containerJSON) in
          let! now := time_Now in
          let timestamp := time.Format_20060102_150405 now in
          let filename := containerName +:+ "_" +:+ timestamp +:+ ".log" in
          match zip.Create filename writer with
          | (Some e, writer1) =>
              ret (Some (Some ("failed to create zip entry: " +:+ e), zip.Close writer1))
          | (None, writer1) =>
              match zip.Write logs writer1 with
              | (Some e, writer2) =>
                  ret (Some (Some ("failed to write logs to zip: " +:+ e), zip.Close writer2))
              | (None, writer2) =>
                  run! log_Printf ("Created log archive for container " +:+ containerName
                                   +:+ " (" +:+ pretty (N.of_nat (length logs)) +:+ " bytes)") in
                  ret (Some (None, zip.Close writer2))
              end
          end
      end
  end.

End LogArchive.

(* --------------------------------------------------------------------- *)
(** *** core/service: stats cache *)
(* --------------------------------------------------------------------- *)

Record StatsCache := {
  containerStats : gmap string ContainerStats;
  dashboardSummary : option DashboardSummary
}.

(** What a sampling task sends on the channel. *)
Record statsResult := {
  containerID : string;
  stats : option ContainerStats;
  err : option error
}.

(** [&DashboardSummary{}]. *)
Definition emptySummary : DashboardSummary :=
  {| TotalCPUPercent := fzero;
     TotalMemoryUsage := 0;
     TotalMemoryLimit := 0;
     TotalMemoryPercent := fzero;
     TotalNetworkRx := 0;
     TotalNetworkTx := 0;
     ContainerCount := 0 |}.

(** The aggregation of one sample into the summary. [ContainerCount]
    counts entries of a slice held in memory and stays far below the
    range of [int]. *)
Definition aggregate (summary : DashboardSummary) (st : ContainerStats)
    : DashboardSummary :=
  {| TotalCPUPercent := fadd (TotalCPUPercent summary) (CPUPercent st);
     TotalMemoryUsage := u64_add (TotalMemoryUsage summary) (MemoryUsage st);
     TotalMemoryLimit := u64_add (TotalMemoryLimit summary) (MemoryLimit st);
     TotalMemoryPercent := TotalMemoryPercent summary;
     TotalNetworkRx := u64_add (TotalNetworkRx summary) (NetworkRx st);
     TotalNetworkTx := u64_add (TotalNetworkTx summary) (NetworkTx st);
     ContainerCount := ContainerCount summary + 1 |}.

(** [if summary.TotalMemoryLimit > 0 { summary.TotalMemoryPercent = ... }]. *)
Definition finishSummary (summary : DashboardSummary) : DashboardSummary :=
  if Z.ltb 0 (TotalMemoryLimit summary)
  then
    {| TotalCPUPercent := TotalCPUPercent summary;
       TotalMemoryUsage := TotalMemoryUsage summary;
       TotalMemoryLimit := TotalMemoryLimit summary;
       TotalMemoryPercent :=
         fmul (fdiv (float64_of_Z (TotalMemoryUsage summary))
                    (float64_of_Z (TotalMemoryLimit summary))) f100;
       TotalNetworkRx := TotalNetworkRx summary;
       TotalNetworkTx := TotalNetworkTx summary;
       ContainerCount := ContainerCount summary |}
  else summary.

Section StatsCacheRefresh.

Context {W : Type}.
Context `{!Runtime W, !docker.Client W, !repository.ActionLogRepository W}.

(** The tasks run concurrently. The order in which they reach the daemon
    and the order in which their results come out of the channel are the
    scheduler's choice: [schedule] rearranges the listed containers into
    the first, [arrival] the results into the second. *)
Variable schedule : list Container -> list Container.
Variable arrival : list statsResult -> list statsResult.

(** One task: sample and send. *)
Definition sampleTask (c : Container) : M W statsResult :=
  let! sampled := getContainerStats (ID c) in
  match sampled with
  | Go.Err e => ret {| containerID := ID c; stats := None; err := Some e |}
  | Ok st => ret {| containerID := ID c; stats := Some st; err := None |}
  end.

Fixpoint fanOut (containers : list Container) : M W (list statsResult) :=
  match containers with
  | [] => ret []
  | c :: rest =>
      let! r := sampleTask c in
      let! rs := fanOut rest in
      ret (r :: rs)
  end.

(** [for result := range statsChan { ... }]. *)
Fixpoint collect (results : list statsResult)
    (newStats : gmap string ContainerStats) (summary : DashboardSummary)
    : M W (gmap string ContainerStats * DashboardSummary) :=
  match results with
  | [] => ret (newStats, summary)
  | result :: rest =>
      match err result with
      | Some e =>
          run! log_Printf ("Failed to get stats for container "
                           +:+ containerID result +:+ ": " +:+ e) in
          collect rest newStats summary
      | None =>
          match stats result with
          | Some st =>
              collect rest (<[containerID result := st]> newStats) (aggregate summary st)
          | None => collect rest newStats summary
          end
      end
  end.

(** [refresh]: the cache after the call. *)
Definition refresh (c : StatsCache) : M W StatsCache :=
  let! listed := docker.ContainerList false in
  match listed with
  | Go.Err e =>
      run! log_Printf ("Failed to list containers for stats cache: " +:+ e) in
      ret c
  | Ok containers =>
      match containers with
      | [] =>
          ret {| containerStats := ∅; dashboardSummary := Some emptySummary |}
      | _ :: _ =>
          let! results := fanOut (schedule containers) in
          let! (newStats, summary) := collect (arrival results) ∅ emptySummary in
          ret {| containerStats := newStats;
                 dashboardSummary := Some (finishSummary summary) |}
      end
  end.

Definition GetDashboardSummary (c : StatsCache) : DashboardSummary :=
  match dashboardSummary c with
  | None => emptySummary
  | Some summary => summary
  end.

End StatsCacheRefresh.

(** [GetContainerStats]: the cached stats of a container, [None] for the
    nil pointer of a container that is not in the snapshot. *)
Definition GetContainerStats (c : StatsCache) (containerID : string)
    : option ContainerStats :=
  containerStats c !! containerID.

(** [GetAllContainerStats]: a fresh map filled entry by entry. *)
Definition GetAllContainerStats (c : StatsCache) : gmap string ContainerStats :=
  map_fold (fun id stats result => <[id := stats]> result) ∅ (containerStats c).

End service.

(* ===================================================================== *)
(** ** handler *)
(* ===================================================================== *)

Module handler.

Local Open Scope Z_scope.
Local Open Scope go_scope.

Fixpoint countSuccessful (results : list service.BulkOperationResult) : Z :=
  match results with
  | [] => 0
  | r :: rest =>
      (if service.Success r then 1 else 0) + countSuccessful rest
  end.

Fixpoint countFailed (results : list service.BulkOperationResult) : Z :=
  match results with
  | [] => 0
  | r :: rest =>
      (if negb (service.Success r) then 1 else 0) + countFailed rest
  end.

(** The JSON body of a bulk response. *)
Record BulkResponse := {
  results : list service.BulkOperationResult;
  total : Z;
  success : Z;
  failed : Z
}.

Definition bulkResponse (containerIDs : list string)
    (results : list service.BulkOperationResult) : BulkResponse :=
  {| results := results;
     total := Z.of_nat (length containerIDs);
     success := countSuccessful results;
     failed := countFailed results |}.

(** What the download endpoint reads of a request. *)
Record Request := {
  Param_id : string;
  Query : gmap string string
}.

Inductive DownloadOutcome (Zw : Type) :=
| BadRequest                         (* 400, "Container ID is required" *)
| Panicked                           (* containerID[:12] out of range *)
| Streamed (disposition : string) (body : Zw)
| Failed (disposition : string) (detail : error) (body : Zw).  (* 500 *)
Arguments BadRequest {Zw}.
Arguments Panicked {Zw}.
Arguments Streamed {Zw} disposition body.
Arguments Failed {Zw} disposition detail body.

Section Handlers.

Context {W : Type}.
Context `{!Runtime W, !docker.Client W, !repository.ActionLogRepository W}.

Definition BulkStartContainers (containerIDs : list string) : M W BulkResponse :=
  let! results := service.BulkStartContainers containerIDs in
  ret (bulkResponse containerIDs results).

Definition BulkStopContainers (containerIDs : list string) : M W BulkResponse :=
  let! results := service.BulkStopContainers containerIDs in
  ret (bulkResponse containerIDs results).

Definition BulkRemoveContainers (containerIDs : list string) (force : bool)
    : M W BulkResponse :=
  let! results := service.BulkRemoveContainers containerIDs force in
  ret (bulkResponse containerIDs results).

Context {Zw : Type} `{!zip.Writer Zw}.

(** [DownloadLogs]: the query of the request is not consulted. *)
Definition DownloadLogs (req : Request) (body : Zw)
    : M W (option (DownloadOutcome Zw)) :=
  let containerID := Param_id req in
  if decide (containerID = ""%string) then ret (Some BadRequest)
  else if decide (String.length containerID < 12)%nat then ret (Some Panicked)
  else
    let disposition :=
      "attachment; filename=container-" +:+ substring 0 12 containerID +:+ "-logs.zip" in
    let! archived := service.CreateLogArchive containerID body in
    match archived with
    | None => ret None
    | Some (Some e, body1) =>
        run! log_Printf ("Failed to create log archive: " +:+ e) in
        ret (Some (Failed disposition e body1))
    | Some (None, body1) => ret (Some (Streamed disposition body1))
    end.

End Handlers.

End handler.

(* ===================================================================== *)
(** ** cmd/main.go: the health checker *)
(* ===================================================================== *)

Module healthcheck.

Local Open Scope go_scope.

Record HealthCheckConfig := {
  CPUThreshold : float64;
  MemoryThreshold : float64
}.

(** The classification inside [checkContainer]. *)
Definition memoryPercentOf (statsData : StatsResponse) : float64 :=
  fmul (fdiv (float64_of_Z (Usage (MemoryStats_ statsData)))
             (float64_of_Z (Limit (MemoryStats_ statsData)))) f100.

Definition statusOf (cfg : HealthCheckConfig) (cpuPercent memoryPercent : float64)
    : string :=
  if fgt cpuPercent (CPUThreshold cfg) || fgt memoryPercent (MemoryThreshold cfg)
  then "resource_critical"
  else "healthy".

Inductive Outcome :=
| Panicked                                   (* c.Names[0] on an empty slice *)
| NotRecorded                                (* the body did not decode *)
| Recorded (healthLog : models.HealthCheckLog).

(** The status of the record an outcome carries. *)
Definition statusOfOutcome (o : Outcome) : option string :=
  match o with
  | Recorded healthLog => Some (models.Status healthLog)
  | _ => None
  end.

Section HealthChecker.

Context {W : Type}.
Context `{!Runtime W, !docker.Client W, !repository.HealthCheckLogRepository W}.

Definition store (healthLog : models.HealthCheckLog) : M W Outcome :=
  let! stored := repository.CreateHealth healthLog in
  match stored with
  | Some e =>
      run! log_Printf ("Failed to store health check log: " +:+ e) in
      ret (Recorded healthLog)
  | None => ret (Recorded healthLog)
  end.

Definition checkContainer (c : Container) (cfg : HealthCheckConfig) : M W Outcome :=
  match Names c with
  | [] => ret Panicked
  | name0 :: _ =>
      let containerName := trim_leading_slash name0 in
      let! sampled := docker.ContainerStats (ID c) false in
      match sampled with
      | Go.Err e =>
          run! log_Printf ("Failed to get stats for container " +:+ containerName
                           +:+ ": " +:+ e) in
          let! now := time_Now in
          store {| models.ContainerID := ID c;
                   models.ContainerName := containerName;
                   models.Status := "error";
                   models.ResourceCPU := fzero;
                   models.ResourceMemory := 0;
                   models.ResourceMemoryLimit := 0;
                   models.ResourceNetworkRx := 0;
                   models.ResourceNetworkTx := 0;
                   models.HealthErrorMessage := e;
                   models.CheckedAt := now |}
      | Ok body =>
          match json_Decode body with
          | Go.Err e =>
              run! log_Printf ("Failed to decode stats for container " +:+ containerName
                               +:+ ": " +:+ e) in
              ret NotRecorded
          | Ok statsData =>
              let cpuPercent := statsutil.CalculateCPUPercent statsData in
              let memoryPercent := memoryPercentOf statsData in
              let status := statusOf cfg cpuPercent memoryPercent in
              run! (if bool_decide (status = "resource_critical"%string)
                    then log_Printf ("Container " +:+ containerName
                                     +:+ " is resource critical (CPU: " +:+ fmt_2f cpuPercent
                                     +:+ "%, Memory: " +:+ fmt_2f memoryPercent +:+ "%)")
                    else ret tt) in
              let! now := time_Now in
              store {| models.ContainerID := ID c;
                       models.ContainerName := containerName;
                       models.Status := status;
                       models.ResourceCPU := cpuPercent;
                       models.ResourceMemory := Usage (MemoryStats_ statsData);
                       models.ResourceMemoryLimit := Limit (MemoryStats_ statsData);
                       models.ResourceNetworkRx := statsutil.GetNetworkRx statsData;
                       models.ResourceNetworkTx := statsutil.GetNetworkTx statsData;
                       models.HealthErrorMessage := "";
                       models.CheckedAt := now |}
          end
      end
  end.

End HealthChecker.

Section HealthLoop.

Context {W : Type}.
Context `{!Runtime W, !docker.Client W, !repository.HealthCheckLogRepository W}.

(** [for _, c := range containers { checkContainer(...) }]: the outcomes
    in order; a panic ends the loop, and the process with it. *)
Fixpoint checkAll (containers : list Container) (cfg : HealthCheckConfig)
    : M W (list Outcome) :=
  match containers with
  | [] => ret []
  | c :: rest =>
      let! outcome := checkContainer c cfg in
      match outcome with
      | Panicked => ret [Panicked]
      | _ =>
          let! outcomes := checkAll rest cfg in
          ret (outcome :: outcomes)
      end
  end.

(** One tick of [startHealthChecker], after [<-ticker.C]. *)
Definition tick (cfg : HealthCheckConfig) : M W (list Outcome) :=
  run! log_Printf "Running health check..." in
  let! listed := docker.ContainerList false in
  match listed with
  | Go.Err e =>
      run! log_Printf ("Failed to list containers: " +:+ e) in
      ret []
  | Ok containers => checkAll containers cfg
  end.

End HealthLoop.

End healthcheck.

(* ===================================================================== *)
(** ** The multiplexed log format *)
(* ===================================================================== *)

Module wire.

Local Open Scope Z_scope.

(** One frame on the wire: its 8 header bytes and its payload. *)
Record Frame := {
  header : list Byte.byte;
  payload : list Byte.byte
}.

(** The header is 8 bytes long and its bytes 4..7 hold the payload length. *)
Definition wellFramed (f : Frame) : Prop :=
  length (header f) = 8%nat
  /\ service.payloadSize (header f) = Z.of_nat (length (payload f)).

Definition frameBytes (f : Frame) : list Byte.byte := header f ++ payload f.

(** The frames one after the other. *)
Definition stream (frames : list Frame) : list Byte.byte :=
  concat (frameBytes <$> frames).

Definition payloads (frames : list Frame) : list (list Byte.byte) :=
  payload <$> frames.

(** The chunks handed to the writer: the payloads that are not empty. *)
Definition chunks (frames : list Frame) : list (list Byte.byte) :=
  filter (fun p => p <> []) (payloads frames).

(** The payload lengths the headers declare, summed. *)
Definition declared (frames : list Frame) : Z :=
  foldr Z.add 0 ((fun f => service.payloadSize (header f)) <$> frames).

Definition byteOf (z : Z) : Byte.byte :=
  default Byte.x00 (Byte.of_N (Z.to_N z)).

(** The daemon's header: stream kind, three zero bytes, big-endian length. *)
Definition headerOf (kind : Z) (n : Z) : list Byte.byte :=
  [byteOf kind; Byte.x00; Byte.x00; Byte.x00;
   byteOf (n / 2 ^ 24 mod 256); byteOf (n / 2 ^ 16 mod 256);
   byteOf (n / 2 ^ 8 mod 256); byteOf (n mod 256)].

Definition stdout : Z := 1.
Definition stderr : Z := 2.

Definition frameOf (kind : Z) (p : list Byte.byte) : Frame :=
  {| header := headerOf kind (Z.of_nat (length p)); payload := p |}.

(** The bytes of an ASCII text. *)
Definition text (s : string) : list Byte.byte :=
  byte_of_ascii <$> list_ascii_of_string s.

Definition reading (bytes : list Byte.byte) : io.Reader :=
  {| io.pending := bytes; io.ending := io.EOF |}.

(** Scenario S3: [0x01,0,0,0, 0,0,0,5, "hello", 0x02,0,0,0, 0,0,0,3, "err"]. *)
Definition S3 : list Byte.byte :=
  [Byte.x01; Byte.x00; Byte.x00; Byte.x00; Byte.x00; Byte.x00; Byte.x00; Byte.x05]
  ++ text "hello"
  ++ [Byte.x02; Byte.x00; Byte.x00; Byte.x00; Byte.x00; Byte.x00; Byte.x00; Byte.x03]
  ++ text "err".

End wire.

(* ===================================================================== *)
(** ** A scripted world, for running the code on concrete scenarios *)
(* ===================================================================== *)

Module sim.

(** What the collaborators answer. *)
Record Script := {
  listOf : result (list Container);
  inspectOf : string -> result docker.ContainerJSON;
  startOf : string -> option error;
  stopOf : string -> option error;
  restartOf : string -> option error;
  removeOf : string -> option error;
  statsOf : string -> result (list Byte.byte);
  decodeOf : list Byte.byte -> result StatsResponse;
  logsOf : string -> LogsOptions -> result io.Reader;
  journalOf : models.ActionLog -> option error;
  now : time.Time
}.

(** What the collaborators have seen so far. *)
Record World := {
  journal : list models.ActionLog;
  health : list models.HealthCheckLog;
  printed : list string;
  logsCalls : list (string * LogsOptions)
}.

Definition start : World :=
  {| journal := []; health := []; printed := []; logsCalls := [] |}.

Section Scripted.

Variable sc : Script.

Definition answer {A} (a : A) : M World A := fun w => (a, w).

Definition runtime : Runtime World := {|
  time_Now := answer (now sc);
  log_Printf := fun line w =>
    (tt, {| journal := journal w; health := health w;
            printed := printed w ++ [line]; logsCalls := logsCalls w |});
  json_Decode := decodeOf sc;
  fmt_2f := fun _ => "?"%string
|}.

Definition client : docker.Client World := {|
  docker.ContainerList := fun _ => answer (listOf sc);
  docker.ContainerInspect := fun id => answer (inspectOf sc id);
  docker.ContainerStart := fun id => answer (startOf sc id);
  docker.ContainerStop := fun id _ => answer (stopOf sc id);
  docker.ContainerRestart := fun id _ => answer (restartOf sc id);
  docker.ContainerRemove := fun id _ _ => answer (removeOf sc id);
  docker.ContainerStats := fun id _ => answer (statsOf sc id);
  docker.ContainerLogs := fun id opts w =>
    (logsOf sc id opts,
     {| journal := journal w; health := health w; printed := printed w;
        logsCalls := logsCalls w ++ [(id, opts)] |})
|}.

(** The journal keeps the record unless the script makes it fail. *)
Definition actionLogRepo : repository.ActionLogRepository World := {|
  repository.Create := fun actionLog w =>
    match journalOf sc actionLog with
    | Some e => (Some e, w)
    | None =>
        (None, {| journal := journal w ++ [actionLog]; health := health w;
                  printed := printed w; logsCalls := logsCalls w |})
    end
|}.

Definition healthRepo : repository.HealthCheckLogRepository World := {|
  repository.CreateHealth := fun healthLog w =>
    (None, {| journal := journal w; health := health w ++ [healthLog];
              printed := printed w; logsCalls := logsCalls w |})
|}.

End Scripted.

(** A writer that records every chunk it is given. *)
Definition recorder : io.Writer (list (list Byte.byte)) := {|
  io.Write := fun p chunks => (None, chunks ++ [p]);
  io.Flush := Some (fun chunks => (None, chunks))
|}.

(** A writer that takes [room] chunks and then fails every write. *)
Definition brokenPipe (room : nat) : io.Writer (list (list Byte.byte)) := {|
  io.Write := fun p chunks =>
    if decide (length chunks < room)%nat then (None, chunks ++ [p])
    else (Some "broken pipe"%string, chunks);
  io.Flush := None
|}.

(** A context that is done from its [n]-th poll on. *)
Definition cancelledAt (n : nat) : context.Context :=
  {| context.Done := fun turn => bool_decide (n <= turn)%nat;
     context.Err := "context canceled" |}.

(** An archive as the list of its entries, the open one last. *)
Definition archive : zip.Writer (list (string * list Byte.byte)) := {|
  zip.Create := fun name entries => (None, entries ++ [(name, [])]);
  zip.Write := fun p entries =>
    match reverse entries with
    | (name, content) :: before => (None, reverse before ++ [(name, content ++ p)])
    | [] => (Some "no open entry"%string, entries)
    end;
  zip.Close := fun entries => entries
|}.

Definition quiet : Script :=
  {| listOf := Ok [];
     inspectOf := fun id => Ok {| docker.Name := "/" +:+ id |};
     startOf := fun _ => None;
     stopOf := fun _ => None;
     restartOf := fun _ => None;
     removeOf := fun _ => None;
     statsOf := fun _ => Ok [];
     decodeOf := fun _ => Err "EOF";
     logsOf := fun _ _ => Ok {| io.pending := []; io.ending := io.EOF |};
     journalOf := fun _ => None;
     now := {| time.year := 2024; time.month := 3; time.day := 7;
               time.hour := 9; time.minute := 5; time.second := 0 |} |}.

(** A stats response by the fields the sampler reads. *)
Definition sample (cpu_total_prev cpu_total system_prev system : Z) (cpu_count : nat)
    (mem_used mem_limit : Z) (blkio : list BlkioStatEntry) : StatsResponse :=
  {| CPUStats_ :=
       {| CPUUsage_ := {| TotalUsage := cpu_total; PercpuUsage := repeat 0%Z cpu_count |};
          SystemUsage := system |};
     PreCPUStats :=
       {| CPUUsage_ := {| TotalUsage := cpu_total_prev; PercpuUsage := [] |};
          SystemUsage := system_prev |};
     MemoryStats_ := {| Usage := mem_used; Limit := mem_limit |};
     IoServiceBytesRecursive := blkio;
     Networks := ∅ |}.

Definition blk (op : string) (value : Z) : BlkioStatEntry :=
  {| Major := 8; Minor := 0; Op := op; Value := value |}.

(** A daemon with one running container whose stats body decodes to
    [statsData]. *)
Definition sampling (statsData : StatsResponse) : Script :=
  {| listOf := Ok [ {| ID := "c1"; Names := ["/web"%string] |} ];
     inspectOf := inspectOf quiet;
     startOf := startOf quiet;
     stopOf := stopOf quiet;
     restartOf := restartOf quiet;
     removeOf := removeOf quiet;
     statsOf := fun _ => Ok [];
     decodeOf := fun _ => Ok statsData;
     logsOf := logsOf quiet;
     journalOf := journalOf quiet;
     now := now quiet |}.

(** Scenario S4: stopping [b] fails with "conflict". *)
Definition S4 : Script :=
{| listOf := listOf quiet;
   inspectOf := inspectOf quiet;
   startOf := startOf quiet;
   stopOf := fun id => if bool_decide (id = "b"%string) then Some "conflict"%string else None;
   restartOf := restartOf quiet;
   removeOf := removeOf quiet;
   statsOf := statsOf quiet;
   decodeOf := decodeOf quiet;
   logsOf := logsOf quiet;
   journalOf := journalOf quiet;
   now := now quiet |}.

(** Three running containers; the stats call of [c2] fails. *)
Definition fleet : Script :=
{| listOf := Ok [ {| ID := "c1"; Names := ["/web"%string] |};
                  {| ID := "c2"; Names := ["/db"%string] |};
                  {| ID := "c3"; Names := ["/cache"%string] |} ];
   inspectOf := inspectOf quiet;
   startOf := startOf quiet;
   stopOf := stopOf quiet;
   restartOf := restartOf quiet;
   removeOf := removeOf quiet;
   statsOf := fun id =>
     if bool_decide (id = "c2"%string) then Err "context deadline exceeded" else Ok [];
   decodeOf := fun _ => Ok (sample 100 200 1000 2000 2 512 1024 []);
   logsOf := logsOf quiet;
   journalOf := journalOf quiet;
   now := now quiet |}.

(** The fleet of [fleet] with every stats call failing. *)
Definition stalled : Script :=
{| listOf := listOf fleet;
   inspectOf := inspectOf quiet;
   startOf := startOf quiet;
   stopOf := stopOf quiet;
   restartOf := restartOf quiet;
   removeOf := removeOf quiet;
   statsOf := fun _ => Err "context deadline exceeded";
   decodeOf := decodeOf quiet;
   logsOf := logsOf quiet;
   journalOf := journalOf quiet;
   now := now quiet |}.

(** A daemon that cannot be reached for the list of containers. *)
Definition unreachable : Script :=
{| listOf := Err "Cannot connect to the Docker daemon";
   inspectOf := inspectOf quiet;
   startOf := startOf quiet;
   stopOf := stopOf quiet;
   restartOf := restartOf quiet;
   removeOf := removeOf quiet;
   statsOf := statsOf quiet;
   decodeOf := decodeOf quiet;
   logsOf := logsOf quiet;
   journalOf := journalOf quiet;
   now := now quiet |}.

(** A download request for 10 lines without timestamps. *)
Definition download : handler.Request :=
{| handler.Param_id := "0123456789abcdef";
   handler.Query := {[ "tail"%string := "10"%string; "timestamps"%string := "false"%string ]} |}.

(** A daemon whose container [/web] has the log stream [bytes]; the
    journal refuses every record when [journalDown]. *)
Definition logging (bytes : list Byte.byte) (journalDown : bool) : Script :=
{| listOf := listOf quiet;
   inspectOf := fun _ => Ok {| docker.Name := "/web" |};
   startOf := startOf quiet;
   stopOf := stopOf quiet;
   restartOf := restartOf quiet;
   removeOf := removeOf quiet;
   statsOf := statsOf quiet;
   decodeOf := decodeOf quiet;
   logsOf := fun _ _ => Ok (wire.reading bytes);
   journalOf := fun _ => if journalDown then Some "database is locked"%string else None;
   now := now quiet |}.

End sim.

(** Reference sums the theorems compare the loops with. *)
Module sums.

Local Open Scope Z_scope.

(** The mathematical sum of the values of the entries that [keep]. *)
Fixpoint sumValues (keep : string -> bool) (entries : list BlkioStatEntry) : Z :=
  match entries with
  | [] => 0
  | e :: rest => (if keep (Op e) then Value e else 0) + sumValues keep rest
  end.

End sums.

Export sums.

(** The spec's wording of the block-io rule, for comparison with
    [statsutil.GetBlockRead] and [statsutil.GetBlockWrite]. *)
Module spec.

Definition lower (c : ascii) : ascii :=
  let n := nat_of_ascii c in
  if (65 <=? n)%nat && (n <=? 90)%nat then ascii_of_nat (n + 32) else c.

Fixpoint to_lower (s : string) : string :=
  match s with
  | EmptyString => EmptyString
  | String c rest => String (lower c) (to_lower rest)
  end.

(** [op] equals [name] up to the case of its letters. *)
Definition equal_fold (op name : string) : bool :=
  bool_decide (to_lower op = to_lower name).

(** Sum of the values of the entries whose op is [name] in any casing. *)
Definition block_total (name : string) (entries : list BlkioStatEntry) : Z :=
  foldr Z.add 0%Z (Value <$> filter (fun e => equal_fold (Op e) name = true) entries).

(** The options the download endpoint documents: [tail] (default "all")
    and [timestamps] taken from the query, never following. *)
Definition downloadOptions (query : gmap string string) : service.LogStreamOptions :=
  {| service.Follow := false;
     service.Tail := default "all"%string (query !! "tail"%string);
     service.Since := "";
     service.Until := "";
     service.Timestamps := bool_decide (query !! "timestamps"%string = Some "true"%string) |}.

End spec.

(* ===================================================================== *)
(** ** What the theorems say of a bulk response *)
(* ===================================================================== *)

Module bulk.

Local Open Scope Z_scope.

(** The result reports the outcome [err] of the mutating call. *)
Definition reports (r : service.BulkOperationResult) (err : option error) : Prop :=
  service.Success r = bool_decide (err = None)
  /\ service.Error r = default ""%string err.

(** The response accounts for every requested id, in order: the totals
    add up, the i-th result carries the i-th id, and it reports the
    outcome of a call of [mutate] on that id. *)
Definition accounted {W : Type} (mutate : string -> M W (option error))
    (containerIDs : list string) (resp : handler.BulkResponse) : Prop :=
  handler.total resp = Z.of_nat (length containerIDs)
  /\ handler.success resp + handler.failed resp = handler.total resp
  /\ service.ContainerID <$> handler.results resp = containerIDs
  /\ Forall2 (fun id r => service.ContainerID r = id
                          /\ exists w, reports r (fst (mutate id w)))
             containerIDs (handler.results resp).

End bulk.


(* ===================================================================== *)
(** ** Where a multiplexed stream can stop *)
(* ===================================================================== *)

Module truncation.

Local Open Scope Z_scope.

(** What follows the last whole frame when the stream ends cleanly. *)
Inductive Tail :=
| Boundary                                        (* nothing: a frame boundary *)
| InHeader (part : list Byte.byte)                (* some bytes of a header *)
| AfterHeader (header : list Byte.byte)           (* a whole header, no payload byte *)
| InPayload (header part : list Byte.byte).       (* a whole header, some payload bytes *)

Definition bytes (t : Tail) : list Byte.byte :=
  match t with
  | Boundary => []
  | InHeader part => part
  | AfterHeader header => header
  | InPayload header part => header ++ part
  end.

Definition valid (t : Tail) : Prop :=
  match t with
  | Boundary => True
  | InHeader part => (0 < length part < 8)%nat
  | AfterHeader header =>
      length header = 8%nat /\ 0 < service.payloadSize header
  | InPayload header part =>
      length header = 8%nat /\ part <> []
      /\ Z.of_nat (length part) < service.payloadSize header
  end.

(** The error the demultiplexer ends with, [None] for a normal end. *)
Definition outcome (t : Tail) : option error :=
  match t with
  | Boundary => None
  | InHeader _ => Some "failed to read log header: unexpected EOF"%string
  | AfterHeader _ => None
  | InPayload _ _ => Some "failed to read log payload: unexpected EOF"%string
  end.

Definition resultOf (t : Tail) (gathered : list Byte.byte) : Go.result (list Byte.byte) :=
  match outcome t with
  | None => Ok gathered
  | Some e => Go.Err e
  end.

End truncation.


(* ===================================================================== *)
(** ** What the theorems say of a published snapshot *)
(* ===================================================================== *)

Module snapshot.

(** The samples that are stored, in the order the tasks delivered them. *)
Definition successes (results : list service.statsResult)
    : list (string * service.ContainerStats) :=
  omap (fun r =>
          match service.err r, service.stats r with
          | None, Some st => Some (service.containerID r, st)
          | _, _ => None
          end) results.

(** [total += x] over [xs], from 0. *)
Definition floatSum (xs : list float64) : float64 := fold_left fadd xs fzero.

Definition cpuOf (entry : string * service.ContainerStats) : float64 :=
  service.CPUPercent (snd entry).

(** The summary counts the entries of the map, and its cpu total is the
    float sum over exactly these entries, added in the order [entries]. *)
Definition consistent (c : service.StatsCache)
    (entries : list (string * service.ContainerStats)) : Prop :=
  exists summary,
    service.dashboardSummary c = Some summary
    /\ entries ≡ₚ map_to_list (service.containerStats c)
    /\ service.ContainerCount summary = Z.of_nat (size (service.containerStats c))
    /\ service.TotalCPUPercent summary = floatSum (cpuOf <$> entries).

(** The mathematical sum of a counter over the stored samples. *)
Definition total (counter : service.ContainerStats -> Z)
    (entries : list (string * service.ContainerStats)) : Z :=
  foldr Z.add 0%Z ((fun entry => counter (snd entry)) <$> entries).

End snapshot.


(* ===================================================================== *)
(** ** What a writer makes of a sequence of chunks *)
(* ===================================================================== *)

Module delivery.

Section Feed.

Context {Wr : Type} `{!io.Writer Wr}.

(** The chunks offered to the writer one after the other, flushing after
    each, up to the first one it refuses: the error of that write, if
    any, and the writer afterwards. *)
Fixpoint feed (chunks : list (list Byte.byte)) (writer : Wr) : option error * Wr :=
  match chunks with
  | [] => (None, writer)
  | chunk :: rest =>
      match io.Write chunk writer with
      | (Some e, writer1) => (Some e, writer1)
      | (None, writer1) => feed rest (service.flushIfSupported writer1)
      end
  end.

(** How the stream ends for its reader: the write error if a write
    failed, what the end of the input gives otherwise. *)
Definition verdict (fed : option error * Wr) (atEnd : option error) : option error * Wr :=
  match fed with
  | (Some e, writer) => (Some ("failed to write log data: " +:+ e)%string, writer)
  | (None, writer) => (atEnd, writer)
  end.

End Feed.

End delivery.


(* ===================================================================== *)
(** ** What the theorems say of a journal record *)
(* ===================================================================== *)

Module journal.



End journal.


(* ===================================================================== *)
(** ** Package config: the validation of the loaded configuration *)
(* ===================================================================== *)

Module config.

Import Go.

Local Open Scope Z_scope.

Record ServerConfig := {
  Host : string;
  Port : string;
  Mode : string
}.

Record DatabaseConfig := {
  Path : string
}.

Record DockerConfig := {
  DockerHost : string                        (* Docker.Host *)
}.

(** [Interval] is a [time.Duration]: a count of nanoseconds. *)
Record HealthCheckConfig := {
  Interval : Z;
  CPUThreshold : float64;
  MemoryThreshold : float64;
  Enabled : bool
}.

Record LogRetentionConfig := {
  Days : Z
}.

Record Config := {
  Server : ServerConfig;
  Database : DatabaseConfig;
  Docker : DockerConfig;
  HealthCheck : HealthCheckConfig;
  LogRetention : LogRetentionConfig
}.

(** [time.Second] *)
Definition Second : Z := 1000000000.

(** [x < y] on floats: false as soon as one side is NaN. *)
Definition flt (x y : float64) : bool := SFltb x y.

Definition validate (cfg : Config) : option error :=
  if flt (CPUThreshold (HealthCheck cfg)) fzero || fgt (CPUThreshold (HealthCheck cfg)) f100
  then Some "CPU threshold must be between 0 and 100"%string
  else if flt (MemoryThreshold (HealthCheck cfg)) fzero
          || fgt (MemoryThreshold (HealthCheck cfg)) f100
  then Some "memory threshold must be between 0 and 100"%string
  else if Interval (HealthCheck cfg) <? Second
  then Some "health check interval must be at least 1 second"%string
  else if Days (LogRetention cfg) <? 1
  then Some "log retention days must be at least 1"%string
  else None.

(** The part of [cfg.HealthCheck] that [checkContainer] reads. *)
Definition thresholds (cfg : Config) : healthcheck.HealthCheckConfig :=
  {| healthcheck.CPUThreshold := CPUThreshold (HealthCheck cfg);
     healthcheck.MemoryThreshold := MemoryThreshold (HealthCheck cfg) |}.

(** [0 <= t <= 100] on floats, or [t] is NaN. *)
Definition fle (x y : float64) : bool := SFleb x y.

Definition inRangeOrNaN (t : float64) : Prop :=
  is_nan t = true \/ (fle fzero t = true /\ fle t f100 = true).

End config.


(* ===================================================================== *)
(** ** core/service: the container listing *)
(* ===================================================================== *)

Module listing.

Import Go.

Local Open Scope Z_scope.
Local Open Scope go_scope.

(** [types.Port], [types.MountPoint] and [types.Container] with the
    fields that [ListContainers] and [convertToContainerInfo] read. *)
Record Port := {
  IP : string;
  PrivatePort : Z;           (* uint16 *)
  PublicPort : Z;            (* uint16 *)
  Type_ : string
}.

Record MountPoint := {
  MountType : string;
  MountName : string;
  Source : string;
  Destination : string;
  Mode : string;
  RW : bool
}.

Record Container := {
  ID : string;
  Names : list string;
  Image : string;
  ImageID : string;
  Command : string;
  Created : Z;               (* int64 *)
  Ports : list Port;
  Labels : gmap string string;
  State : string;
  Status : string;
  Mounts : list MountPoint
}.

Record ContainerListOptions := {
  All : bool;
  Limit : Z;
  Filter : string;
  IncludeStats : bool
}.

Record PortInfo := {
  InfoIP : string;
  InfoPrivatePort : Z;
  InfoPublicPort : Z;
  InfoType : string
}.

Record MountInfo := {
  InfoMountType : string;
  InfoMountName : string;
  InfoSource : string;
  InfoDestination : string;
  InfoMode : string;
  InfoRW : bool
}.

Record ContainerInfo := {
  InfoID : string;
  InfoName : string;
  InfoImage : string;
  InfoImageID : string;
  InfoCommand : string;
  InfoCreated : Z;
  InfoState : string;
  InfoStatus : string;
  InfoPorts : list PortInfo;
  InfoLabels : gmap string string;
  InfoMounts : list MountInfo;
  NetworkMode : string;
  Stats : option service.ContainerStats      (* nil when absent *)
}.

Definition convertToContainerInfo (c : Container) : ContainerInfo :=
  let name :=
    match Names c with
    | [] => ""%string
    | name0 :: _ => trim_leading_slash name0
    end in
  {| InfoID := ID c;
     InfoName := name;
     InfoImage := Image c;
     InfoImageID := ImageID c;
     InfoCommand := Command c;
     InfoCreated := Created c;
     InfoState := State c;
     InfoStatus := Status c;
     InfoPorts :=
       map (fun port => {| InfoIP := IP port;
                           InfoPrivatePort := PrivatePort port;
                           InfoPublicPort := PublicPort port;
                           InfoType := Type_ port |}) (Ports c);
     InfoLabels := Labels c;
     InfoMounts :=
       map (fun mount => {| InfoMountType := MountType mount;
                            InfoMountName := MountName mount;
                            InfoSource := Source mount;
                            InfoDestination := Destination mount;
                            InfoMode := Mode mount;
                            InfoRW := RW mount |}) (Mounts c);
     NetworkMode := "";
     Stats := None |}.

(** [strings.Contains]: [substr] starts at some position of [s]. *)
Fixpoint Contains (s substr : string) : bool :=
  String.prefix substr s
  || match s with
     | EmptyString => false
     | String _ rest => Contains rest substr
     end.

(** [result[idx].Stats = stats] *)
Definition withStats (info : ContainerInfo) (stats : service.ContainerStats)
    : ContainerInfo :=
  {| InfoID := InfoID info;
     InfoName := InfoName info;
     InfoImage := InfoImage info;
     InfoImageID := InfoImageID info;
     InfoCommand := InfoCommand info;
     InfoCreated := InfoCreated info;
     InfoState := InfoState info;
     InfoStatus := InfoStatus info;
     InfoPorts := InfoPorts info;
     InfoLabels := InfoLabels info;
     InfoMounts := InfoMounts info;
     NetworkMode := NetworkMode info;
     Stats := Some stats |}.

(** The second loop of [ListContainers]; an index outside [result]
    panics, which is [None]. *)
Fixpoint attach (cachedStats : gmap string service.ContainerStats)
    (runningContainers : list nat) (result : list ContainerInfo)
    : option (list ContainerInfo) :=
  match runningContainers with
  | [] => Some result
  | idx :: rest =>
      match result !! idx with
      | None => None
      | Some info =>
          match cachedStats !! InfoID info with
          | Some stats => attach cachedStats rest (<[idx := withStats info stats]> result)
          | None => attach cachedStats rest result
          end
      end
  end.

Section ListContainers.

(** [strings.ToLower] *)
Variable ToLower : string -> string.

(** The name test at the head of the loop body: true when the container
    is kept. *)
Definition matched (opts : ContainerListOptions) (c : Container) : bool :=
  if bool_decide (Filter opts <> ""%string)
  then existsb (fun name => Contains (ToLower name) (ToLower (Filter opts))) (Names c)
  else true.

(** The first loop of [ListContainers], from the accumulated [result]
    and [runningContainers]. *)
Fixpoint selectLoop (containers : list Container) (opts : ContainerListOptions)
    (result : list ContainerInfo) (runningContainers : list nat)
    : list ContainerInfo * list nat :=
  match containers with
  | [] => (result, runningContainers)
  | c :: rest =>
      if negb (matched opts c)
      then selectLoop rest opts result runningContainers
      else
        let result := result ++ [convertToContainerInfo c] in
        let runningContainers :=
          if bool_decide (State c = "running"%string)
          then runningContainers ++ [(length result - 1)%nat]
          else runningContainers in
        if (0 <? Limit opts) && (Limit opts <=? Z.of_nat (length result))
        then (result, runningContainers)
        else selectLoop rest opts result runningContainers
  end.

(** [ListContainers] once the daemon has answered with [containers];
    [cache] is the stats cache of the service at that moment. *)
Definition listFrom (containers : list Container) (opts : ContainerListOptions)
    (cache : service.StatsCache) : option (list ContainerInfo) :=
  let (result, runningContainers) := selectLoop containers opts [] [] in
  if IncludeStats opts && (0 <? length runningContainers)%nat
  then attach (service.GetAllContainerStats cache) runningContainers result
  else Some result.

Context {W : Type} `{!Runtime W}.

(** [s.dockerClient.ContainerList] with the entries in full. *)
Variable ContainerList : bool -> M W (Go.result (list Container)).

Definition ListContainers (opts : ContainerListOptions) (cache : service.StatsCache)
    : M W (option (Go.result (list ContainerInfo))) :=
  let! listed := ContainerList (All opts) in
  match listed with
  | Go.Err e =>
      run! log_Printf ("Failed to list containers: " +:+ e) in
      ret (Some (Go.Err ("failed to list containers: " +:+ e)))
  | Ok containers =>
      ret (option_map Ok (listFrom containers opts cache))
  end.

End ListContainers.

(** What a caller of [ListContainers] is promised. *)

(** At most [Limit] entries when the limit is positive, all otherwise. *)
Definition limited (opts : ContainerListOptions) (infos : list ContainerInfo)
    : list ContainerInfo :=
  if 0 <? Limit opts then take (Z.to_nat (Limit opts)) infos else infos.

(** The cached stats, for a running container when stats are asked for. *)
Definition decorated (opts : ContainerListOptions) (cache : service.StatsCache)
    (info : ContainerInfo) : ContainerInfo :=
  if IncludeStats opts && bool_decide (InfoState info = "running"%string)
  then match service.GetContainerStats cache (InfoID info) with
       | Some stats => withStats info stats
       | None => info
       end
  else info.

(** The positions, counted from [base], of the running entries. *)
Fixpoint runningFrom (base : nat) (infos : list ContainerInfo) : list nat :=
  match infos with
  | [] => []
  | info :: rest =>
      (if bool_decide (InfoState info = "running"%string) then [base] else [])
      ++ runningFrom (S base) rest
  end.

End listing.


(* ===================================================================== *)
(** ** handler: GET /helios/containers *)
(* ===================================================================== *)

Module containerHandler.

Import Go.

Local Open Scope Z_scope.
Local Open Scope go_scope.

(** What the handler writes with [c.JSON]. *)
Inductive Response :=
| Failure (status : Z) (error detail : string)
| Listing (status : Z) (containers : list listing.ContainerInfo) (count : Z).

Section ListContainers.

(** [c.Query], [strconv.Atoi] and [strings.ToLower] *)
Variable Query : string -> string.
Variable Atoi : string -> Go.result Z.
Variable ToLower : string -> string.

(** The options the handler builds from the query string. *)
Definition optionsOf : listing.ContainerListOptions :=
  let includeStats := negb (bool_decide (Query "stats" = "false"%string)) in
  let limit :=
    let limitStr := Query "limit" in
    if bool_decide (limitStr <> ""%string)
    then match Atoi limitStr with
         | Ok limit => limit
         | Go.Err _ => 0
         end
    else 0 in
  let filter :=
    let filter := Query "filter" in
    if bool_decide (filter <> ""%string) then filter else ""%string in
  {| listing.All := bool_decide (Query "all" = "true"%string);
     listing.Limit := limit;
     listing.Filter := filter;
     listing.IncludeStats := includeStats |}.

Context {W : Type} `{!Runtime W}.

Variable ContainerList : bool -> M W (Go.result (list listing.Container)).

(** [None] when the service call panics. *)
Definition ListContainers (cache : service.StatsCache) : M W (option Response) :=
  let opts := optionsOf in
  let! answered := listing.ListContainers ToLower ContainerList opts cache in
  match answered with
  | None => ret None
  | Some (Go.Err e) => ret (Some (Failure 500 "Failed to list containers" e))
  | Some (Ok containers) =>
      ret (Some (Listing 200 containers (Z.of_nat (length containers))))
  end.

End ListContainers.

End containerHandler.


(* ===================================================================== *)
(** * Theorems *)
(* ===================================================================== *)

(* --------------------------------------------------------------------- *)
(** ** Floats and machine integers *)
(* --------------------------------------------------------------------- *)

Section FloatFacts.

Local Open Scope Z_scope.

Lemma float64_of_Z_0 : float64_of_Z 0 = fzero.
Proof. reflexivity. Qed.

Lemma fgt_zero_zero (x y : float64) :
  is_zero x = true -> is_zero y = true -> fgt x y = false.
Proof. destruct x, y; simpl; try discriminate; reflexivity. Qed.

(** Comparing against a zero does not depend on the sign of that zero. *)
Lemma fgt_any_zero (x z : float64) :
  is_zero z = true -> fgt x z = fgt x fzero.
Proof. destruct z; simpl; try discriminate. intros _. destruct x; reflexivity. Qed.

(** [x / 0 * 100] is NaN or an infinity, whatever [x] is. *)
Lemma div_zero_times_100 (x z : float64) :
  is_zero z = true ->
  is_nan (fmul (fdiv x z) f100) || is_inf (fmul (fdiv x z) f100) = true.
Proof.
  destruct z as [sz| | |]; simpl; try discriminate. intros _.
  destruct x as [sx|sx| |sx mx ex]; reflexivity.
Qed.

Lemma wrap64_add_l (a b : Z) : wrap64 (wrap64 a + b) = wrap64 (a + b).
Proof. unfold wrap64. apply Zplus_mod_idemp_l. Qed.

Lemma wrap64_small (a : Z) : is_uint64 a -> wrap64 a = a.
Proof. intros H. unfold wrap64. apply Z.mod_small. exact H. Qed.

Lemma u64_sub_diag (a : Z) : u64_sub a a = 0.
Proof. unfold u64_sub, wrap64. rewrite Z.sub_diag. reflexivity. Qed.

End FloatFacts.

(* --------------------------------------------------------------------- *)
(** ** Stats sampler *)
(* --------------------------------------------------------------------- *)

Section Sampler.

Local Open Scope Z_scope.
Import statsutil service.

(** The guard of [CalculateCPUPercent]: with both float deltas above
    zero the result is the quotient times the core count times 100. *)
Lemma CalculateCPUPercent_positive (stats : StatsResponse) :
  fgt (systemDelta stats) fzero = true ->
  fgt (cpuDelta stats) fzero = true ->
  CalculateCPUPercent stats =
    fmul (fmul (fdiv (cpuDelta stats) (systemDelta stats)) (cpuCount stats)) f100.
Proof. intros Hs Hc. unfold CalculateCPUPercent. rewrite Hs, Hc. reflexivity. Qed.

(** ... and 0 as soon as one of them is not. *)
Lemma CalculateCPUPercent_guarded (stats : StatsResponse) :
  fgt (systemDelta stats) fzero = false \/ fgt (cpuDelta stats) fzero = false ->
  CalculateCPUPercent stats = fzero.
Proof.
  intros [H|H]; unfold CalculateCPUPercent; rewrite H.
  - reflexivity.
  - rewrite andb_false_r. reflexivity.
Qed.

(** Equal totals (a delta of exactly 0) give 0. *)
Lemma CalculateCPUPercent_no_progress (stats : StatsResponse) :
  TotalUsage (CPUUsage_ (CPUStats_ stats)) = TotalUsage (CPUUsage_ (PreCPUStats stats))
  \/ SystemUsage (CPUStats_ stats) = SystemUsage (PreCPUStats stats) ->
  CalculateCPUPercent stats = fzero.
Proof.
  intros H. apply CalculateCPUPercent_guarded.
  destruct H as [H|H]; [right; unfold cpuDelta | left; unfold systemDelta];
    rewrite H, u64_sub_diag; reflexivity.
Qed.

(** Scenario S1: 100 of 1000 ticks on 2 cores is 20.0. *)
Lemma CalculateCPUPercent_S1 :
  CalculateCPUPercent (sim.sample 100 200 1000 2000 2 0 0 []) = f20.
Proof. vm_compute. reflexivity. Qed.

(** C2. The sampler's [cpu_percent] on a sample whose cpu total went
    backwards (cpu_total_prev = 200, cpu_total = 100, so cpuDelta = -100,
    with system 1000 -> 2000 and 2 cores): the unsigned subtraction wraps
    to 2^64 - 100 before the conversion to float, the guard sees a
    positive delta, and the result is about 3.69e18 instead of 0. *)
Theorem CalculateCPUPercent_backwards_counter :
  let stats := sim.sample 200 100 1000 2000 2 0 0 [] in
  u64_sub 100 200 = 2 ^ 64 - 100
  /\ fgt (cpuDelta stats) fzero = true
  /\ CalculateCPUPercent stats = S754_finite false 7205759403792794 9
  /\ is_zero (CalculateCPUPercent stats) = false.
Proof. vm_compute. repeat split; reflexivity. Qed.

(** C1. With a memory limit of 0 the sampler's [MemoryPercent], and the
    memory percentage of the health probe, is the unguarded quotient
    [used / 0 * 100]: NaN or an infinity, never 0. *)
Theorem MemoryPercent_zero_limit (statsJSON : StatsResponse) :
  Limit (MemoryStats_ statsJSON) = 0 ->
  (is_nan (MemoryPercent (calculateMetrics statsJSON))
   || is_inf (MemoryPercent (calculateMetrics statsJSON)) = true)
  /\ (is_nan (healthcheck.memoryPercentOf statsJSON)
      || is_inf (healthcheck.memoryPercentOf statsJSON) = true)
  /\ is_zero (MemoryPercent (calculateMetrics statsJSON)) = false
  /\ is_zero (healthcheck.memoryPercentOf statsJSON) = false.
Proof.
  intros H.
  assert (Hq : forall x, is_nan (fmul (fdiv x (float64_of_Z 0)) f100)
                         || is_inf (fmul (fdiv x (float64_of_Z 0)) f100) = true).
  { intros x. apply div_zero_times_100. reflexivity. }
  assert (Hz : forall y, is_nan y || is_inf y = true -> is_zero y = false).
  { intros y. destruct y; simpl; try discriminate; reflexivity. }
  unfold calculateMetrics, healthcheck.memoryPercentOf. simpl MemoryPercent.
  rewrite H. pose proof (Hq (float64_of_Z (Usage (MemoryStats_ statsJSON)))) as Hu.
  repeat split; auto.
Qed.

(** The sampler run against a daemon that reports usage 0 and limit 0
    returns NaN; with usage 512 MiB and limit 0 it returns +Inf. *)
Lemma MemoryPercent_zero_limit_witness :
  Limit (MemoryStats_ (sim.sample 100 200 1000 2000 2 0 0 [])) = 0
  /\ is_zero (MemoryPercent (calculateMetrics (sim.sample 100 200 1000 2000 2 0 0 []))) = false.
Proof.
  split; [reflexivity|].
  apply (MemoryPercent_zero_limit (sim.sample 100 200 1000 2000 2 0 0 [])).
  reflexivity.
Defined.

Lemma getContainerStats_zero_limit_runs :
  let w := sim.start in
  fst (@getContainerStats _ (sim.runtime (sim.sampling (sim.sample 100 200 1000 2000 2 0 0 [])))
         (sim.client (sim.sampling (sim.sample 100 200 1000 2000 2 0 0 []))) "c1" w)
  = Ok {| CPUPercent := f20; MemoryUsage := 0; MemoryLimit := 0;
          MemoryPercent := S754_nan;
          NetworkRx := 0; NetworkTx := 0; BlockRead := 0; BlockWrite := 0 |}
  /\ MemoryPercent (calculateMetrics (sim.sample 100 200 1000 2000 2 536870912 0 []))
     = S754_infinity false.
Proof. vm_compute. split; reflexivity. Qed.

End Sampler.

(* --------------------------------------------------------------------- *)
(** ** Block-io totals *)
(* --------------------------------------------------------------------- *)

Section BlockIo.

Local Open Scope Z_scope.
Import statsutil.

Lemma sumValues_ext (keep keep' : string -> bool) (entries : list BlkioStatEntry) :
  (forall op, keep op = keep' op) -> sumValues keep entries = sumValues keep' entries.
Proof.
  intros E. induction entries as [|e entries IH]; simpl; [reflexivity|].
  rewrite E, IH. reflexivity.
Qed.

(** The accumulating loop, started from any total. *)
Lemma block_loop_sum (keep : string -> bool) (entries : list BlkioStatEntry) (total : Z) :
  wrap64 (fold_left (fun total bioEntry =>
                       if keep (Op bioEntry) then u64_add total (Value bioEntry) else total)
                    entries total)
  = wrap64 (total + sumValues keep entries).
Proof.
  revert total. induction entries as [|e entries IH]; intros total.
  - simpl. f_equal; lia.
  - simpl fold_left. rewrite IH. simpl sumValues.
    destruct (keep (Op e)).
    + unfold u64_add. rewrite wrap64_add_l. f_equal; lia.
    + f_equal; lia.
Qed.

Lemma wrap64_idem (a : Z) : wrap64 (wrap64 a) = wrap64 a.
Proof. unfold wrap64. apply Z.mod_mod. unfold uint64_modulus. lia. Qed.

Lemma block_loop_wrapped (keep : string -> bool) (entries : list BlkioStatEntry) :
  wrap64 (fold_left (fun total bioEntry =>
                       if keep (Op bioEntry) then u64_add total (Value bioEntry) else total)
                    entries 0)
  = fold_left (fun total bioEntry =>
                 if keep (Op bioEntry) then u64_add total (Value bioEntry) else total)
              entries 0.
Proof.
  assert (G : forall total, wrap64 total = total ->
            wrap64 (fold_left (fun total bioEntry =>
                       if keep (Op bioEntry) then u64_add total (Value bioEntry) else total)
                    entries total)
            = fold_left (fun total bioEntry =>
                       if keep (Op bioEntry) then u64_add total (Value bioEntry) else total)
                    entries total).
  { induction entries as [|e entries IH]; intros total Ht; simpl.
    - exact Ht.
    - apply IH. destruct (keep (Op e)); [apply wrap64_idem | exact Ht]. }
  apply G. reflexivity.
Qed.

(** The claim as the spec words it fails on an entry whose op is in
    upper case: the spec counts its 5 bytes, the code counts none. *)
Lemma GetBlockRead_uppercase_not_counted :
  let stats := sim.sample 0 0 0 0 1 0 0 [sim.blk "READ" 5; sim.blk "WRITE" 7] in
  spec.block_total "read" (IoServiceBytesRecursive stats) = 5
  /\ GetBlockRead stats = 0
  /\ spec.block_total "write" (IoServiceBytesRecursive stats) = 7
  /\ GetBlockWrite stats = 0
  /\ GetBlockRead stats <> spec.block_total "read" (IoServiceBytesRecursive stats).
Proof. vm_compute. repeat split; try reflexivity. discriminate. Qed.

(** C9 (amended). The block-read total is the sum, in 64-bit unsigned
    arithmetic, of the values of the block-io entries whose op is exactly
    "Read" or "read"; the block-write total likewise for "Write" and
    "write"; entries with any other op contribute nothing. *)
Theorem GetBlock_sums_exact_ops (stats : StatsResponse) :
  GetBlockRead stats
  = wrap64 (sumValues (fun op => bool_decide (op = "Read"%string \/ op = "read"%string))
                      (IoServiceBytesRecursive stats))
  /\ GetBlockWrite stats
     = wrap64 (sumValues (fun op => bool_decide (op = "Write"%string \/ op = "write"%string))
                         (IoServiceBytesRecursive stats)).
Proof.
  assert (E : forall a b op : string,
             bool_decide (op = a) || bool_decide (op = b) = bool_decide (op = a \/ op = b)).
  { intros a b op. repeat case_bool_decide; simpl; try reflexivity; tauto. }
  split.
  - unfold GetBlockRead. rewrite <- block_loop_wrapped.
    rewrite (block_loop_sum is_read_op), Z.add_0_l. f_equal.
    apply sumValues_ext. intros op. apply E.
  - unfold GetBlockWrite. rewrite <- block_loop_wrapped.
    rewrite (block_loop_sum is_write_op), Z.add_0_l. f_equal.
    apply sumValues_ext. intros op. apply E.
Qed.

End BlockIo.

(* --------------------------------------------------------------------- *)
(** ** Health probe *)
(* --------------------------------------------------------------------- *)

Section HealthProbe.

Local Open Scope Z_scope.
Import healthcheck.

Lemma statusOf_zero_thresholds (cfg : HealthCheckConfig) (cpuPercent memoryPercent : float64) :
  is_zero (CPUThreshold cfg) = true ->
  is_zero (MemoryThreshold cfg) = true ->
  statusOf cfg cpuPercent memoryPercent
  = if fgt cpuPercent fzero || fgt memoryPercent fzero
    then "resource_critical"%string else "healthy"%string.
Proof.
  intros Hc Hm. unfold statusOf.
  rewrite (fgt_any_zero _ _ Hc), (fgt_any_zero _ _ Hm). reflexivity.
Qed.

(** With both thresholds 0, a running container sampled at cpu% = 0 and
    mem% = 0 (no cpu progress, 0 of 1024 bytes used) is recorded
    healthy, not resource_critical. *)
Lemma checkContainer_idle_is_healthy :
  let idle := sim.sample 100 100 1000 2000 2 0 1024 [] in
  let cfg := {| CPUThreshold := fzero; MemoryThreshold := fzero |} in
  statsutil.CalculateCPUPercent idle = fzero
  /\ memoryPercentOf idle = fzero
  /\ statusOfOutcome
       (fst (@checkContainer _ (sim.runtime (sim.sampling idle)) (sim.client (sim.sampling idle))
               sim.healthRepo
               {| ID := "c1"; Names := ["/web"%string] |} cfg sim.start))
     = Some "healthy"%string
  /\ statusOfOutcome
       (fst (@checkContainer _ (sim.runtime (sim.sampling idle)) (sim.client (sim.sampling idle))
               sim.healthRepo
               {| ID := "c1"; Names := ["/web"%string] |} cfg sim.start))
     <> Some "resource_critical"%string.
Proof. vm_compute. repeat split; try reflexivity. discriminate. Qed.

(** With the default thresholds of 90, a container reporting 512 MiB used
    of a limit of 0 is recorded resource_critical: its memory percentage
    is +Inf. *)
Lemma checkContainer_zero_limit_runs :
  let unlimited := sim.sample 100 100 1000 2000 2 536870912 0 [] in
  let cfg := {| CPUThreshold := float64_of_Z 90; MemoryThreshold := float64_of_Z 90 |} in
  memoryPercentOf unlimited = S754_infinity false
  /\ statusOfOutcome
       (fst (@checkContainer _ (sim.runtime (sim.sampling unlimited))
               (sim.client (sim.sampling unlimited)) sim.healthRepo
               {| ID := "c1"; Names := ["/web"%string] |} cfg sim.start))
     = Some "resource_critical"%string.
Proof. vm_compute. split; reflexivity. Qed.

Context {W : Type}.
Context `{!Runtime W, !docker.Client W, !repository.HealthCheckLogRepository W}.

Lemma store_records (healthLog : models.HealthCheckLog) (w : W) :
  fst (store healthLog w) = Recorded healthLog.
Proof.
  unfold store, bind, ret.
  destruct (repository.CreateHealth healthLog w) as [[e|] w1]; [|reflexivity].
  destruct (log_Printf _ w1). reflexivity.
Qed.

(** C7 (amended). With both thresholds 0, every container the probe
    samples successfully is recorded, and its status is
    resource_critical exactly when cpu% > 0 or mem% > 0; a sample with
    cpu% = 0 and mem% = 0 is recorded healthy. *)
Theorem checkContainer_zero_thresholds (c : Container) (cfg : HealthCheckConfig)
    (w w1 : W) (body : list Byte.byte) (statsData : StatsResponse) :
  Names c <> [] ->
  is_zero (CPUThreshold cfg) = true ->
  is_zero (MemoryThreshold cfg) = true ->
  docker.ContainerStats (ID c) false w = (Ok body, w1) ->
  json_Decode body = Ok statsData ->
  statusOfOutcome (fst (checkContainer c cfg w))
  = Some (if fgt (statsutil.CalculateCPUPercent statsData) fzero
             || fgt (memoryPercentOf statsData) fzero
          then "resource_critical"%string else "healthy"%string).
Proof.
  intros Hn Hc Hm Hs Hd. unfold checkContainer.
  destruct (Names c) as [|name0 names]; [congruence|].
  unfold bind at 1. rewrite Hs, Hd.
  rewrite (statusOf_zero_thresholds cfg _ _ Hc Hm).
  unfold bind, ret.
  match goal with
  | |- context [let (_, _) := ?m w1 in _] => destruct (m w1) as [[] w2]
  end.
  destruct (time_Now w2) as [now w3]. rewrite store_records. reflexivity.
Qed.

End HealthProbe.

(** The amended rule at work: a busy container is critical at thresholds 0. *)
Lemma checkContainer_zero_thresholds_witness :
  healthcheck.statusOfOutcome
    (fst (@healthcheck.checkContainer _
            (sim.runtime (sim.sampling (sim.sample 100 200 1000 2000 2 512 1024 [])))
            (sim.client (sim.sampling (sim.sample 100 200 1000 2000 2 512 1024 [])))
            sim.healthRepo
            {| ID := "c1"; Names := ["/web"%string] |}
            {| healthcheck.CPUThreshold := fzero; healthcheck.MemoryThreshold := fzero |}
            sim.start))
  = Some "resource_critical"%string.
Proof.
  rewrite (@checkContainer_zero_thresholds _
             (sim.runtime (sim.sampling (sim.sample 100 200 1000 2000 2 512 1024 [])))
             (sim.client (sim.sampling (sim.sample 100 200 1000 2000 2 512 1024 [])))
             sim.healthRepo
             _ _ sim.start sim.start []
             (sim.sample 100 200 1000 2000 2 512 1024 []));
    [vm_compute; reflexivity | simpl; discriminate | reflexivity | reflexivity
     | reflexivity | reflexivity].
Defined.

(* --------------------------------------------------------------------- *)
(** ** Mutating operations and the action journal *)
(* --------------------------------------------------------------------- *)

Section Journal.

Context {W : Type}.
Context `{!Runtime W, !docker.Client W, !repository.ActionLogRepository W}.
Import service.

(** [logAction] hands back the error it was given, whatever the journal
    answers. *)
Lemma logAction_returns_err (actionType resourceType resourceID resourceName : string)
    (success : bool) (err : option error) (w : W) :
  fst (logAction actionType resourceType resourceID resourceName success err w) = err.
Proof.
  unfold logAction, bind, ret.
  destruct (time_Now w) as [now w1].
  match goal with
  | |- context [repository.Create ?a w1] => destruct (repository.Create a w1) as [[e|] w2]
  end; [|reflexivity].
  destruct (log_Printf _ w2). reflexivity.
Qed.

(** A failed append changes nothing but the process log. *)
Lemma logAction_failed_append_only_logs (actionType resourceType resourceID resourceName : string)
    (success : bool) (err : option error) (w w1 w2 : W) (now : time.Time) (e : error) :
  time_Now w = (now, w1) ->
  repository.Create
    {| models.ActionType := actionType; models.ResourceType := resourceType;
       models.ResourceID := resourceID; models.ResourceName := resourceName;
       models.Success := success; models.ErrorMessage := default ""%string err;
       models.ExecutedAt := now |} w1 = (Some e, w2) ->
  logAction actionType resourceType resourceID resourceName success err w
  = (err, snd (log_Printf ("Failed to log action: " +:+ e) w2)).
Proof.
  intros Hn Hc. unfold logAction, bind, ret. rewrite Hn, Hc.
  destruct (log_Printf _ w2). reflexivity.
Qed.

Ltac mutation_error :=
  unfold bind;
  match goal with
  | |- context [docker.ContainerInspect ?id ?w] =>
      destruct (docker.ContainerInspect id w) as [[containerJSON|e] w1]
  end; simpl;
  [ match goal with
    | |- _ = fst ?call => destruct call as [[e|] w2]
    end; simpl;
    [ apply logAction_returns_err
    | unfold bind;
      match goal with
      | |- context [log_Printf ?line ?w'] => destruct (log_Printf line w')
      end; apply logAction_returns_err ]
  | apply logAction_returns_err ].

(** C10. Start, stop, restart and remove return exactly the error of the
    daemon: that of the inspect call when it fails, otherwise that of the
    mutating call, [None] when it succeeded. The journal's answer to the
    append does not enter the result. *)
Theorem mutations_return_daemon_error (containerID : string) (force : bool) (w : W) :
  fst (StartContainer containerID w)
  = match docker.ContainerInspect containerID w with
    | (Go.Err e, _) => Some e
    | (Ok _, w1) => fst (docker.ContainerStart containerID w1)
    end
  /\ fst (StopContainer containerID w)
     = match docker.ContainerInspect containerID w with
       | (Go.Err e, _) => Some e
       | (Ok _, w1) => fst (docker.ContainerStop containerID 10%Z w1)
       end
  /\ fst (RestartContainer containerID w)
     = match docker.ContainerInspect containerID w with
       | (Go.Err e, _) => Some e
       | (Ok _, w1) => fst (docker.ContainerRestart containerID 10%Z w1)
       end
  /\ fst (RemoveContainer containerID force w)
     = match docker.ContainerInspect containerID w with
       | (Go.Err e, _) => Some e
       | (Ok _, w1) => fst (docker.ContainerRemove containerID force false w1)
       end.
Proof.
  repeat split.
  - unfold StartContainer. mutation_error.
  - unfold StopContainer. mutation_error.
  - unfold RestartContainer. mutation_error.
  - unfold RemoveContainer. mutation_error.
Qed.

End Journal.

(** Starting a container with the journal down: the call still reports
    success, the record is lost, and the failure is in the process log. *)
Lemma StartContainer_journal_down :
  @service.StartContainer _ (sim.runtime (sim.logging [] true)) (sim.client (sim.logging [] true))
     (sim.actionLogRepo (sim.logging [] true)) "c1" sim.start
  = (None,
     {| sim.journal := []; sim.health := [];
        sim.printed := ["Container /web started successfully"%string;
                        "Failed to log action: database is locked"%string];
        sim.logsCalls := [] |}).
Proof. vm_compute. reflexivity. Qed.

(* --------------------------------------------------------------------- *)
(** ** Bulk operations *)
(* --------------------------------------------------------------------- *)

Section Bulk.

Local Open Scope Z_scope.
Context {W : Type}.
Context `{!Runtime W, !docker.Client W, !repository.ActionLogRepository W}.
Import service.

Lemma counts_add_up (results : list BulkOperationResult) :
  handler.countSuccessful results + handler.countFailed results
  = Z.of_nat (length results).
Proof.
  induction results as [|r results IH]; [reflexivity|].
  cbn [handler.countSuccessful handler.countFailed length].
  destruct (Success r); simpl negb; lia.
Qed.

Lemma bulkOne_reports (mutate : string -> M W (option error)) (containerID : string) (w : W) :
  ContainerID (fst (bulkOne mutate containerID w)) = containerID
  /\ exists w', bulk.reports (fst (bulkOne mutate containerID w)) (fst (mutate containerID w')).
Proof.
  unfold bulkOne, bind, ret.
  destruct (docker.ContainerInspect containerID w) as [inspected w1].
  destruct (mutate containerID w1) as [[e|] w2] eqn:Hm.
  - split; [reflexivity|]. exists w1. rewrite Hm. split; reflexivity.
  - split; [reflexivity|]. exists w1. rewrite Hm. split; reflexivity.
Qed.

Lemma bulkLoop_in_order (mutate : string -> M W (option error)) (containerIDs : list string) :
  forall w,
    Forall2 (fun id r => ContainerID r = id
                         /\ exists w', bulk.reports r (fst (mutate id w')))
            containerIDs (fst (bulkLoop mutate containerIDs w)).
Proof.
  induction containerIDs as [|containerID rest IH]; intros w.
  - constructor.
  - cbn [bulkLoop]. unfold bind at 1.
    pose proof (bulkOne_reports mutate containerID w) as Hone.
    destruct (bulkOne mutate containerID w) as [r w1]. unfold bind, ret.
    specialize (IH w1). destruct (bulkLoop mutate rest w1) as [rs w2].
    constructor; assumption.
Qed.

Lemma bulk_accounted (mutate : string -> M W (option error)) (containerIDs : list string) (w : W) :
  bulk.accounted mutate containerIDs
    (handler.bulkResponse containerIDs (fst (bulkLoop mutate containerIDs w))).
Proof.
  pose proof (bulkLoop_in_order mutate containerIDs w) as HF.
  set (rs := fst (bulkLoop mutate containerIDs w)) in *.
  assert (Hlen : length rs = length containerIDs).
  { symmetry. eapply Forall2_length. exact HF. }
  unfold bulk.accounted, handler.bulkResponse. cbn.
  split; [reflexivity|]. split; [rewrite counts_add_up, Hlen; reflexivity|].
  split; [|exact HF].
  clearbody rs. clear Hlen. induction HF as [|id r ids rs' [Hid _] _ IH]; [reflexivity|].
  cbn. rewrite Hid. f_equal. exact IH.
Qed.

(** C8. The response of each bulk endpoint accounts for the requested
    ids: [total = success + failed = |container_ids|], the results carry
    the input ids once each and in input order, and each reports the
    outcome of its mutating call, with the error string when it failed.
    In scenario S4 the response is total 3, success 2, failed 1 with
    results a, b ("conflict"), c. *)
Theorem bulk_responses_accounted (containerIDs : list string) (force : bool) (w : W) :
  bulk.accounted StartContainer containerIDs
    (fst (handler.BulkStartContainers containerIDs w))
  /\ bulk.accounted StopContainer containerIDs
       (fst (handler.BulkStopContainers containerIDs w))
  /\ bulk.accounted (fun id => RemoveContainer id force) containerIDs
       (fst (handler.BulkRemoveContainers containerIDs force w))
  /\ fst (@handler.BulkStopContainers _ (sim.runtime sim.S4) (sim.client sim.S4)
            (sim.actionLogRepo sim.S4) ["a"; "b"; "c"]%string sim.start)
     = {| handler.results :=
            [ {| ContainerID := "a"; ContainerName := "/a"; Success := true; Error := "" |};
              {| ContainerID := "b"; ContainerName := "/b"; Success := false;
                 Error := "conflict" |};
              {| ContainerID := "c"; ContainerName := "/c"; Success := true; Error := "" |} ];
          handler.total := 3; handler.success := 2; handler.failed := 1 |}.
Proof.
  assert (G : forall mutate,
            bulk.accounted mutate containerIDs
              (fst (bind (bulkLoop mutate containerIDs)
                         (fun results => ret (handler.bulkResponse containerIDs results)) w))).
  { intros mutate. pose proof (bulk_accounted mutate containerIDs w) as HF.
    unfold bind, ret. destruct (bulkLoop mutate containerIDs w) as [rs w1]. exact HF. }
  split; [apply G|]. split; [apply G|]. split; [apply G|].
  vm_compute. reflexivity.
Qed.

End Bulk.

(* --------------------------------------------------------------------- *)
(** ** Frame headers *)
(* --------------------------------------------------------------------- *)

Section HeaderRoundTrip.

Local Open Scope Z_scope.
Import service.

Lemma byteZ_byteOf (z : Z) : 0 <= z < 256 -> byteZ (wire.byteOf z) = z.
Proof.
  intros Hz. unfold byteZ, wire.byteOf.
  destruct (Byte.of_N (Z.to_N z)) as [b|] eqn:E.
  - change (default Byte.x00 (Some b)) with b.
    apply Strings.Byte.to_of_N in E. rewrite E. lia.
  - apply Strings.Byte.of_N_None_iff in E. lia.
Qed.

Lemma land_shiftl_small (a b k : Z) :
  0 <= k -> 0 <= b < 2 ^ k -> Z.land (Z.shiftl a k) b = 0.
Proof.
  intros Hk Hb. apply Z.bits_inj'. intros n Hn.
  rewrite Z.land_spec, Z.bits_0.
  destruct (Z.lt_ge_cases n k) as [Hlt|Hge].
  - rewrite Z.shiftl_spec_low by exact Hlt. reflexivity.
  - destruct (Z.eq_dec b 0) as [->|Hb0].
    + rewrite Z.bits_0. apply andb_false_r.
    + rewrite (Z.bits_above_log2 b n), andb_false_r; [reflexivity|lia|].
      apply Z.log2_lt_pow2; [lia|]. 
      apply Z.lt_le_trans with (2 ^ k); [lia|]. apply Z.pow_le_mono_r; lia.
Qed.

Lemma lor_shiftl_add (a b k : Z) :
  0 <= k -> 0 <= b < 2 ^ k -> Z.lor (Z.shiftl a k) b = a * 2 ^ k + b.
Proof.
  intros Hk Hb.
  rewrite <- Z.lxor_lor by (apply land_shiftl_small; assumption).
  rewrite <- Z.add_nocarry_lxor by (apply land_shiftl_small; assumption).
  rewrite Z.shiftl_mul_pow2 by exact Hk. reflexivity.
Qed.

Lemma lor_disjoint (x b k : Z) :
  0 <= k -> x mod 2 ^ k = 0 -> 0 <= b < 2 ^ k -> Z.lor x b = x + b.
Proof.
  intros Hk Hx Hb.
  assert (Hsh : x = Z.shiftl (x / 2 ^ k) k).
  { rewrite Z.shiftl_mul_pow2 by exact Hk.
    assert (Hnz : 2 ^ k <> 0) by (apply Z.pow_nonzero; lia).
    pose proof (Z.div_mod x (2 ^ k) Hnz) as Hd. rewrite Hx in Hd.
    rewrite Z.mul_comm. lia. }
  rewrite Hsh at 1. rewrite lor_shiftl_add by assumption.
  rewrite Z.shiftl_mul_pow2 in Hsh by exact Hk. rewrite <- Hsh. reflexivity.
Qed.

(** Decoding the length field of a header built for [n] gives [n] back. *)
Lemma payloadSize_headerOf (kind n : Z) :
  0 <= n < 2 ^ 32 -> payloadSize (wire.headerOf kind n) = n.
Proof.
  intros Hn. unfold payloadSize, wire.headerOf. cbn [nth].
  assert (H256 : forall x, 0 <= x mod 256 < 256) by (intros x; apply Z.mod_pos_bound; lia).
  rewrite !byteZ_byteOf by apply H256.
  rewrite !Z.shiftl_mul_pow2 by lia.
  change (2 ^ 32) with 4294967296 in Hn.
  change (2 ^ 24) with 16777216. change (2 ^ 16) with 65536. change (2 ^ 8) with 256.
  pose proof (H256 (n / 16777216)) as Ha. pose proof (H256 (n / 65536)) as Hb.
  pose proof (H256 (n / 256)) as Hc. pose proof (H256 n) as Hd.
  set (a := n / 16777216 mod 256) in *. set (b := n / 65536 mod 256) in *.
  set (c := n / 256 mod 256) in *. set (d := n mod 256) in *.
  rewrite (lor_disjoint (a * 16777216) (b * 65536) 24); [|lia|apply Z_mod_mult|change (2^24) with 16777216; lia].
  rewrite (lor_disjoint (a * 16777216 + b * 65536) (c * 256) 16); [|lia| |change (2^16) with 65536; lia].
  2:{ replace (a * 16777216 + b * 65536) with ((a * 256 + b) * 2 ^ 16) by (change (2^16) with 65536; lia).
      apply Z_mod_mult. }
  rewrite (lor_disjoint _ d 8); [|lia| |change (2^8) with 256; lia].
  2:{ replace (a * 16777216 + b * 65536 + c * 256) with ((a * 65536 + b * 256 + c) * 2 ^ 8)
        by (change (2^8) with 256; lia).
      apply Z_mod_mult. }
  subst a b c d.
  replace (n / 16777216) with (n / 256 / 256 / 256) by (rewrite !Z.div_div by lia; reflexivity).
  replace (n / 65536) with (n / 256 / 256) by (rewrite !Z.div_div by lia; reflexivity).
  pose proof (Z.div_mod n 256 ltac:(lia)) as E1.
  pose proof (Z.div_mod (n / 256) 256 ltac:(lia)) as E2.
  pose proof (Z.div_mod (n / 256 / 256) 256 ltac:(lia)) as E3.
  assert (E4 : n / 256 / 256 / 256 mod 256 = n / 256 / 256 / 256).
  { apply Z.mod_small. split.
    - repeat apply Z.div_pos; lia.
    - rewrite !Z.div_div by lia. apply Z.div_lt_upper_bound; lia. }
  rewrite E4. lia.
Qed.

(** Every payload shorter than 2^32 bytes has its well-formed frame. *)
Lemma wellFramed_frameOf (kind : Z) (p : list Byte.byte) :
  Z.of_nat (length p) < 2 ^ 32 -> wire.wellFramed (wire.frameOf kind p).
Proof.
  intros Hp. split; [reflexivity|]. cbn [wire.frameOf wire.header wire.payload].
  apply payloadSize_headerOf. lia.
Qed.
End HeaderRoundTrip.

(* --------------------------------------------------------------------- *)
(** ** Log demultiplexer *)
(* --------------------------------------------------------------------- *)

Section Demultiplexer.

Local Open Scope Z_scope.
Import service.

Lemma ReadFull_exact (bytes rest : list Byte.byte) (e : io.Error) :
  io.ReadFull {| io.pending := bytes ++ rest; io.ending := e |} (length bytes)
  = (inl bytes, {| io.pending := rest; io.ending := e |}).
Proof.
  unfold io.ReadFull. cbn [io.pending io.ending].
  rewrite take_app_length, drop_app_length.
  case_decide as Hle; [reflexivity|].
  exfalso. apply Hle. rewrite length_app. lia.
Qed.

Lemma ReadFull_at_end (n : nat) :
  (0 < n)%nat ->
  io.ReadFull (wire.reading []) n = (inr io.EOF, wire.reading []).
Proof.
  intros Hn. unfold io.ReadFull, wire.reading. cbn [io.pending io.ending length].
  case_decide; [lia | reflexivity].
Qed.

Lemma ReadFull_cut_short (bytes : list Byte.byte) (n : nat) :
  bytes <> [] -> (length bytes < n)%nat ->
  io.ReadFull (wire.reading bytes) n = (inr io.ErrUnexpectedEOF, wire.reading []).
Proof.
  intros Hne Hn. unfold io.ReadFull, wire.reading. cbn [io.pending io.ending].
  case_decide; [lia|]. destruct bytes; [congruence | reflexivity].
Qed.

Lemma storeFront_take (bytes buf : list Byte.byte) :
  take (length bytes) (storeFront bytes buf) = bytes.
Proof. unfold storeFront. apply take_app_length. Qed.

Lemma payloadSize_nonneg (header : list Byte.byte) : 0 <= payloadSize header.
Proof.
  unfold payloadSize, byteZ.
  repeat (apply Z.lor_nonneg; split); try apply Z.shiftl_nonneg; apply N2Z.is_nonneg.
Qed.

Lemma wellFramed_cons_length (f : wire.Frame) (rest : list Byte.byte) :
  wire.wellFramed f ->
  length (wire.frameBytes f ++ rest)
  = (8 + length (wire.payload f) + length rest)%nat.
Proof.
  intros [H8 _]. unfold wire.frameBytes. rewrite !length_app, H8. lia.
Qed.

(** Reading one well-formed frame: the header, then the payload. *)
Lemma read_frame (f : wire.Frame) (rest : list Byte.byte) (e : io.Error) :
  wire.wellFramed f ->
  io.ReadFull {| io.pending := wire.frameBytes f ++ rest; io.ending := e |} 8
  = (inl (wire.header f),
     {| io.pending := wire.payload f ++ rest; io.ending := e |})
  /\ io.ReadFull {| io.pending := wire.payload f ++ rest; io.ending := e |}
                 (Z.to_nat (payloadSize (wire.header f)))
     = (inl (wire.payload f), {| io.pending := rest; io.ending := e |}).
Proof.
  intros [H8 Hsize]. split.
  - unfold wire.frameBytes. rewrite <- app_assoc, <- H8. apply ReadFull_exact.
  - rewrite Hsize, Nat2Z.id. apply ReadFull_exact.
Qed.

(** [GetLogs_loop] over a run of well-formed frames followed by [tail]:
    the payloads are appended and the loop goes on with [tail], whose
    outcome [R] is a function of what has been gathered. *)
Lemma GetLogs_loop_frames (frames : list wire.Frame) (tail : list Byte.byte)
    (e : io.Error) (R : list Byte.byte -> option (Go.result (list Byte.byte))) :
  Forall wire.wellFramed frames ->
  (forall fuel buf acc, (length tail < fuel)%nat ->
     GetLogs_loop fuel {| io.pending := tail; io.ending := e |} buf acc = R acc) ->
  forall fuel buf acc,
    (length (wire.stream frames ++ tail) < fuel)%nat ->
    GetLogs_loop fuel {| io.pending := wire.stream frames ++ tail; io.ending := e |} buf acc
    = R (acc ++ concat (wire.payloads frames)).
Proof.
  intros Hwf Htail. induction Hwf as [|f frames Hf _ IH]; intros fuel buf acc Hfuel.
  - cbn. rewrite app_nil_r. apply Htail. exact Hfuel.
  - unfold wire.stream, wire.payloads in *. cbn [fmap list_fmap concat] in *.
    rewrite <- app_assoc in *.
    rewrite (wellFramed_cons_length f _ Hf) in Hfuel.
    destruct fuel as [|fuel]; [lia|].
    destruct (read_frame f (concat (wire.frameBytes <$> frames) ++ tail) e Hf) as [Hh Hp].
    cbn [GetLogs_loop]. rewrite Hh.
    destruct Hf as [H8 Hsize].
    destruct (Z.eqb_spec (payloadSize (wire.header f)) 0) as [Hz|Hnz].
    + assert (Hnil : wire.payload f = []).
      { apply nil_length_inv. lia. }
      rewrite Hnil. cbn [app]. apply IH. lia.
    + rewrite Hp, storeFront_take, app_assoc. apply IH. lia.
Qed.

(** The same for the goroutine of [StreamLogs], writing to the recorder
    under a context that is never done. *)
Lemma StreamLogs_loop_frames (ctx : context.Context) (frames : list wire.Frame)
    (tail : list Byte.byte) (e : io.Error)
    (R : list (list Byte.byte) -> option (option error * list (list Byte.byte))) :
  (forall turn, context.Done ctx turn = false) ->
  Forall wire.wellFramed frames ->
  (forall fuel turn buf written, (length tail < fuel)%nat ->
     @StreamLogs_loop _ sim.recorder fuel ctx turn
        {| io.pending := tail; io.ending := e |} buf written = R written) ->
  forall fuel turn buf written,
    (length (wire.stream frames ++ tail) < fuel)%nat ->
    @StreamLogs_loop _ sim.recorder fuel ctx turn
       {| io.pending := wire.stream frames ++ tail; io.ending := e |} buf written
    = R (written ++ wire.chunks frames).
Proof.
  intros Hctx Hwf Htail.
  induction Hwf as [|f frames Hf _ IH]; intros fuel turn buf written Hfuel.
  - cbn. rewrite app_nil_r. apply Htail. exact Hfuel.
  - unfold wire.stream, wire.chunks, wire.payloads in *. cbn [fmap list_fmap concat] in *.
    rewrite <- app_assoc in *.
    rewrite (wellFramed_cons_length f _ Hf) in Hfuel.
    destruct fuel as [|fuel]; [lia|].
    destruct (read_frame f (concat (wire.frameBytes <$> frames) ++ tail) e Hf) as [Hh Hp].
    cbn [StreamLogs_loop]. rewrite Hctx, Hh.
    destruct Hf as [H8 Hsize].
    destruct (Z.eqb_spec (payloadSize (wire.header f)) 0) as [Hz|Hnz].
    + assert (Hnil : wire.payload f = []).
      { apply nil_length_inv. lia. }
      rewrite Hnil, filter_cons_False by (intros Hne; apply Hne; reflexivity).
      cbn [app]. apply IH. lia.
    + assert (Hne : wire.payload f <> []).
      { intros Hnil. rewrite Hnil in Hsize. cbn in Hsize. lia. }
      rewrite Hp, storeFront_take, filter_cons_True by exact Hne.
      cbn [io.Write sim.recorder flushIfSupported io.Flush snd].
      match goal with
      | |- _ = R (written ++ ?p :: ?rest) =>
          replace (written ++ p :: rest) with ((written ++ [p]) ++ rest)
            by (rewrite <- app_assoc; reflexivity)
      end.
      apply IH. lia.
Qed.

(** At a clean end of the stream both loops stop normally. *)
Lemma GetLogs_loop_at_end (fuel : nat) (buf acc : list Byte.byte) :
  (0 < fuel)%nat ->
  GetLogs_loop fuel (wire.reading []) buf acc = Some (Ok acc).
Proof. intros Hf. destruct fuel; [lia|]. reflexivity. Qed.

Lemma StreamLogs_loop_at_end (ctx : context.Context) (fuel turn : nat)
    (buf : list Byte.byte) (written : list (list Byte.byte)) :
  (forall turn, context.Done ctx turn = false) ->
  (0 < fuel)%nat ->
  @StreamLogs_loop _ sim.recorder fuel ctx turn (wire.reading []) buf written
  = Some (None, written).
Proof.
  intros Hctx Hf. destruct fuel; [lia|]. cbn [StreamLogs_loop]. rewrite Hctx. reflexivity.
Qed.

(** The four ways a stream can stop, for [GetLogs_loop] ... *)
Lemma GetLogs_loop_tail (t : truncation.Tail) (fuel : nat) (buf acc : list Byte.byte) :
  truncation.valid t ->
  (length (truncation.bytes t) < fuel)%nat ->
  GetLogs_loop fuel (wire.reading (truncation.bytes t)) buf acc
  = Some (truncation.resultOf t acc).
Proof.
  intros Hv Hfuel. destruct fuel as [|fuel]; [lia|].
  destruct t as [|part|header|header part]; cbn [truncation.bytes truncation.valid] in *.
  - reflexivity.
  - cbn [GetLogs_loop]. rewrite ReadFull_cut_short; [reflexivity| |lia].
    intros ->. cbn in Hv. lia.
  - destruct Hv as [H8 Hpos]. cbn [GetLogs_loop].
    rewrite <- (app_nil_r header), <- H8. unfold wire.reading. rewrite ReadFull_exact.
    destruct (Z.eqb_spec (payloadSize header) 0) as [Hz|_]; [lia|].
    fold (wire.reading []). rewrite ReadFull_at_end by lia. reflexivity.
  - destruct Hv as (H8 & Hne & Hlt). cbn [GetLogs_loop].
    unfold wire.reading. rewrite <- H8, ReadFull_exact.
    destruct (Z.eqb_spec (payloadSize header) 0) as [Hz|_]; [lia|].
    fold (wire.reading part). rewrite ReadFull_cut_short; [reflexivity|exact Hne|lia].
Qed.

(** ... and for the goroutine of [StreamLogs]. *)
Lemma StreamLogs_loop_tail (ctx : context.Context) (t : truncation.Tail) (fuel turn : nat)
    (buf : list Byte.byte) (written : list (list Byte.byte)) :
  (forall turn, context.Done ctx turn = false) ->
  truncation.valid t ->
  (length (truncation.bytes t) < fuel)%nat ->
  @StreamLogs_loop _ sim.recorder fuel ctx turn (wire.reading (truncation.bytes t)) buf written
  = Some (truncation.outcome t, written).
Proof.
  intros Hctx Hv Hfuel. destruct fuel as [|fuel]; [lia|].
  cbn [StreamLogs_loop]. rewrite Hctx.
  destruct t as [|part|header|header part]; cbn [truncation.bytes truncation.valid] in *.
  - reflexivity.
  - rewrite ReadFull_cut_short; [reflexivity| |lia].
    intros ->. cbn in Hv. lia.
  - destruct Hv as [H8 Hpos].
    rewrite <- (app_nil_r header), <- H8. unfold wire.reading. rewrite ReadFull_exact.
    destruct (Z.eqb_spec (payloadSize header) 0) as [Hz|_]; [lia|].
    fold (wire.reading []). rewrite ReadFull_at_end by lia. reflexivity.
  - destruct Hv as (H8 & Hne & Hlt).
    unfold wire.reading. rewrite <- H8, ReadFull_exact.
    destruct (Z.eqb_spec (payloadSize header) 0) as [Hz|_]; [lia|].
    fold (wire.reading part). rewrite ReadFull_cut_short; [reflexivity|exact Hne|lia].
Qed.

Lemma declared_is_emitted (frames : list wire.Frame) :
  Forall wire.wellFramed frames ->
  Z.of_nat (length (concat (wire.payloads frames))) = wire.declared frames.
Proof.
  induction 1 as [|f frames [_ Hsize] _ IH]; [reflexivity|].
  unfold wire.payloads, wire.declared in *. cbn [fmap list_fmap concat foldr].
  rewrite length_app, Nat2Z.inj_add, IH, Hsize. reflexivity.
Qed.

Lemma chunks_concat (frames : list wire.Frame) :
  concat (wire.chunks frames) = concat (wire.payloads frames).
Proof.
  unfold wire.chunks, wire.payloads.
  induction frames as [|f frames IH]; [reflexivity|].
  cbn [fmap list_fmap]. rewrite filter_cons. case_decide as Hp.
  - cbn [concat]. rewrite <- IH. reflexivity.
  - cbn [concat]. rewrite Hp, <- IH. reflexivity.
Qed.

(** Whole streams: frames, then one of the four tails. *)
Lemma GetLogs_loop_stream (frames : list wire.Frame) (t : truncation.Tail) :
  Forall wire.wellFramed frames ->
  truncation.valid t ->
  let reader := wire.reading (wire.stream frames ++ truncation.bytes t) in
  GetLogs_loop (GetLogs_fuel reader) reader (make initialBufLen) []
  = Some (truncation.resultOf t (concat (wire.payloads frames))).
Proof.
  intros Hwf Hv reader.
  apply (GetLogs_loop_frames frames (truncation.bytes t) io.EOF
           (fun acc => Some (truncation.resultOf t acc)) Hwf).
  - intros fuel buf acc Hfuel. apply GetLogs_loop_tail; assumption.
  - unfold GetLogs_fuel, reader. cbn. lia.
Qed.

Lemma StreamLogs_loop_stream (ctx : context.Context) (frames : list wire.Frame)
    (t : truncation.Tail) :
  (forall turn, context.Done ctx turn = false) ->
  Forall wire.wellFramed frames ->
  truncation.valid t ->
  let reader := wire.reading (wire.stream frames ++ truncation.bytes t) in
  @StreamLogs_loop _ sim.recorder (GetLogs_fuel reader) ctx 0 reader (make initialBufLen) []
  = Some (truncation.outcome t, wire.chunks frames).
Proof.
  intros Hctx Hwf Hv reader.
  apply (StreamLogs_loop_frames ctx frames (truncation.bytes t) io.EOF
           (fun written => Some (truncation.outcome t, written)) Hctx Hwf).
  - intros fuel turn buf written Hfuel. apply StreamLogs_loop_tail; assumption.
  - unfold GetLogs_fuel, reader. cbn. lia.
Qed.

(** Scenario S3 is the stream of two well-formed frames. *)
Lemma S3_frames :
  wire.S3 = wire.stream [wire.frameOf wire.stdout (wire.text "hello");
                         wire.frameOf wire.stderr (wire.text "err")]
  /\ Forall wire.wellFramed [wire.frameOf wire.stdout (wire.text "hello");
                             wire.frameOf wire.stderr (wire.text "err")].
Proof.
  split; [reflexivity|].
  repeat constructor.
Qed.

(** The stream that stops right after a header declaring 5 bytes: both
    loops end normally, with no error. *)
Lemma truncated_after_header_ends_normally :
  let cut := [Byte.x01; Byte.x00; Byte.x00; Byte.x00; Byte.x00; Byte.x00; Byte.x00; Byte.x05] in
  payloadSize cut = 5
  /\ GetLogs_loop (GetLogs_fuel (wire.reading cut)) (wire.reading cut) (make initialBufLen) []
     = Some (Ok [])
  /\ @StreamLogs_loop _ sim.recorder (GetLogs_fuel (wire.reading cut)) context.Background 0
        (wire.reading cut) (make initialBufLen) []
     = Some (None, [])
  /\ fst (@GetLogs _ (sim.client (sim.logging cut false)) "c1"
            {| Follow := false; Tail := "all"; Since := ""; Until := ""; Timestamps := false |}
            sim.start)
     = Some (Ok []).
Proof. vm_compute. repeat split; reflexivity. Qed.

(** C4 (amended). A stream that ends cleanly after a run of whole frames
    and then inside a header (1 to 7 bytes), or inside a payload after at
    least one of its bytes, makes the demultiplexer fail with "failed to
    read log header: unexpected EOF", respectively "failed to read log
    payload: unexpected EOF". A stream that ends at a frame boundary, or
    right after a whole header declaring N > 0, ends it normally with the
    payloads of the whole frames. This holds for [GetLogs] and for the
    goroutine of [StreamLogs] under a context that is never done. *)
Theorem demultiplexer_truncation (ctx : context.Context) (frames : list wire.Frame)
    (t : truncation.Tail) :
  (forall turn, context.Done ctx turn = false) ->
  Forall wire.wellFramed frames ->
  truncation.valid t ->
  let reader := wire.reading (wire.stream frames ++ truncation.bytes t) in
  GetLogs_loop (GetLogs_fuel reader) reader (make initialBufLen) []
  = Some match t with
         | truncation.Boundary | truncation.AfterHeader _ =>
             Ok (concat (wire.payloads frames))
         | truncation.InHeader _ =>
             Go.Err "failed to read log header: unexpected EOF"
         | truncation.InPayload _ _ =>
             Go.Err "failed to read log payload: unexpected EOF"
         end
  /\ @StreamLogs_loop _ sim.recorder (GetLogs_fuel reader) ctx 0 reader (make initialBufLen) []
     = Some (match t with
             | truncation.Boundary | truncation.AfterHeader _ => None
             | truncation.InHeader _ =>
                 Some "failed to read log header: unexpected EOF"%string
             | truncation.InPayload _ _ =>
                 Some "failed to read log payload: unexpected EOF"%string
             end, wire.chunks frames).
Proof.
  intros Hctx Hwf Hv reader. split.
  - unfold reader. rewrite (GetLogs_loop_stream frames t Hwf Hv).
    destruct t; reflexivity.
  - unfold reader. rewrite (StreamLogs_loop_stream ctx frames t Hctx Hwf Hv).
    destruct t; reflexivity.
Qed.

(** One frame "hello", then a header declaring 3 bytes and the single
    byte "e". *)
Lemma demultiplexer_truncation_witness :
  GetLogs_loop
    (GetLogs_fuel (wire.reading (wire.stream [wire.frameOf wire.stdout (wire.text "hello")]
                                 ++ truncation.bytes
                                      (truncation.InPayload (wire.headerOf wire.stderr 3)
                                                            (wire.text "e")))))
    (wire.reading (wire.stream [wire.frameOf wire.stdout (wire.text "hello")]
                   ++ truncation.bytes
                        (truncation.InPayload (wire.headerOf wire.stderr 3) (wire.text "e"))))
    (make initialBufLen) []
  = Some (Go.Err "failed to read log payload: unexpected EOF").
Proof.
  apply (demultiplexer_truncation context.Background
           [wire.frameOf wire.stdout (wire.text "hello")]
           (truncation.InPayload (wire.headerOf wire.stderr 3) (wire.text "e"))).
  - intros turn. reflexivity.
  - repeat constructor.
  - split; [reflexivity|]. split; [discriminate|]. vm_compute. reflexivity.
Defined.

(** The loop never runs out of the fuel [GetLogs] gives it, whatever the
    bytes of the stream and however it ends. *)
Lemma GetLogs_loop_total (fuel : nat) :
  forall (reader : io.Reader) (buf acc : list Byte.byte),
    (length (io.pending reader) < fuel)%nat ->
    is_Some (GetLogs_loop fuel reader buf acc).
Proof.
  induction fuel as [|fuel IH]; intros reader buf acc Hfuel; [lia|].
  cbn [GetLogs_loop]. unfold io.ReadFull at 1.
  case_decide as H8.
  - destruct (Z.eqb (payloadSize (take 8 (io.pending reader))) 0).
    + apply IH. cbn [io.pending]. rewrite length_drop. lia.
    + unfold io.ReadFull. cbn [io.pending io.ending].
      case_decide as Hn.
      * apply IH. cbn [io.pending]. rewrite !length_drop. lia.
      * destruct (io.ending reader); [destruct (drop 8 (io.pending reader))| |]; eexists; reflexivity.
  - destruct (io.ending reader); [destruct (io.pending reader)| |]; eexists; reflexivity.
Qed.

End Demultiplexer.

Section DemultiplexerService.

Local Open Scope Z_scope.
Import service.
Context {W : Type}.
Context `{!Runtime W, !docker.Client W}.

(** C3. On a well-formed multiplexed stream that ends at a frame
    boundary, [GetLogs] returns the payloads of the frames one after the
    other and nothing else, and the goroutine of [StreamLogs] (context
    never done) writes each non-empty payload as one chunk, in order, and
    closes the channel without an error: every header is read as 8 bytes
    and its bytes 4..7 as the big-endian length, the bytes emitted are as
    many as the headers declare, and a frame of length 0 produces no
    write. On the bytes of S3 the chunks are "hello" then "err". *)
Theorem demultiplexer_emits_payloads (ctx : context.Context) (containerID : string)
    (opts : LogStreamOptions) (frames : list wire.Frame) (w w1 w2 : W) :
  Forall wire.wellFramed frames ->
  (forall turn, context.Done ctx turn = false) ->
  docker.ContainerLogs containerID (logsOptionsOf opts false) w
  = (Ok (wire.reading (wire.stream frames)), w1) ->
  docker.ContainerLogs containerID (logsOptionsOf opts (Follow opts)) w
  = (Ok (wire.reading (wire.stream frames)), w2) ->
  GetLogs containerID opts w = (Some (Ok (concat (wire.payloads frames))), w1)
  /\ @StreamLogs _ sim.recorder _ _ _ ctx containerID opts [] w
     = (Ok (Some (None, wire.chunks frames)), w2)
  /\ concat (wire.chunks frames) = concat (wire.payloads frames)
  /\ Forall (fun chunk => chunk <> []) (wire.chunks frames)
  /\ Z.of_nat (length (concat (wire.payloads frames))) = wire.declared frames
  /\ (forall kind n, 0 <= n < 2 ^ 32 -> payloadSize (wire.headerOf kind n) = n)
  /\ GetLogs_loop (GetLogs_fuel (wire.reading wire.S3)) (wire.reading wire.S3)
                  (make initialBufLen) []
     = Some (Ok (wire.text "hello" ++ wire.text "err"))
  /\ @StreamLogs_loop _ sim.recorder (GetLogs_fuel (wire.reading wire.S3)) context.Background 0
        (wire.reading wire.S3) (make initialBufLen) []
     = Some (None, [wire.text "hello"; wire.text "err"]).
Proof.
  intros Hwf Hctx Hget Hstream.
  pose proof (GetLogs_loop_stream frames truncation.Boundary Hwf I) as HG.
  pose proof (StreamLogs_loop_stream ctx frames truncation.Boundary Hctx Hwf I) as HS.
  cbn [truncation.bytes] in HG, HS. rewrite app_nil_r in HG, HS. cbn zeta in HG, HS.
  split; [unfold GetLogs, bind, ret; rewrite Hget, HG; reflexivity|].
  split; [unfold StreamLogs, bind, ret; rewrite Hstream, HS; reflexivity|].
  split; [apply chunks_concat|].
  split.
  { unfold wire.chunks. apply Forall_forall. intros chunk Hin.
    apply list_elem_of_filter in Hin. tauto. }
  split; [apply declared_is_emitted; exact Hwf|].
  split; [intros kind n Hn; apply payloadSize_headerOf; exact Hn|].
  split; vm_compute; reflexivity.
Qed.

End DemultiplexerService.

(** A daemon whose container logs are the bytes of S3, with an empty
    frame put between the two: the download path and the streaming path. *)
Lemma demultiplexer_emits_payloads_witness :
  fst (@service.GetLogs _ (sim.client (sim.logging
          (wire.stream [wire.frameOf wire.stdout (wire.text "hello");
                        wire.frameOf wire.stdout [];
                        wire.frameOf wire.stderr (wire.text "err")]) false)) "c1"
         {| service.Follow := true; service.Tail := "100"; service.Since := "";
            service.Until := ""; service.Timestamps := false |} sim.start)
  = Some (Ok (wire.text "helloerr"))
  /\ fst (@service.StreamLogs _ sim.recorder _
            (sim.runtime (sim.logging
               (wire.stream [wire.frameOf wire.stdout (wire.text "hello");
                             wire.frameOf wire.stdout [];
                             wire.frameOf wire.stderr (wire.text "err")]) false))
            (sim.client (sim.logging
               (wire.stream [wire.frameOf wire.stdout (wire.text "hello");
                             wire.frameOf wire.stdout [];
                             wire.frameOf wire.stderr (wire.text "err")]) false))
            context.Background "c1"
            {| service.Follow := true; service.Tail := "100"; service.Since := "";
               service.Until := ""; service.Timestamps := false |} [] sim.start)
     = Ok (Some (None, [wire.text "hello"; wire.text "err"])).
Proof.
  pose proof (@demultiplexer_emits_payloads _
                (sim.runtime (sim.logging
                   (wire.stream [wire.frameOf wire.stdout (wire.text "hello");
                                 wire.frameOf wire.stdout [];
                                 wire.frameOf wire.stderr (wire.text "err")]) false))
                (sim.client (sim.logging
                   (wire.stream [wire.frameOf wire.stdout (wire.text "hello");
                                 wire.frameOf wire.stdout [];
                                 wire.frameOf wire.stderr (wire.text "err")]) false))
                context.Background "c1"
                {| service.Follow := true; service.Tail := "100"; service.Since := "";
                   service.Until := ""; service.Timestamps := false |}
                [wire.frameOf wire.stdout (wire.text "hello");
                 wire.frameOf wire.stdout [];
                 wire.frameOf wire.stderr (wire.text "err")]
                sim.start _ _
                ltac:(repeat constructor) ltac:(intros turn; reflexivity)
                eq_refl eq_refl) as (HG & HS & _).
  rewrite HG, HS. split; reflexivity.
Defined.

(* --------------------------------------------------------------------- *)
(** ** Stats aggregator *)
(* --------------------------------------------------------------------- *)

Section Aggregator.

Local Open Scope Z_scope.
Import service.
Context {W : Type}.
Context `{!Runtime W, !docker.Client W, !repository.ActionLogRepository W}.

Lemma sampleTask_id (c : Container) (w : W) :
  containerID (fst (sampleTask c w)) = ID c.
Proof.
  unfold sampleTask, bind, ret.
  destruct (getContainerStats (ID c) w) as [[st|e] w1]; reflexivity.
Qed.

(** The tasks deliver one result per container, in the scheduled order. *)
Lemma fanOut_ids (containers : list Container) :
  forall w, containerID <$> fst (fanOut containers w) = ID <$> containers.
Proof.
  induction containers as [|c rest IH]; intros w; [reflexivity|].
  cbn [fanOut]. unfold bind at 1.
  pose proof (sampleTask_id c w) as Hid.
  destruct (sampleTask c w) as [r w1]. unfold bind, ret.
  specialize (IH w1). destruct (fanOut rest w1) as [rs w2].
  cbn in *. rewrite Hid, IH. reflexivity.
Qed.

(** The collecting loop: what it adds to the map and to the summary. *)
Lemma collect_adds (results : list statsResult) :
  forall (newStats : gmap string ContainerStats) (summary : DashboardSummary) (w : W),
    NoDup (containerID <$> results) ->
    (forall r, r ∈ results -> newStats !! containerID r = None) ->
    map_to_list (fst (fst (collect results newStats summary w)))
      ≡ₚ map_to_list newStats ++ snapshot.successes results
    /\ ContainerCount (snd (fst (collect results newStats summary w)))
       = ContainerCount summary + Z.of_nat (length (snapshot.successes results))
    /\ TotalCPUPercent (snd (fst (collect results newStats summary w)))
       = fold_left fadd (snapshot.cpuOf <$> snapshot.successes results)
                   (TotalCPUPercent summary).
Proof.
  induction results as [|r rest IH]; intros newStats summary w Hnd Hfresh.
  - cbn. rewrite app_nil_r. repeat split; [reflexivity | lia].
  - rewrite fmap_cons in Hnd. apply NoDup_cons in Hnd as [Hnotin Hnd].
    assert (Hrest : forall r', r' ∈ rest -> newStats !! containerID r' = None).
    { intros r' Hin. apply Hfresh. right. exact Hin. }
    cbn [collect]. unfold snapshot.successes. cbn [omap list_omap].
    fold (snapshot.successes rest).
    destruct (err r) as [e|] eqn:He.
    + unfold bind. destruct (log_Printf _ w) as [[] w1].
      apply IH; assumption.
    + destruct (stats r) as [st|] eqn:Hst.
      * assert (Hr : newStats !! containerID r = None) by (apply Hfresh; left).
        destruct (IH (<[containerID r := st]> newStats) (aggregate summary st) w Hnd)
          as (Hperm & Hcount & Hcpu).
        { intros r' Hin. rewrite lookup_insert_ne; [apply Hrest; exact Hin|].
          intros Heq. apply Hnotin. rewrite Heq. apply list_elem_of_fmap_2. exact Hin. }
        split; [|split].
        -- rewrite Hperm, (map_to_list_insert _ _ _ Hr).
           cbn [app]. rewrite Permutation_middle. reflexivity.
        -- rewrite Hcount. cbn [aggregate ContainerCount length]. lia.
        -- rewrite Hcpu. reflexivity.
      * apply IH; assumption.
Qed.

Lemma finishSummary_keeps (summary : DashboardSummary) :
  ContainerCount (finishSummary summary) = ContainerCount summary
  /\ TotalCPUPercent (finishSummary summary) = TotalCPUPercent summary.
Proof. unfold finishSummary. destruct (Z.ltb 0 (TotalMemoryLimit summary)); split; reflexivity. Qed.

(** C5. When the daemon lists the running containers, each once, the
    snapshot [refresh] publishes is consistent, whatever the order in which
    the sampling tasks complete: the entries of the map are exactly the
    samples that succeeded, [ContainerCount] is the number of entries, and
    [TotalCPUPercent] is the sum of their [CPUPercent], added in the order
    of arrival. A container whose sampler failed is in neither. *)
Theorem refresh_publishes_consistent (schedule : list Container -> list Container)
    (arrival : list statsResult -> list statsResult)
    (c : StatsCache) (containers : list Container) (w w1 : W) :
  (forall l, schedule l ≡ₚ l) ->
  (forall l, arrival l ≡ₚ l) ->
  docker.ContainerList false w = (Ok containers, w1) ->
  NoDup (ID <$> containers) ->
  snapshot.consistent (fst (refresh schedule arrival c w))
    (snapshot.successes (arrival (fst (fanOut (schedule containers) w1)))).
Proof.
  intros Hsched Harr Hlist Hnd. unfold refresh. unfold bind at 1. rewrite Hlist.
  destruct containers as [|c0 rest].
  - assert (Hnil : schedule [] = []).
    { apply Permutation_nil_r. apply Hsched. }
    assert (Hnil' : arrival [] = []).
    { apply Permutation_nil_r. apply Harr. }
    rewrite Hnil. cbn [fanOut]. unfold ret. cbn [fst]. rewrite Hnil'.
    cbn [snapshot.successes omap list_omap].
    exists emptySummary. cbn [dashboardSummary containerStats].
    rewrite map_to_list_empty, map_size_empty.
    split; [reflexivity|]. split; [reflexivity|]. split; reflexivity.
  - set (containers := c0 :: rest) in *.
    unfold bind at 1.
    pose proof (fanOut_ids (schedule containers) w1) as Hids.
    destruct (fanOut (schedule containers) w1) as [results w2]. cbn [fst] in *.
    assert (Hndr : NoDup (containerID <$> arrival results)).
    { rewrite (Harr results), Hids, (Hsched containers). exact Hnd. }
    destruct (collect_adds (arrival results) ∅ emptySummary w2 Hndr)
      as (Hperm & Hcount & Hcpu).
    { intros r _. apply lookup_empty. }
    unfold bind, ret.
    destruct (collect (arrival results) ∅ emptySummary w2) as [[newStats summary] w3].
    cbn [fst snd] in *. rewrite map_to_list_empty in Hperm. cbn [app] in Hperm.
    exists (finishSummary summary). cbn [dashboardSummary containerStats].
    destruct (finishSummary_keeps summary) as [Hk1 Hk2].
    split; [reflexivity|]. split; [symmetry; exact Hperm|].
    split.
    + rewrite Hk1, Hcount, <- length_map_to_list, Hperm. cbn. lia.
    + rewrite Hk2, Hcpu. reflexivity.
Qed.

End Aggregator.

(** Three containers, the second failing to sample, the tasks reaching
    the daemon in reverse order and the results arriving in list order: two
    entries of 20% each, a count of 2, a total of 40. *)
Lemma refresh_publishes_consistent_witness :
  snapshot.consistent
    (fst (@service.refresh _ (sim.runtime sim.fleet) (sim.client sim.fleet) reverse reverse
            {| service.containerStats := ∅; service.dashboardSummary := None |} sim.start))
    (snapshot.successes
       (reverse
          (fst (@service.fanOut _ (sim.runtime sim.fleet) (sim.client sim.fleet)
                  (reverse [ {| ID := "c1"; Names := ["/web"%string] |};
                             {| ID := "c2"; Names := ["/db"%string] |};
                             {| ID := "c3"; Names := ["/cache"%string] |} ]) sim.start)))).
Proof.
  apply (@refresh_publishes_consistent _ (sim.runtime sim.fleet) (sim.client sim.fleet)
           reverse reverse _ _ sim.start sim.start).
  - intros l. apply reverse_Permutation.
  - intros l. apply reverse_Permutation.
  - reflexivity.
  - apply (bool_decide_unpack _). vm_compute. reflexivity.
Defined.

Lemma refresh_fleet_runs :
  let published :=
    fst (@service.refresh _ (sim.runtime sim.fleet) (sim.client sim.fleet) reverse reverse
           {| service.containerStats := ∅; service.dashboardSummary := None |} sim.start) in
  (service.CPUPercent <$> service.containerStats published !! "c1"%string) = Some f20
  /\ service.containerStats published !! "c2"%string = None
  /\ (service.CPUPercent <$> service.containerStats published !! "c3"%string) = Some f20
  /\ size (service.containerStats published) = 2%nat
  /\ (service.ContainerCount <$> service.dashboardSummary published) = Some 2%Z
  /\ (service.TotalCPUPercent <$> service.dashboardSummary published)
     = Some (float64_of_Z 40)
  /\ sim.printed
       (snd (@service.refresh _ (sim.runtime sim.fleet) (sim.client sim.fleet) reverse reverse
               {| service.containerStats := ∅; service.dashboardSummary := None |} sim.start))
     = ["Failed to get stats for container c2: context deadline exceeded"%string].
Proof. vm_compute. repeat split; reflexivity. Qed.

(* --------------------------------------------------------------------- *)
(** ** Log download *)
(* --------------------------------------------------------------------- *)

Section Download.

Import service.

(** The query of the request does not reach the archive builder. *)
Lemma DownloadLogs_query_irrelevant {W Zw : Type}
    `{!Runtime W, !docker.Client W, !zip.Writer Zw}
    (req1 req2 : handler.Request) (body : Zw) (w : W) :
  handler.Param_id req1 = handler.Param_id req2 ->
  handler.DownloadLogs req1 body w = handler.DownloadLogs req2 body w.
Proof. intros Hid. unfold handler.DownloadLogs. rewrite Hid. reflexivity. Qed.

(** C6. A download request asking for [tail=10] and [timestamps=false]:
    the daemon is asked, in non-follow mode, for tail "all" with
    timestamps, not for what the caller specified; the archive has the
    single entry [web_20240307-090500.log], named after the inspected
    container and the time of the request, holding the payloads. *)
Theorem DownloadLogs_ignores_caller_options :
  @handler.DownloadLogs _ (sim.runtime (sim.logging wire.S3 false))
     (sim.client (sim.logging wire.S3 false)) _ sim.archive sim.download [] sim.start
  = (Some (handler.Streamed "attachment; filename=container-0123456789ab-logs.zip"
             [("web_20240307-090500.log"%string, wire.text "helloerr")]),
     {| sim.journal := []; sim.health := [];
        sim.printed := ["Created log archive for container web (8 bytes)"%string];
        sim.logsCalls :=
          [("0123456789abcdef"%string,
            {| ShowStdout := true; ShowStderr := true; LogsSince := ""; LogsUntil := "";
               LogsTimestamps := true; LogsFollow := false; LogsTail := "all" |})] |})
  /\ logsOptionsOf (spec.downloadOptions (handler.Query sim.download)) false
     = {| ShowStdout := true; ShowStderr := true; LogsSince := ""; LogsUntil := "";
          LogsTimestamps := false; LogsFollow := false; LogsTail := "10" |}.
Proof. vm_compute. split; reflexivity. Qed.

End Download.

(* ===================================================================== *)
(** * Further properties of the code *)
(* ===================================================================== *)

(* --------------------------------------------------------------------- *)
(** ** Sampler: network totals, signs, hosts without per-cpu usage *)
(* --------------------------------------------------------------------- *)

Section SamplerMore.

Local Open Scope Z_scope.
Import statsutil service.

(** The fold of [total += counter v] over a list of interfaces. *)
Lemma network_fold_sum {K : Type} (counter : NetworkStats -> Z)
    (entries : list (K * NetworkStats)) :
  foldr (uncurry (fun (_ : K) v total => u64_add total (counter v))) 0 entries
  = wrap64 (foldr Z.add 0 ((fun e => counter (snd e)) <$> entries)).
Proof.
  induction entries as [|[k v] entries IH]; [reflexivity|].
  cbn [foldr fmap list_fmap uncurry snd]. rewrite IH.
  unfold u64_add. rewrite wrap64_add_l. f_equal. lia.
Qed.

(** X1. The network totals are the sums, modulo 2^64, of the rx and tx
    byte counters over all the interfaces of the sample: every interface
    counts once and the order in which the map is visited does not
    matter. *)
Theorem network_totals_are_sums (stats : StatsResponse) :
  GetNetworkRx stats
  = wrap64 (foldr Z.add 0 ((fun e => RxBytes (snd e)) <$> map_to_list (Networks stats)))
  /\ GetNetworkTx stats
     = wrap64 (foldr Z.add 0 ((fun e => TxBytes (snd e)) <$> map_to_list (Networks stats))).
Proof.
  unfold GetNetworkRx, GetNetworkTx. rewrite !map_fold_foldr.
  split; [apply (network_fold_sum RxBytes) | apply (network_fold_sum TxBytes)].
Qed.

(** Floats that are not below zero by their shape: a sign bit that is
    clear, or NaN. *)
Lemma binary_round_aux_sign (mx ex : Z) (lx : location) :
  match binary_round_aux prec emax false mx ex lx with
  | S754_zero s | S754_infinity s | S754_finite s _ _ => s = false
  | S754_nan => True
  end.
Proof.
  unfold binary_round_aux.
  destruct (shr_fexp prec emax mx ex lx) as [mrs' e'].
  destruct (shr_fexp prec emax _ e' loc_Exact) as [mrs'' e''].
  destruct (shr_m mrs''); [reflexivity| |exact I].
  destruct (Z.leb e'' (Z.sub emax prec)); reflexivity.
Qed.

Lemma float64_of_Z_sign (z : Z) :
  0 <= z ->
  match float64_of_Z z with
  | S754_zero s | S754_infinity s | S754_finite s _ _ => s = false
  | S754_nan => True
  end.
Proof.
  intros Hz. unfold float64_of_Z, binary_normalize.
  destruct z as [|p|p]; [reflexivity| |lia].
  unfold binary_round.
  destruct (shl_align p 0 _) as [mz ez]. apply binary_round_aux_sign.
Qed.

Lemma fdiv_sign (x y : float64) :
  match x with
  | S754_zero s | S754_infinity s | S754_finite s _ _ => s = false
  | S754_nan => True
  end ->
  match y with
  | S754_zero s | S754_infinity s | S754_finite s _ _ => s = false
  | S754_nan => True
  end ->
  match fdiv x y with
  | S754_zero s | S754_infinity s | S754_finite s _ _ => s = false
  | S754_nan => True
  end.
Proof.
  destruct x as [sx|sx| |sx mx ex], y as [sy|sy| |sy my ey]; cbn; intros Hx Hy;
    subst; try reflexivity; try exact I.
  destruct (SFdiv_core_binary prec emax (Z.pos mx) ex (Z.pos my) ey) as [[mz ez] lz].
  apply binary_round_aux_sign.
Qed.

Lemma fmul_sign (x y : float64) :
  match x with
  | S754_zero s | S754_infinity s | S754_finite s _ _ => s = false
  | S754_nan => True
  end ->
  match y with
  | S754_zero s | S754_infinity s | S754_finite s _ _ => s = false
  | S754_nan => True
  end ->
  match fmul x y with
  | S754_zero s | S754_infinity s | S754_finite s _ _ => s = false
  | S754_nan => True
  end.
Proof.
  destruct x as [sx|sx| |sx mx ex], y as [sy|sy| |sy my ey]; cbn; intros Hx Hy;
    subst; try reflexivity; try exact I.
  apply binary_round_aux_sign.
Qed.

Lemma sign_not_below_zero (x : float64) :
  match x with
  | S754_zero s | S754_infinity s | S754_finite s _ _ => s = false
  | S754_nan => True
  end ->
  fgt fzero x = false.
Proof. destruct x as [s|s| |s m e]; cbn; intros H; subst; reflexivity. Qed.

Lemma wrap64_nonneg (z : Z) : 0 <= wrap64 z.
Proof. unfold wrap64, uint64_modulus. apply Z.mod_pos_bound. lia. Qed.

Lemma CalculateCPUPercent_sign (stats : StatsResponse) :
  match CalculateCPUPercent stats with
  | S754_zero s | S754_infinity s | S754_finite s _ _ => s = false
  | S754_nan => True
  end.
Proof.
  unfold CalculateCPUPercent.
  destruct (fgt (systemDelta stats) fzero && fgt (cpuDelta stats) fzero); [|reflexivity].
  apply fmul_sign; [apply fmul_sign; [apply fdiv_sign|]|reflexivity].
  - apply float64_of_Z_sign, wrap64_nonneg.
  - apply float64_of_Z_sign, wrap64_nonneg.
  - apply float64_of_Z_sign. lia.
Qed.

(** X2. No derived percentage is below zero: whatever the sample,
    [0 > CalculateCPUPercent] is false, and with memory counters in the
    range of [uint64] so is [0 > MemoryPercent] for the sampler and for
    the health probe. *)
Theorem percentages_never_below_zero (statsJSON : StatsResponse) :
  is_uint64 (Usage (MemoryStats_ statsJSON)) ->
  is_uint64 (Limit (MemoryStats_ statsJSON)) ->
  fgt fzero (CPUPercent (calculateMetrics statsJSON)) = false
  /\ fgt fzero (MemoryPercent (calculateMetrics statsJSON)) = false
  /\ fgt fzero (healthcheck.memoryPercentOf statsJSON) = false.
Proof.
  intros [Hu _] [Hl _].
  assert (Hm : fgt fzero (fmul (fdiv (float64_of_Z (Usage (MemoryStats_ statsJSON)))
                                     (float64_of_Z (Limit (MemoryStats_ statsJSON)))) f100)
               = false).
  { apply sign_not_below_zero, fmul_sign; [apply fdiv_sign|reflexivity];
      apply float64_of_Z_sign; assumption. }
  split; [apply sign_not_below_zero, CalculateCPUPercent_sign|].
  split; exact Hm.
Qed.

Lemma percentages_never_below_zero_witness :
  fgt fzero (CPUPercent (calculateMetrics (sim.sample 200 100 1000 2000 2 512 1024 []))) = false
  /\ fgt fzero (MemoryPercent (calculateMetrics (sim.sample 200 100 1000 2000 2 512 1024 [])))
     = false.
Proof.
  destruct (percentages_never_below_zero (sim.sample 200 100 1000 2000 2 512 1024 []))
    as (Hc & Hm & _).
  - cbn. unfold is_uint64, uint64_modulus. lia.
  - cbn. unfold is_uint64, uint64_modulus. lia.
  - split; assumption.
Defined.

(** X3. When the daemon reports no per-cpu usage (an empty
    [PercpuUsage], as on hosts that do not account per cpu), the core
    count is 0 and [CalculateCPUPercent] never exceeds 0, however large
    the cpu delta: the result is a zero or NaN. *)
Theorem CalculateCPUPercent_without_percpu (stats : StatsResponse) :
  PercpuUsage (CPUUsage_ (CPUStats_ stats)) = [] ->
  (is_zero (CalculateCPUPercent stats) || is_nan (CalculateCPUPercent stats) = true)
  /\ fgt (CalculateCPUPercent stats) fzero = false.
Proof.
  intros Hn.
  assert (Hz : is_zero (CalculateCPUPercent stats) || is_nan (CalculateCPUPercent stats) = true).
  { unfold CalculateCPUPercent, cpuCount. rewrite Hn.
    destruct (fgt (systemDelta stats) fzero && fgt (cpuDelta stats) fzero); [|reflexivity].
    change (float64_of_Z (Z.of_nat (length (@nil Z)))) with fzero.
    destruct (fdiv (cpuDelta stats) (systemDelta stats)) as [s|s| |s m e]; reflexivity. }
  split; [exact Hz|].
  destruct (CalculateCPUPercent stats) as [s|s| |s m e]; cbn in Hz; try discriminate;
    [destruct s; reflexivity | reflexivity].
Qed.

(** A busy container (S1's deltas) on a host without per-cpu usage: 0. *)
Lemma CalculateCPUPercent_without_percpu_witness :
  PercpuUsage (CPUUsage_ (CPUStats_ (sim.sample 100 200 1000 2000 0 0 0 []))) = []
  /\ fgt (CalculateCPUPercent (sim.sample 100 200 1000 2000 0 0 0 [])) fzero = false.
Proof.
  split; [reflexivity|].
  apply (CalculateCPUPercent_without_percpu (sim.sample 100 200 1000 2000 0 0 0 [])).
  reflexivity.
Defined.

End SamplerMore.

(* --------------------------------------------------------------------- *)
(** ** Aggregator: totals, stale entries, failures *)
(* --------------------------------------------------------------------- *)

Section AggregatorMore.

Local Open Scope Z_scope.
Import service.
Context {W : Type}.
Context `{!Runtime W, !docker.Client W, !repository.ActionLogRepository W}.

Lemma u64_fold_sum (xs : list Z) :
  forall t, wrap64 t = t -> fold_left u64_add xs t = wrap64 (t + foldr Z.add 0 xs).
Proof.
  induction xs as [|x xs IH]; intros t Ht.
  - cbn. rewrite Z.add_0_r. symmetry. exact Ht.
  - cbn [fold_left foldr]. rewrite IH by apply wrap64_idem.
    unfold u64_add. rewrite wrap64_add_l. f_equal. lia.
Qed.

(** The integer totals of the collecting loop, as folds over the stored
    samples; no assumption on the ids. *)
Lemma collect_folds (results : list statsResult) :
  forall (newStats : gmap string ContainerStats) (summary : DashboardSummary) (w : W),
    let summary' := snd (fst (collect results newStats summary w)) in
    let stored := snd <$> snapshot.successes results in
    TotalMemoryUsage summary'
    = fold_left u64_add (MemoryUsage <$> stored) (TotalMemoryUsage summary)
    /\ TotalMemoryLimit summary'
       = fold_left u64_add (MemoryLimit <$> stored) (TotalMemoryLimit summary)
    /\ TotalNetworkRx summary'
       = fold_left u64_add (NetworkRx <$> stored) (TotalNetworkRx summary)
    /\ TotalNetworkTx summary'
       = fold_left u64_add (NetworkTx <$> stored) (TotalNetworkTx summary)
    /\ TotalMemoryPercent summary' = TotalMemoryPercent summary.
Proof.
  induction results as [|r rest IH]; intros newStats summary w.
  - cbn. repeat split; reflexivity.
  - cbn [collect]. unfold snapshot.successes. cbn [omap list_omap].
    fold (snapshot.successes rest).
    destruct (err r) as [e|].
    + unfold bind. destruct (log_Printf _ w) as [[] w1]. apply IH.
    + destruct (stats r) as [st|]; [|apply IH].
      cbn [fmap list_fmap snd fold_left].
      apply (IH (<[containerID r := st]> newStats) (aggregate summary st) w).
Qed.

(** The keys the collecting loop leaves in the map. *)
Lemma collect_keys (results : list statsResult) :
  forall (newStats : gmap string ContainerStats) (summary : DashboardSummary) (w : W)
         (id : string),
    is_Some (fst (fst (collect results newStats summary w)) !! id) ->
    is_Some (newStats !! id) \/ id ∈ containerID <$> results.
Proof.
  induction results as [|r rest IH]; intros newStats summary w id Hin.
  - left. exact Hin.
  - cbn [collect] in Hin. rewrite fmap_cons.
    destruct (err r) as [e|].
    + unfold bind in Hin. destruct (log_Printf _ w) as [[] w1].
      destruct (IH _ _ _ _ Hin) as [Hl|Hr]; [left; exact Hl | right; right; exact Hr].
    + destruct (stats r) as [st|].
      * destruct (IH _ _ _ _ Hin) as [Hl|Hr]; [|right; right; exact Hr].
        destruct (decide (containerID r = id)) as [->|Hne]; [right; left|].
        left. rewrite lookup_insert_ne in Hl by exact Hne. exact Hl.
      * destruct (IH _ _ _ _ Hin) as [Hl|Hr]; [left; exact Hl | right; right; exact Hr].
Qed.

(** Results that carry no sample leave the map and the summary alone. *)
Lemma collect_skips (results : list statsResult) :
  forall (newStats : gmap string ContainerStats) (summary : DashboardSummary) (w : W),
    snapshot.successes results = [] ->
    fst (collect results newStats summary w) = (newStats, summary).
Proof.
  induction results as [|r rest IH]; intros newStats summary w Hnone; [reflexivity|].
  cbn [collect]. unfold snapshot.successes in Hnone. cbn [omap list_omap] in Hnone.
  fold (snapshot.successes rest) in Hnone.
  destruct (err r) as [e|].
  - unfold bind. destruct (log_Printf _ w) as [[] w1]. apply IH. exact Hnone.
  - destruct (stats r) as [st|]; [discriminate|]. apply IH. exact Hnone.
Qed.

Lemma fanOut_failures (containers : list Container) :
  (forall c w, c ∈ containers -> exists e w', getContainerStats (ID c) w = (Go.Err e, w')) ->
  forall w, snapshot.successes (fst (fanOut containers w)) = [].
Proof.
  induction containers as [|c rest IH]; intros Hfail w; [reflexivity|].
  cbn [fanOut]. unfold bind at 1. unfold sampleTask at 1. unfold bind at 1.
  destruct (Hfail c w) as (e & w' & He); [left|]. rewrite He. unfold ret at 1.
  unfold bind, ret.
  assert (Hrest : snapshot.successes (fst (fanOut rest w')) = []).
  { apply IH. intros c' w0 Hin. apply Hfail. right. exact Hin. }
  destruct (fanOut rest w') as [rs w2]. cbn [fst] in *.
  unfold snapshot.successes. cbn [omap list_omap err]. exact Hrest.
Qed.

Lemma successes_Permutation (l1 l2 : list statsResult) :
  l1 ≡ₚ l2 -> snapshot.successes l1 ≡ₚ snapshot.successes l2.
Proof. intros HP. unfold snapshot.successes. rewrite HP. reflexivity. Qed.

(** What [refresh] publishes when the daemon answers the list with at
    least one container. *)
Lemma refresh_published (schedule : list Container -> list Container)
    (arrival : list statsResult -> list statsResult)
    (c : StatsCache) (c0 : Container) (rest : list Container) (w w1 : W) :
  docker.ContainerList false w = (Ok (c0 :: rest), w1) ->
  fst (refresh schedule arrival c w)
  = {| containerStats :=
         fst (fst (collect (arrival (fst (fanOut (schedule (c0 :: rest)) w1))) ∅ emptySummary
                           (snd (fanOut (schedule (c0 :: rest)) w1))));
       dashboardSummary :=
         Some (finishSummary
                 (snd (fst (collect (arrival (fst (fanOut (schedule (c0 :: rest)) w1))) ∅
                                    emptySummary
                                    (snd (fanOut (schedule (c0 :: rest)) w1)))))) |}.
Proof.
  intros Hlist. unfold refresh. unfold bind at 1. rewrite Hlist.
  unfold bind at 1. destruct (fanOut (schedule (c0 :: rest)) w1) as [results w2].
  cbn [fst snd]. unfold bind, ret.
  destruct (collect (arrival results) ∅ emptySummary w2) as [[newStats summary] w3].
  reflexivity.
Qed.

(** X4. The summary's integer totals are the sums, modulo 2^64, of the
    memory usage, memory limit and network counters of the samples that
    were stored, and its memory percentage is guarded: 0 when the total
    limit is 0, the quotient of the totals times 100 otherwise. *)
Theorem refresh_totals (schedule : list Container -> list Container)
    (arrival : list statsResult -> list statsResult)
    (c : StatsCache) (containers : list Container) (w w1 : W) :
  (forall l, schedule l ≡ₚ l) ->
  (forall l, arrival l ≡ₚ l) ->
  docker.ContainerList false w = (Ok containers, w1) ->
  exists summary,
    dashboardSummary (fst (refresh schedule arrival c w)) = Some summary
    /\ TotalMemoryUsage summary
       = wrap64 (snapshot.total MemoryUsage
                   (snapshot.successes (arrival (fst (fanOut (schedule containers) w1)))))
    /\ TotalMemoryLimit summary
       = wrap64 (snapshot.total MemoryLimit
                   (snapshot.successes (arrival (fst (fanOut (schedule containers) w1)))))
    /\ TotalNetworkRx summary
       = wrap64 (snapshot.total NetworkRx
                   (snapshot.successes (arrival (fst (fanOut (schedule containers) w1)))))
    /\ TotalNetworkTx summary
       = wrap64 (snapshot.total NetworkTx
                   (snapshot.successes (arrival (fst (fanOut (schedule containers) w1)))))
    /\ TotalMemoryPercent summary
       = if Z.ltb 0 (TotalMemoryLimit summary)
         then fmul (fdiv (float64_of_Z (TotalMemoryUsage summary))
                         (float64_of_Z (TotalMemoryLimit summary))) f100
         else fzero.
Proof.
  intros Hsched Harr Hlist. destruct containers as [|c0 rest].
  - assert (Hnil : schedule [] = []) by (apply Permutation_nil_r, Hsched).
    assert (Hnil' : arrival [] = []) by (apply Permutation_nil_r, Harr).
    unfold refresh. unfold bind at 1. rewrite Hlist. unfold ret. cbn [fst dashboardSummary].
    rewrite Hnil. cbn [fanOut]. unfold ret. cbn [fst]. rewrite Hnil'.
    exists emptySummary. repeat split; reflexivity.
  - rewrite (refresh_published schedule arrival c c0 rest w w1 Hlist).
    cbn [dashboardSummary].
    set (results := arrival (fst (fanOut (schedule (c0 :: rest)) w1))).
    destruct (collect_folds results ∅ emptySummary (snd (fanOut (schedule (c0 :: rest)) w1)))
      as (Hu & Hl & Hrx & Htx & Hp).
    set (summary := snd (fst (collect results ∅ emptySummary _))) in *.
    cbn [emptySummary TotalMemoryUsage TotalMemoryLimit TotalNetworkRx TotalNetworkTx
         TotalMemoryPercent] in Hu, Hl, Hrx, Htx, Hp.
    rewrite u64_fold_sum in Hu, Hl, Hrx, Htx by reflexivity.
    rewrite Z.add_0_l, <- list_fmap_compose in Hu, Hl, Hrx, Htx.
    exists (finishSummary summary). split; [reflexivity|].
    unfold finishSummary.
    destruct (Z.ltb 0 (TotalMemoryLimit summary)) eqn:Hlim;
      cbn [TotalMemoryUsage TotalMemoryLimit TotalNetworkRx TotalNetworkTx TotalMemoryPercent];
      rewrite ?Hlim; repeat split; try assumption; reflexivity.
Qed.

Lemma refresh_published_empty (schedule : list Container -> list Container)
    (arrival : list statsResult -> list statsResult) (c : StatsCache) (w w1 : W) :
  docker.ContainerList false w = (Ok [], w1) ->
  fst (refresh schedule arrival c w)
  = {| containerStats := ∅; dashboardSummary := Some emptySummary |}.
Proof. intros Hlist. unfold refresh. unfold bind at 1. rewrite Hlist. reflexivity. Qed.

(** X5. A refresh that gets the list of running containers replaces the
    snapshot: what it publishes does not depend on the snapshot held
    before, and every container id with cached stats afterwards is the id
    of a container the daemon has just listed, so a container that left
    the running set is no longer served. *)
Theorem refresh_drops_stale_entries (schedule : list Container -> list Container)
    (arrival : list statsResult -> list statsResult)
    (c c' : StatsCache) (containers : list Container) (w w1 : W) (id : string) :
  (forall l, schedule l ≡ₚ l) ->
  (forall l, arrival l ≡ₚ l) ->
  docker.ContainerList false w = (Ok containers, w1) ->
  fst (refresh schedule arrival c w) = fst (refresh schedule arrival c' w)
  /\ (is_Some (GetContainerStats (fst (refresh schedule arrival c w)) id) ->
      id ∈ ID <$> containers).
Proof.
  intros Hsched Harr Hlist. destruct containers as [|c0 rest].
  - rewrite !(refresh_published_empty schedule arrival _ w w1 Hlist).
    split; [reflexivity|]. unfold GetContainerStats. cbn [containerStats].
    rewrite lookup_empty. intros [x Hx]. discriminate.
  - rewrite !(refresh_published schedule arrival _ c0 rest w w1 Hlist).
    split; [reflexivity|]. unfold GetContainerStats. cbn [containerStats].
    intros Hin. apply collect_keys in Hin. destruct Hin as [Hin|Hin].
    + rewrite lookup_empty in Hin. destruct Hin as [x Hx]. discriminate.
    + rewrite (Harr _), fanOut_ids, (Hsched _) in Hin. exact Hin.
Qed.

(** X6. When the sampler fails for every listed container, the refresh
    still publishes: an empty map and the all-zero summary, so that
    [GetContainerStats] answers nil for every id and
    [GetDashboardSummary] is zero. *)
Theorem refresh_all_samplers_failed (schedule : list Container -> list Container)
    (arrival : list statsResult -> list statsResult)
    (c : StatsCache) (containers : list Container) (w w1 : W) (id : string) :
  (forall l, schedule l ≡ₚ l) ->
  (forall l, arrival l ≡ₚ l) ->
  docker.ContainerList false w = (Ok containers, w1) ->
  (forall c w, c ∈ containers -> exists e w', getContainerStats (ID c) w = (Go.Err e, w')) ->
  fst (refresh schedule arrival c w)
  = {| containerStats := ∅; dashboardSummary := Some emptySummary |}
  /\ GetContainerStats (fst (refresh schedule arrival c w)) id = None
  /\ GetDashboardSummary (fst (refresh schedule arrival c w)) = emptySummary.
Proof.
  intros Hsched Harr Hlist Hfail.
  assert (Hpub : fst (refresh schedule arrival c w)
                 = {| containerStats := ∅; dashboardSummary := Some emptySummary |}).
  { destruct containers as [|c0 rest].
    - unfold refresh. unfold bind at 1. rewrite Hlist. reflexivity.
    - rewrite (refresh_published schedule arrival c c0 rest w w1 Hlist).
      rewrite collect_skips; [reflexivity|].
      apply Permutation_nil_r. rewrite (successes_Permutation _ _ (Harr _)).
      rewrite fanOut_failures; [reflexivity|].
      intros c1 w0 Hin. apply Hfail. rewrite <- (Hsched (c0 :: rest)). exact Hin. }
  rewrite Hpub. split; [reflexivity|]. split; [apply lookup_empty | reflexivity].
Qed.

(** X7. When the daemon does not answer the list of containers, the
    refresh publishes nothing: the snapshot held before stays as it is,
    stats and summary alike. *)
Theorem refresh_list_failure_keeps_snapshot (schedule : list Container -> list Container)
    (arrival : list statsResult -> list statsResult)
    (c : StatsCache) (e : error) (w w1 : W) :
  docker.ContainerList false w = (Go.Err e, w1) ->
  fst (refresh schedule arrival c w) = c
  /\ snd (refresh schedule arrival c w)
     = snd (log_Printf ("Failed to list containers for stats cache: " +:+ e) w1).
Proof.
  intros Hlist.
  assert (Hrun : refresh schedule arrival c w
                 = (c, snd (log_Printf ("Failed to list containers for stats cache: " +:+ e)
                                       w1))).
  { unfold refresh. unfold bind at 1. rewrite Hlist.
    unfold bind, ret. destruct (log_Printf _ w1) as [[] w2]. reflexivity. }
  rewrite Hrun. split; reflexivity.
Qed.

(** Filling a fresh map entry by entry rebuilds the map. *)
Lemma GetAllContainerStats_rebuilds (c : StatsCache) :
  GetAllContainerStats c = containerStats c.
Proof.
  unfold GetAllContainerStats. rewrite map_fold_foldr.
  rewrite <- (list_to_map_to_list (containerStats c)) at 2.
  generalize (map_to_list (containerStats c)). intros l.
  induction l as [|[k v] l IH]; [reflexivity|]. cbn. rewrite IH. reflexivity.
Qed.

(** X8. [GetAllContainerStats] hands out a copy that has exactly the
    entries of the snapshot: every lookup in the copy agrees with
    [GetContainerStats]. *)
Theorem GetAllContainerStats_is_a_copy (c : StatsCache) (id : string) :
  GetAllContainerStats c = containerStats c
  /\ GetAllContainerStats c !! id = GetContainerStats c id.
Proof.
  split; [apply GetAllContainerStats_rebuilds|].
  rewrite GetAllContainerStats_rebuilds. reflexivity.
Qed.

End AggregatorMore.

Lemma refresh_totals_witness :
  exists summary,
    service.dashboardSummary
      (fst (@service.refresh _ (sim.runtime sim.fleet) (sim.client sim.fleet) reverse reverse
              {| service.containerStats := ∅; service.dashboardSummary := None |} sim.start))
    = Some summary
    /\ service.TotalMemoryUsage summary = 1024%Z
    /\ service.TotalMemoryLimit summary = 2048%Z.
Proof.
  destruct (@refresh_totals _ (sim.runtime sim.fleet) (sim.client sim.fleet) reverse reverse
              {| service.containerStats := ∅; service.dashboardSummary := None |}
              _ sim.start sim.start
              (fun l => reverse_Permutation l) (fun l => reverse_Permutation l) eq_refl)
    as (summary & Hs & Hu & Hl & _).
  exists summary. split; [exact Hs|]. rewrite Hu, Hl. split; vm_compute; reflexivity.
Defined.

Lemma refresh_drops_stale_entries_witness :
  fst (@service.refresh _ (sim.runtime sim.fleet) (sim.client sim.fleet) reverse reverse
         {| service.containerStats :=
              {[ "gone"%string := service.calculateMetrics (sim.sample 0 0 0 0 1 0 0 []) ]};
            service.dashboardSummary := None |} sim.start)
  = fst (@service.refresh _ (sim.runtime sim.fleet) (sim.client sim.fleet) reverse reverse
           {| service.containerStats := ∅; service.dashboardSummary := None |} sim.start).
Proof.
  apply (@refresh_drops_stale_entries _ (sim.runtime sim.fleet) (sim.client sim.fleet)
           reverse reverse _ _ _ sim.start sim.start "gone"
           (fun l => reverse_Permutation l) (fun l => reverse_Permutation l) eq_refl).
Defined.

Lemma refresh_all_samplers_failed_witness :
  fst (@service.refresh _ (sim.runtime sim.stalled) (sim.client sim.stalled) reverse reverse
         {| service.containerStats :=
              {[ "c1"%string := service.calculateMetrics (sim.sample 0 0 0 0 1 0 0 []) ]};
            service.dashboardSummary := None |} sim.start)
  = {| service.containerStats := ∅; service.dashboardSummary := Some service.emptySummary |}.
Proof.
  apply (@refresh_all_samplers_failed _ (sim.runtime sim.stalled) (sim.client sim.stalled)
           reverse reverse _ _ sim.start sim.start "c1"
           (fun l => reverse_Permutation l) (fun l => reverse_Permutation l) eq_refl).
  intros c w _. exists "context deadline exceeded"%string, w. reflexivity.
Defined.

Lemma refresh_list_failure_keeps_snapshot_witness :
  fst (@service.refresh _ (sim.runtime sim.unreachable) (sim.client sim.unreachable)
         reverse reverse
         {| service.containerStats :=
              {[ "c1"%string := service.calculateMetrics (sim.sample 0 0 0 0 1 0 0 []) ]};
            service.dashboardSummary := Some service.emptySummary |} sim.start)
  = {| service.containerStats :=
         {[ "c1"%string := service.calculateMetrics (sim.sample 0 0 0 0 1 0 0 []) ]};
       service.dashboardSummary := Some service.emptySummary |}.
Proof.
  apply (@refresh_list_failure_keeps_snapshot _ (sim.runtime sim.unreachable)
           (sim.client sim.unreachable) reverse reverse _
           "Cannot connect to the Docker daemon" sim.start sim.start eq_refl).
Defined.

(* --------------------------------------------------------------------- *)
(** ** Log demultiplexer: writers, agreement, cancellation, transport *)
(* --------------------------------------------------------------------- *)

Section DemultiplexerMore.

Local Open Scope Z_scope.
Import service.

Section AnyWriter.

Context {Wr : Type} `{!io.Writer Wr}.

Lemma StreamLogs_loop_tail_any (ctx : context.Context) (t : truncation.Tail) (fuel turn : nat)
    (buf : list Byte.byte) (writer : Wr) :
  (forall turn, context.Done ctx turn = false) ->
  truncation.valid t ->
  (length (truncation.bytes t) < fuel)%nat ->
  StreamLogs_loop fuel ctx turn (wire.reading (truncation.bytes t)) buf writer
  = Some (truncation.outcome t, writer).
Proof.
  intros Hctx Hv Hfuel. destruct fuel as [|fuel]; [lia|].
  cbn [StreamLogs_loop]. rewrite Hctx.
  destruct t as [|part|header|header part]; cbn [truncation.bytes truncation.valid] in *.
  - reflexivity.
  - rewrite ReadFull_cut_short; [reflexivity| |lia].
    intros ->. cbn in Hv. lia.
  - destruct Hv as [H8 Hpos].
    rewrite <- (app_nil_r header), <- H8. unfold wire.reading. rewrite ReadFull_exact.
    destruct (Z.eqb_spec (payloadSize header) 0) as [Hz|_]; [lia|].
    fold (wire.reading []). rewrite ReadFull_at_end by lia. reflexivity.
  - destruct Hv as (H8 & Hne & Hlt).
    unfold wire.reading. rewrite <- H8, ReadFull_exact.
    destruct (Z.eqb_spec (payloadSize header) 0) as [Hz|_]; [lia|].
    fold (wire.reading part). rewrite ReadFull_cut_short; [reflexivity|exact Hne|lia].
Qed.

Lemma StreamLogs_loop_feeds (ctx : context.Context) (frames : list wire.Frame)
    (t : truncation.Tail) :
  (forall turn, context.Done ctx turn = false) ->
  Forall wire.wellFramed frames ->
  truncation.valid t ->
  forall fuel turn buf (writer : Wr),
    (length (wire.stream frames ++ truncation.bytes t) < fuel)%nat ->
    StreamLogs_loop fuel ctx turn (wire.reading (wire.stream frames ++ truncation.bytes t))
                    buf writer
    = Some (delivery.verdict (delivery.feed (wire.chunks frames) writer)
                             (truncation.outcome t)).
Proof.
  intros Hctx Hwf Hv.
  induction Hwf as [|f frames Hf _ IH]; intros fuel turn buf writer Hfuel.
  - cbn. apply StreamLogs_loop_tail_any; assumption.
  - unfold wire.stream, wire.chunks, wire.payloads, wire.reading in *.
    cbn [fmap list_fmap concat] in *. rewrite <- app_assoc in *.
    rewrite (wellFramed_cons_length f _ Hf) in Hfuel.
    destruct fuel as [|fuel]; [lia|].
    destruct (read_frame f (concat (wire.frameBytes <$> frames) ++ truncation.bytes t)
                io.EOF Hf) as [Hh Hp].
    cbn [StreamLogs_loop]. rewrite Hctx, Hh.
    destruct Hf as [H8 Hsize].
    destruct (Z.eqb_spec (payloadSize (wire.header f)) 0) as [Hz|Hnz].
    + assert (Hnil : wire.payload f = []) by (apply nil_length_inv; lia).
      rewrite Hnil, filter_cons_False by (intros Hne; apply Hne; reflexivity).
      cbn [app]. apply IH. lia.
    + assert (Hne : wire.payload f <> []).
      { intros Hnil. rewrite Hnil in Hsize. cbn in Hsize. lia. }
      rewrite Hp, storeFront_take, filter_cons_True by exact Hne.
      cbn [delivery.feed].
      destruct (io.Write (wire.payload f) writer) as [[e|] writer1]; [reflexivity|].
      apply IH. lia.
Qed.

(** X9. For any writer, on a stream of well-formed frames (ending at a
    frame boundary or cut in one of the four ways) and under a context
    that is never done, the goroutine of [StreamLogs] offers the
    non-empty payloads to the writer in order, flushing after each, and
    stops at the first write the writer refuses: the channel then gets
    "failed to write log data: ..." and no later chunk is offered;
    otherwise it gets what the end of the input gives. *)
Theorem StreamLogs_stops_at_first_failed_write (ctx : context.Context)
    (frames : list wire.Frame) (t : truncation.Tail) (writer : Wr) :
  (forall turn, context.Done ctx turn = false) ->
  Forall wire.wellFramed frames ->
  truncation.valid t ->
  let reader := wire.reading (wire.stream frames ++ truncation.bytes t) in
  StreamLogs_loop (GetLogs_fuel reader) ctx 0 reader (make initialBufLen) writer
  = Some (delivery.verdict (delivery.feed (wire.chunks frames) writer)
                           (truncation.outcome t)).
Proof.
  intros Hctx Hwf Hv reader. unfold reader.
  apply StreamLogs_loop_feeds; try assumption.
  unfold GetLogs_fuel, wire.reading. cbn [io.pending]. lia.
Qed.

End AnyWriter.

End DemultiplexerMore.

(** Three chunks into a pipe that breaks after the first: one chunk is
    delivered and the stream ends with the write error. *)
Lemma StreamLogs_stops_at_first_failed_write_witness :
  @service.StreamLogs_loop _ (sim.brokenPipe 1)
     (service.GetLogs_fuel
        (wire.reading (wire.stream [wire.frameOf wire.stdout (wire.text "one");
                                    wire.frameOf wire.stderr (wire.text "two");
                                    wire.frameOf wire.stdout (wire.text "three")]
                       ++ truncation.bytes truncation.Boundary)))
     context.Background 0
     (wire.reading (wire.stream [wire.frameOf wire.stdout (wire.text "one");
                                 wire.frameOf wire.stderr (wire.text "two");
                                 wire.frameOf wire.stdout (wire.text "three")]
                    ++ truncation.bytes truncation.Boundary))
     (service.make service.initialBufLen) []
  = Some (Some "failed to write log data: broken pipe"%string, [wire.text "one"]).
Proof.
  rewrite (@StreamLogs_stops_at_first_failed_write _ (sim.brokenPipe 1) context.Background
             [wire.frameOf wire.stdout (wire.text "one");
              wire.frameOf wire.stderr (wire.text "two");
              wire.frameOf wire.stdout (wire.text "three")]
             truncation.Boundary []
             (fun _ => eq_refl) ltac:(repeat constructor) I).
  vm_compute. reflexivity.
Defined.

Section ArbitraryStreams.

Local Open Scope Z_scope.
Import service.

(** The two loops step alike on any stream: under a context that is
    never done, what [StreamLogs] has written and how it ends determine
    what [GetLogs] returns. *)
Lemma loops_agree (ctx : context.Context) (fuel : nat) :
  (forall turn, context.Done ctx turn = false) ->
  forall (reader : io.Reader) (buf acc : list Byte.byte)
         (written : list (list Byte.byte)) (turn : nat),
    match @StreamLogs_loop _ sim.recorder fuel ctx turn reader buf written with
    | None => GetLogs_loop fuel reader buf acc = None
    | Some (ended, written') =>
        exists chunks,
          written' = written ++ chunks
          /\ GetLogs_loop fuel reader buf acc
             = Some match ended with
                    | None => Ok (acc ++ concat chunks)
                    | Some e => Go.Err e
                    end
    end.
Proof.
  intros Hctx. induction fuel as [|fuel IH]; intros reader buf acc written turn; [reflexivity|].
  cbn [StreamLogs_loop GetLogs_loop]. rewrite Hctx.
  destruct (io.ReadFull reader 8) as [[header|e] reader1].
  - destruct (Z.eqb (payloadSize header) 0); [apply IH|].
    destruct (io.ReadFull reader1 (Z.to_nat (payloadSize header))) as [[bytes|e] reader2].
    + cbn [io.Write sim.recorder flushIfSupported io.Flush snd].
      specialize (IH reader2 (storeFront bytes (growBuf buf (payloadSize header)))
                     (acc ++ take (length bytes)
                                  (storeFront bytes (growBuf buf (payloadSize header))))
                     (written ++ [take (length bytes)
                                       (storeFront bytes (growBuf buf (payloadSize header)))])
                     (S turn)).
      destruct (StreamLogs_loop fuel ctx (S turn) reader2 _ _) as [[ended written']|];
        [|exact IH].
      destruct IH as (chunks & Hw & Hg).
      exists (take (length bytes) (storeFront bytes (growBuf buf (payloadSize header)))
              :: chunks).
      split; [rewrite Hw, <- app_assoc; reflexivity|].
      rewrite Hg. cbn [concat]. rewrite <- app_assoc. reflexivity.
    + destruct e; exists []; rewrite !app_nil_r; split; reflexivity.
  - destruct e; exists []; rewrite !app_nil_r; split; reflexivity.
Qed.

(** The goroutine only ever appends to what was written. *)
Lemma StreamLogs_loop_appends (ctx : context.Context) (fuel : nat) :
  forall (reader : io.Reader) (buf : list Byte.byte)
         (written : list (list Byte.byte)) (turn : nat) ended written',
    @StreamLogs_loop _ sim.recorder fuel ctx turn reader buf written = Some (ended, written') ->
    exists chunks, written' = written ++ chunks.
Proof.
  induction fuel as [|fuel IH]; intros reader buf written turn ended written' Hrun;
    [discriminate|].
  cbn [StreamLogs_loop] in Hrun.
  destruct (context.Done ctx turn).
  { inversion Hrun. exists []. rewrite app_nil_r. reflexivity. }
  destruct (io.ReadFull reader 8) as [[header|e] reader1].
  - destruct (Z.eqb (payloadSize header) 0); [eapply IH; exact Hrun|].
    destruct (io.ReadFull reader1 (Z.to_nat (payloadSize header))) as [[bytes|e] reader2].
    + cbn [io.Write sim.recorder flushIfSupported io.Flush snd] in Hrun.
      apply IH in Hrun. destruct Hrun as (chunks & ->).
      eexists. rewrite <- app_assoc. reflexivity.
    + destruct e; inversion Hrun; exists []; rewrite app_nil_r; reflexivity.
  - destruct e; inversion Hrun; exists []; rewrite app_nil_r; reflexivity.
Qed.

(** With the fuel [StreamLogs] gives it the goroutine comes to an end,
    whatever the stream and the context. *)
Lemma StreamLogs_loop_total (ctx : context.Context) (fuel : nat) :
  forall (reader : io.Reader) (buf : list Byte.byte)
         (written : list (list Byte.byte)) (turn : nat),
    (length (io.pending reader) < fuel)%nat ->
    is_Some (@StreamLogs_loop _ sim.recorder fuel ctx turn reader buf written).
Proof.
  induction fuel as [|fuel IH]; intros reader buf written turn Hfuel; [lia|].
  cbn [StreamLogs_loop]. destruct (context.Done ctx turn); [eexists; reflexivity|].
  unfold io.ReadFull at 1. case_decide as H8.
  - destruct (Z.eqb (payloadSize (take 8 (io.pending reader))) 0).
    + apply IH. cbn [io.pending]. rewrite length_drop. lia.
    + unfold io.ReadFull. cbn [io.pending io.ending].
      case_decide as Hn.
      * cbn [io.Write sim.recorder]. apply IH. cbn [io.pending]. rewrite !length_drop. lia.
      * destruct (io.ending reader); [destruct (drop 8 (io.pending reader))| |];
          eexists; reflexivity.
  - destruct (io.ending reader); [destruct (io.pending reader)| |]; eexists; reflexivity.
Qed.

(** Cancelling can only cut the delivery short. *)
Lemma cancelled_is_prefix (ctx : context.Context) (fuel : nat) :
  forall (reader : io.Reader) (buf : list Byte.byte)
         (written : list (list Byte.byte)) (turn turn' : nat) ended written1 ended' written2,
    @StreamLogs_loop _ sim.recorder fuel ctx turn reader buf written = Some (ended, written1) ->
    @StreamLogs_loop _ sim.recorder fuel context.Background turn' reader buf written
    = Some (ended', written2) ->
    exists more, written2 = written1 ++ more.
Proof.
  induction fuel as [|fuel IH];
    intros reader buf written turn turn' ended written1 ended' written2 Hc Hb; [discriminate|].
  cbn [StreamLogs_loop] in Hc, Hb. cbn [context.Done context.Background] in Hb.
  destruct (context.Done ctx turn).
  { inversion Hc; subst.
    change (@StreamLogs_loop _ sim.recorder (S fuel) context.Background turn' reader buf
              written1 = Some (ended', written2)) in Hb.
    eapply StreamLogs_loop_appends. exact Hb. }
  destruct (io.ReadFull reader 8) as [[header|e] reader1].
  - destruct (Z.eqb (payloadSize header) 0); [eapply IH; eassumption|].
    destruct (io.ReadFull reader1 (Z.to_nat (payloadSize header))) as [[bytes|e] reader2].
    + cbn [io.Write sim.recorder flushIfSupported io.Flush snd] in Hc, Hb.
      eapply IH; eassumption.
    + destruct e; inversion Hc; inversion Hb; subst; exists []; rewrite app_nil_r; reflexivity.
  - destruct e; inversion Hc; inversion Hb; subst; exists []; rewrite app_nil_r; reflexivity.
Qed.

(** The agreement of the two loops, from the start of a stream. *)
Lemma loops_agree_whole (ctx : context.Context) (reader : io.Reader) :
  (forall turn, context.Done ctx turn = false) ->
  exists ended chunks,
    @StreamLogs_loop _ sim.recorder (GetLogs_fuel reader) ctx 0 reader (make initialBufLen) []
    = Some (ended, chunks)
    /\ GetLogs_loop (GetLogs_fuel reader) reader (make initialBufLen) []
       = Some match ended with
              | None => Ok (concat chunks)
              | Some e => Go.Err e
              end.
Proof.
  intros Hctx.
  pose proof (loops_agree ctx (GetLogs_fuel reader) Hctx reader (make initialBufLen) [] [] 0%nat)
    as Hagree.
  destruct (StreamLogs_loop_total ctx (GetLogs_fuel reader) reader (make initialBufLen) [] 0%nat)
    as [[ended written] Hrun]; [unfold GetLogs_fuel; lia|].
  rewrite Hrun in Hagree. destruct Hagree as (chunks & Hw & Hg).
  exists ended, chunks. cbn [app] in Hw, Hg. subst written. split; [exact Hrun | exact Hg].
Qed.

(** X10. [GetLogs] and [StreamLogs] agree on every stream, well formed
    or not and however it ends: started on the same bytes (recording
    writer, context never done) both come to an end, [GetLogs] returns
    an error exactly when the goroutine reports that same error, and
    otherwise returns the chunks the goroutine has written, joined. *)
Theorem GetLogs_agrees_with_StreamLogs (ctx : context.Context) (reader : io.Reader) :
  (forall turn, context.Done ctx turn = false) ->
  exists ended chunks,
    @StreamLogs_loop _ sim.recorder (GetLogs_fuel reader) ctx 0 reader (make initialBufLen) []
    = Some (ended, chunks)
    /\ GetLogs_loop (GetLogs_fuel reader) reader (make initialBufLen) []
       = Some match ended with
              | None => Ok (concat chunks)
              | Some e => Go.Err e
              end.
Proof. apply loops_agree_whole. Qed.

(** X11. Cancellation only cuts the delivery short: on any stream and
    under any context the goroutine of [StreamLogs] comes to an end, and
    the chunks it has written are an initial part of those written when
    the context is never done. When the context is done at the first
    poll nothing is written and the channel gets the context's error. *)
Theorem StreamLogs_cancellation_truncates (ctx : context.Context) (reader : io.Reader) :
  exists ended written ended' written' more,
    @StreamLogs_loop _ sim.recorder (GetLogs_fuel reader) ctx 0 reader (make initialBufLen) []
    = Some (ended, written)
    /\ @StreamLogs_loop _ sim.recorder (GetLogs_fuel reader) context.Background 0 reader
          (make initialBufLen) []
       = Some (ended', written')
    /\ written' = written ++ more
    /\ (if context.Done ctx 0 then ended = Some (context.Err ctx) /\ written = []
        else True).
Proof.
  destruct (StreamLogs_loop_total ctx (GetLogs_fuel reader) reader (make initialBufLen) [] 0%nat)
    as [[ended written] Hc]; [unfold GetLogs_fuel; lia|].
  destruct (StreamLogs_loop_total context.Background (GetLogs_fuel reader) reader
              (make initialBufLen) [] 0%nat)
    as [[ended' written'] Hb]; [unfold GetLogs_fuel; lia|].
  destruct (cancelled_is_prefix ctx _ _ _ _ _ _ _ _ _ _ Hc Hb) as [more Hmore].
  exists ended, written, ended', written', more.
  split; [exact Hc|]. split; [exact Hb|]. split; [exact Hmore|].
  unfold GetLogs_fuel in Hc. cbn [StreamLogs_loop] in Hc.
  destruct (context.Done ctx 0); [|exact I].
  inversion Hc. split; reflexivity.
Qed.

(** A read error of a stream that does not end cleanly is its ending. *)
Lemma ReadFull_error_is_ending (reader : io.Reader) (n : nat) (e : io.Error) (reader' : io.Reader) :
  io.ending reader <> io.EOF ->
  io.ReadFull reader n = (inr e, reader') ->
  e = io.ending reader.
Proof.
  intros Hne. unfold io.ReadFull. case_decide; [discriminate|].
  destruct (io.ending reader); [congruence| |]; intros Hr; inversion Hr; reflexivity.
Qed.

Lemma ReadFull_keeps_ending (reader : io.Reader) (n : nat) :
  io.ending (snd (io.ReadFull reader n)) = io.ending reader.
Proof.
  unfold io.ReadFull. case_decide; [reflexivity|].
  destruct (io.ending reader); [destruct (io.pending reader)| |]; reflexivity.
Qed.

Lemma GetLogs_loop_unclean (fuel : nat) :
  forall (reader : io.Reader) (buf acc : list Byte.byte) r,
    io.ending reader <> io.EOF ->
    GetLogs_loop fuel reader buf acc = Some r ->
    r = Go.Err ("failed to read log header: " +:+ io.Error_msg (io.ending reader))
    \/ r = Go.Err ("failed to read log payload: " +:+ io.Error_msg (io.ending reader)).
Proof.
  induction fuel as [|fuel IH]; intros reader buf acc r Hne Hrun; [discriminate|].
  cbn [GetLogs_loop] in Hrun.
  pose proof (ReadFull_keeps_ending reader 8) as Hk1.
  destruct (io.ReadFull reader 8) as [[header|e] reader1] eqn:Hr1; cbn [snd] in Hk1.
  - assert (Hne1 : io.ending reader1 <> io.EOF) by (rewrite Hk1; exact Hne).
    destruct (Z.eqb (payloadSize header) 0).
    { rewrite <- Hk1. eapply IH; eassumption. }
    pose proof (ReadFull_keeps_ending reader1 (Z.to_nat (payloadSize header))) as Hk2.
    destruct (io.ReadFull reader1 (Z.to_nat (payloadSize header))) as [[bytes|e] reader2] eqn:Hr2;
      cbn [snd] in Hk2.
    + rewrite <- Hk1, <- Hk2. eapply IH; [rewrite Hk2; exact Hne1 | exact Hrun].
    + apply (ReadFull_error_is_ending _ _ _ _ Hne1) in Hr2. rewrite Hk1 in Hr2. subst e.
      right. destruct (io.ending reader); [congruence| |]; inversion Hrun; reflexivity.
  - apply (ReadFull_error_is_ending _ _ _ _ Hne) in Hr1. subst e.
    left. destruct (io.ending reader); [congruence| |]; inversion Hrun; reflexivity.
Qed.

(** X12. A stream that ends with a transport error is never taken for a
    complete one: whatever its bytes, [GetLogs] returns an error that
    carries the transport's message, "failed to read log header: ..." or
    "failed to read log payload: ...", and the goroutine of [StreamLogs]
    (recording writer, context never done) reports that same error. *)
Theorem transport_error_is_reported (bytes : list Byte.byte) (e : io.Error) :
  e <> io.EOF ->
  let reader := {| io.pending := bytes; io.ending := e |} in
  exists place chunks,
    (place = "header"%string \/ place = "payload"%string)
    /\ GetLogs_loop (GetLogs_fuel reader) reader (make initialBufLen) []
       = Some (Go.Err ("failed to read log " +:+ place +:+ ": " +:+ io.Error_msg e))
    /\ @StreamLogs_loop _ sim.recorder (GetLogs_fuel reader) context.Background 0 reader
          (make initialBufLen) []
       = Some (Some ("failed to read log " +:+ place +:+ ": " +:+ io.Error_msg e)%string,
               chunks).
Proof.
  intros Hne reader.
  destruct (loops_agree_whole context.Background reader (fun _ => eq_refl))
    as (ended & chunks & Hs & Hg).
  destruct (GetLogs_loop_unclean _ reader _ _ _ Hne Hg) as [Hr|Hr].
  - exists "header"%string, chunks. split; [left; reflexivity|].
    destruct ended as [e'|]; [|discriminate]. inversion Hr as [He']. subst e'.
    split; [exact Hg | exact Hs].
  - exists "payload"%string, chunks. split; [right; reflexivity|].
    destruct ended as [e'|]; [|discriminate]. inversion Hr as [He']. subst e'.
    split; [exact Hg | exact Hs].
Qed.

End ArbitraryStreams.

(** The bytes of S3 with a frame of garbage length in between, under a
    context that is never done. *)
Lemma GetLogs_agrees_with_StreamLogs_witness :
  exists ended chunks,
    @service.StreamLogs_loop _ sim.recorder
       (service.GetLogs_fuel (wire.reading (wire.S3 ++ wire.text "garbage!!")))
       context.Background 0 (wire.reading (wire.S3 ++ wire.text "garbage!!"))
       (service.make service.initialBufLen) []
    = Some (ended, chunks)
    /\ service.GetLogs_loop
         (service.GetLogs_fuel (wire.reading (wire.S3 ++ wire.text "garbage!!")))
         (wire.reading (wire.S3 ++ wire.text "garbage!!"))
         (service.make service.initialBufLen) []
       = Some match ended with
              | None => Ok (concat chunks)
              | Some e => Go.Err e
              end.
Proof.
  apply (GetLogs_agrees_with_StreamLogs context.Background
           (wire.reading (wire.S3 ++ wire.text "garbage!!"))).
  intros turn. reflexivity.
Defined.

(** The daemon's connection drops in the middle of the second frame of S3. *)
Lemma transport_error_is_reported_witness :
  exists place chunks,
    (place = "header"%string \/ place = "payload"%string)
    /\ service.GetLogs_loop
         (service.GetLogs_fuel {| io.pending := take 22 wire.S3;
                                  io.ending := io.Transport "connection reset by peer" |})
         {| io.pending := take 22 wire.S3;
            io.ending := io.Transport "connection reset by peer" |}
         (service.make service.initialBufLen) []
       = Some (Go.Err ("failed to read log " +:+ place +:+ ": "
                       +:+ io.Error_msg (io.Transport "connection reset by peer")))
    /\ @service.StreamLogs_loop _ sim.recorder
          (service.GetLogs_fuel {| io.pending := take 22 wire.S3;
                                   io.ending := io.Transport "connection reset by peer" |})
          context.Background 0
          {| io.pending := take 22 wire.S3;
             io.ending := io.Transport "connection reset by peer" |}
          (service.make service.initialBufLen) []
       = Some (Some ("failed to read log " +:+ place +:+ ": "
                     +:+ io.Error_msg (io.Transport "connection reset by peer"))%string,
               chunks).
Proof.
  apply (transport_error_is_reported (take 22 wire.S3)
           (io.Transport "connection reset by peer")).
  discriminate.
Defined.

Lemma transport_error_runs :
  service.GetLogs_loop
    (service.GetLogs_fuel {| io.pending := take 22 wire.S3;
                             io.ending := io.Transport "connection reset by peer" |})
    {| io.pending := take 22 wire.S3;
       io.ending := io.Transport "connection reset by peer" |}
    (service.make service.initialBufLen) []
  = Some (Go.Err "failed to read log payload: connection reset by peer")
  /\ @service.StreamLogs_loop _ sim.recorder
        (service.GetLogs_fuel (wire.reading wire.S3)) (sim.cancelledAt 1) 0
        (wire.reading wire.S3) (service.make service.initialBufLen) []
     = Some (Some "context canceled"%string, [wire.text "hello"]).
Proof. vm_compute. split; reflexivity. Qed.

(* --------------------------------------------------------------------- *)
(** ** Journal: every mutation leaves its record *)
(* --------------------------------------------------------------------- *)

Section JournalMore.

Context {W : Type}.
Context `{!Runtime W, !docker.Client W, !repository.ActionLogRepository W}.
Import service.




End JournalMore.

(* --------------------------------------------------------------------- *)
(** ** Log archive and download *)
(* --------------------------------------------------------------------- *)

Section ArchiveMore.

Local Open Scope Z_scope.
Import service.
Context {W : Type}.
Context `{!Runtime W, !docker.Client W}.

(** X14. [CreateLogArchive] never leaves a partial archive behind a
    failed read, and it can leave a short one behind a successful read:
    when the log stream is a run of whole frames cut inside a header or
    inside a payload, it returns "failed to get logs: ..." and the
    archive writer is untouched; when the stream ends at a frame boundary
    or right after a whole header, the archive gains the single entry
    [<name>_<yyyyMMdd-HHmmss>.log], named after the inspected container
    without its leading slash, holding the payloads of the whole
    frames. *)
Theorem CreateLogArchive_all_or_nothing (containerID : string)
    (entries : list (string * list Byte.byte)) (frames : list wire.Frame)
    (t : truncation.Tail) (containerJSON : docker.ContainerJSON) (w w1 w2 : W) :
  Forall wire.wellFramed frames ->
  truncation.valid t ->
  docker.ContainerInspect containerID w = (Ok containerJSON, w1) ->
  docker.ContainerLogs containerID
    {| ShowStdout := true; ShowStderr := true; LogsSince := ""; LogsUntil := "";
       LogsTimestamps := true; LogsFollow := false; LogsTail := "all" |} w1
  = (Ok (wire.reading (wire.stream frames ++ truncation.bytes t)), w2) ->
  @CreateLogArchive _ sim.archive _ _ _ containerID entries w
  = match truncation.outcome t with
    | Some e => (Some (Some ("failed to get logs: " +:+ e)%string, entries), w2)
    | None =>
        (Some (None,
               entries
               ++ [(trim_leading_slash (docker.Name containerJSON) +:+ "_"
                    +:+ time.Format_20060102_150405 (fst (time_Now w2)) +:+ ".log",
                    concat (wire.payloads frames))]),
         snd (log_Printf
                ("Created log archive for container "
                 +:+ trim_leading_slash (docker.Name containerJSON) +:+ " ("
                 +:+ pretty (N.of_nat (length (concat (wire.payloads frames))))
                 +:+ " bytes)")
                (snd (time_Now w2))))
    end.
Proof.
  intros Hwf Hv Hinspect Hlogs.
  unfold CreateLogArchive. unfold bind at 1. rewrite Hinspect.
  unfold bind at 1. unfold GetLogs. unfold bind at 1.
  unfold logsOptionsOf. cbn [Since Until Timestamps Tail]. rewrite Hlogs. unfold ret at 1.
  rewrite (GetLogs_loop_stream frames t Hwf Hv).
  unfold truncation.resultOf.
  destruct (truncation.outcome t) as [e|]; [reflexivity|].
  unfold bind at 1. destruct (time_Now w2) as [now w3]. cbn [fst snd].
  cbn [zip.Create zip.Write zip.Close sim.archive].
  rewrite reverse_snoc, reverse_involutive. cbn [app].
  unfold bind, ret. destruct (log_Printf _ w3) as [[] w4]. reflexivity.
Qed.

(** X15. [DownloadLogs] reaches the daemon only for container ids of at
    least 12 characters: an empty id is answered 400 and an id of 1 to 11
    characters makes the handler panic on [containerID[:12]]; in both
    cases nothing has been asked of the daemon and nothing written. *)
Theorem DownloadLogs_short_id (req : handler.Request)
    (body : list (string * list Byte.byte)) (w : W) :
  (String.length (handler.Param_id req) < 12)%nat ->
  @handler.DownloadLogs _ _ _ _ sim.archive req body w
  = (Some (if decide (handler.Param_id req = ""%string)
           then handler.BadRequest else handler.Panicked), w).
Proof.
  intros Hshort. unfold handler.DownloadLogs.
  destruct (decide (handler.Param_id req = ""%string)) as [He|Hne]; [reflexivity|].
  destruct (decide (String.length (handler.Param_id req) < 12)%nat) as [_|Hge]; [reflexivity|].
  exfalso. apply Hge. exact Hshort.
Qed.

End ArchiveMore.

(** S3 cut after the first byte of its second payload: the download fails
    and the archive stays empty. *)
Lemma CreateLogArchive_all_or_nothing_witness :
  @service.CreateLogArchive _ sim.archive _ (sim.runtime (sim.logging (take 22 wire.S3) false))
     (sim.client (sim.logging (take 22 wire.S3) false)) "0123456789abcdef" [] sim.start
  = (Some (Some "failed to get logs: failed to read log payload: unexpected EOF"%string, []),
     {| sim.journal := []; sim.health := []; sim.printed := [];
        sim.logsCalls :=
          [("0123456789abcdef"%string,
            {| ShowStdout := true; ShowStderr := true; LogsSince := ""; LogsUntil := "";
               LogsTimestamps := true; LogsFollow := false; LogsTail := "all" |})] |}).
Proof.
  rewrite (@CreateLogArchive_all_or_nothing _
             (sim.runtime (sim.logging (take 22 wire.S3) false))
             (sim.client (sim.logging (take 22 wire.S3) false))
             "0123456789abcdef" [] [wire.frameOf wire.stdout (wire.text "hello")]
             (truncation.InPayload (wire.headerOf wire.stderr 3) (wire.text "e"))
             {| docker.Name := "/web" |} sim.start sim.start
             {| sim.journal := []; sim.health := []; sim.printed := [];
                sim.logsCalls :=
                  [("0123456789abcdef"%string,
                    {| ShowStdout := true; ShowStderr := true; LogsSince := "";
                       LogsUntil := ""; LogsTimestamps := true; LogsFollow := false;
                       LogsTail := "all" |})] |}
             ltac:(repeat constructor)
             ltac:(split; [reflexivity|]; split; [discriminate|]; vm_compute; reflexivity)
             eq_refl eq_refl).
  reflexivity.
Defined.

(** The id [abc]: a panic, and the daemon has not been asked anything. *)
Lemma DownloadLogs_short_id_witness :
  @handler.DownloadLogs _ (sim.runtime sim.quiet) (sim.client sim.quiet) _ sim.archive
     {| handler.Param_id := "abc"; handler.Query := ∅ |} [] sim.start
  = (Some handler.Panicked, sim.start).
Proof.
  apply (@DownloadLogs_short_id _ (sim.runtime sim.quiet) (sim.client sim.quiet)
           {| handler.Param_id := "abc"; handler.Query := ∅ |} [] sim.start).
  cbn. lia.
Defined.

(* --------------------------------------------------------------------- *)
(** ** Health probe: failures, missing memory accounting, the tick *)
(* --------------------------------------------------------------------- *)

Section HealthMore.

Local Open Scope Z_scope.
Import healthcheck.
Context {W : Type}.
Context `{!Runtime W, !docker.Client W, !repository.HealthCheckLogRepository W}.


(** X17. A container without memory accounting (0 bytes used of a limit
    of 0) is never classified by its memory: the percentage is NaN, no
    threshold is below NaN, and its status is decided by the cpu
    percentage alone. *)
Theorem statusOf_without_memory_accounting (cfg : HealthCheckConfig)
    (statsData : StatsResponse) :
  Usage (MemoryStats_ statsData) = 0 ->
  Limit (MemoryStats_ statsData) = 0 ->
  memoryPercentOf statsData = S754_nan
  /\ statusOf cfg (statsutil.CalculateCPUPercent statsData) (memoryPercentOf statsData)
     = if fgt (statsutil.CalculateCPUPercent statsData) (CPUThreshold cfg)
       then "resource_critical"%string else "healthy"%string.
Proof.
  intros Hu Hl.
  assert (Hnan : memoryPercentOf statsData = S754_nan).
  { unfold memoryPercentOf. rewrite Hu, Hl. reflexivity. }
  split; [exact Hnan|]. unfold statusOf. rewrite Hnan.
  assert (Hcmp : fgt S754_nan (MemoryThreshold cfg) = false).
  { unfold fgt, SFltb. destruct (MemoryThreshold cfg); reflexivity. }
  rewrite Hcmp, orb_false_r. reflexivity.
Qed.




End HealthMore.

(** The pass of a tick is [checkAll] over what the daemon lists; when the
    list fails the tick checks nothing. *)
Lemma tick_on_list {W : Type}
    `{!Runtime W, !docker.Client W, !repository.HealthCheckLogRepository W}
    (cfg : healthcheck.HealthCheckConfig) (w : W) :
  fst (healthcheck.tick cfg w)
  = match docker.ContainerList false (snd (log_Printf "Running health check..." w)) with
    | (Ok containers, w1) => fst (healthcheck.checkAll containers cfg w1)
    | (Go.Err _, _) => []
    end.
Proof.
  unfold healthcheck.tick. unfold bind at 1.
  destruct (log_Printf "Running health check..." w) as [[] w0]. cbn [snd].
  unfold bind at 1. destruct (docker.ContainerList false w0) as [[containers|e] w1];
    [reflexivity|].
  unfold bind, ret. destruct (log_Printf _ w1) as [[] w2]. reflexivity.
Qed.


(** A busy container that reports no memory figures, at thresholds of 0. *)
Lemma statusOf_without_memory_accounting_witness :
  healthcheck.memoryPercentOf (sim.sample 100 100 1000 2000 2 0 0 []) = S754_nan
  /\ healthcheck.statusOf
       {| healthcheck.CPUThreshold := fzero; healthcheck.MemoryThreshold := fzero |}
       (statsutil.CalculateCPUPercent (sim.sample 100 100 1000 2000 2 0 0 []))
       (healthcheck.memoryPercentOf (sim.sample 100 100 1000 2000 2 0 0 []))
     = "healthy"%string.
Proof.
  destruct (statusOf_without_memory_accounting
              {| healthcheck.CPUThreshold := fzero; healthcheck.MemoryThreshold := fzero |}
              (sim.sample 100 100 1000 2000 2 0 0 []) eq_refl eq_refl) as [Hn Hs].
  split; [exact Hn|]. rewrite Hs. vm_compute. reflexivity.
Defined.


(* --------------------------------------------------------------------- *)
(** ** Frame length and the reusable buffer *)
(* --------------------------------------------------------------------- *)

Section BufferMore.

Local Open Scope Z_scope.
Import service.

Lemma byteZ_range (b : Byte.byte) : 0 <= byteZ b < 256.
Proof.
  unfold byteZ. pose proof (Strings.Byte.to_N_bounded b) as Hb.
  split; [apply N2Z.is_nonneg | lia].
Qed.

(** The four shifted bytes do not overlap: the [or] is their sum. *)
Lemma payloadSize_sum (header : list Byte.byte) :
  payloadSize header
  = byteZ (nth 4 header Byte.x00) * 2 ^ 24 + byteZ (nth 5 header Byte.x00) * 2 ^ 16
    + byteZ (nth 6 header Byte.x00) * 2 ^ 8 + byteZ (nth 7 header Byte.x00).
Proof.
  unfold payloadSize.
  pose proof (byteZ_range (nth 4 header Byte.x00)) as Ha.
  pose proof (byteZ_range (nth 5 header Byte.x00)) as Hb.
  pose proof (byteZ_range (nth 6 header Byte.x00)) as Hc.
  pose proof (byteZ_range (nth 7 header Byte.x00)) as Hd.
  set (a := byteZ (nth 4 header Byte.x00)) in *. set (b := byteZ (nth 5 header Byte.x00)) in *.
  set (c := byteZ (nth 6 header Byte.x00)) in *. set (d := byteZ (nth 7 header Byte.x00)) in *.
  rewrite !Z.shiftl_mul_pow2 by lia.
  change (2 ^ 24) with 16777216. change (2 ^ 16) with 65536. change (2 ^ 8) with 256.
  rewrite (lor_disjoint (a * 16777216) (b * 65536) 24);
    [|lia|apply Z_mod_mult|change (2 ^ 24) with 16777216; lia].
  rewrite (lor_disjoint (a * 16777216 + b * 65536) (c * 256) 16);
    [|lia| |change (2 ^ 16) with 65536; lia].
  2:{ replace (a * 16777216 + b * 65536) with ((a * 256 + b) * 2 ^ 16)
        by (change (2 ^ 16) with 65536; lia).
      apply Z_mod_mult. }
  rewrite (lor_disjoint _ d 8); [reflexivity|lia| |change (2 ^ 8) with 256; lia].
  replace (a * 16777216 + b * 65536 + c * 256) with ((a * 65536 + b * 256 + c) * 2 ^ 8)
    by (change (2 ^ 8) with 256; lia).
  apply Z_mod_mult.
Qed.

(** X19. Whatever the eight header bytes are, the decoded payload length
    is the big-endian value of bytes 4 to 7, a number below 2^32 (the
    shifts and the [or] lose nothing), and after the growth step the
    reusable buffer holds at least that many bytes and has not shrunk, so
    the slice [buf[:size]] is always in range. *)
Theorem buffer_holds_declared_payload (header buf : list Byte.byte) :
  payloadSize header
  = byteZ (nth 4 header Byte.x00) * 2 ^ 24 + byteZ (nth 5 header Byte.x00) * 2 ^ 16
    + byteZ (nth 6 header Byte.x00) * 2 ^ 8 + byteZ (nth 7 header Byte.x00)
  /\ 0 <= payloadSize header < 2 ^ 32
  /\ (Z.to_nat (payloadSize header) <= length (growBuf buf (payloadSize header)))%nat
  /\ (length buf <= length (growBuf buf (payloadSize header)))%nat.
Proof.
  pose proof (payloadSize_sum header) as Hsum.
  pose proof (byteZ_range (nth 4 header Byte.x00)) as Ha.
  pose proof (byteZ_range (nth 5 header Byte.x00)) as Hb.
  pose proof (byteZ_range (nth 6 header Byte.x00)) as Hc.
  pose proof (byteZ_range (nth 7 header Byte.x00)) as Hd.
  split; [exact Hsum|].
  assert (Hrange : 0 <= payloadSize header < 2 ^ 32).
  { rewrite Hsum. change (2 ^ 32) with 4294967296.
    change (2 ^ 24) with 16777216. change (2 ^ 16) with 65536. change (2 ^ 8) with 256. lia. }
  split; [exact Hrange|].
  unfold growBuf. destruct (Z.ltb_spec (Z.of_nat (length buf)) (payloadSize header)) as [Hlt|Hge].
  - unfold make. rewrite repeat_length. lia.
  - lia.
Qed.

End BufferMore.

(* --------------------------------------------------------------------- *)
(** ** The validation of the configuration *)
(* --------------------------------------------------------------------- *)

Section ConfigMore.

Import Go.

(** Comparing the other way round mirrors the answer. *)
Lemma SFcompare_antisym (x y : float64) :
  SFcompare y x = option_map CompOpp (SFcompare x y).
Proof.
  destruct x as [sx| sx| |sx mx ex], y as [sy| sy| |sy my ey]; cbn;
    try reflexivity;
    try (destruct sx; reflexivity);
    try (destruct sy; reflexivity);
    try (destruct sx, sy; reflexivity).
  change (PosDef.Pos.compare_cont Eq my mx) with (Pos.compare my mx).
  change (PosDef.Pos.compare_cont Eq mx my) with (Pos.compare mx my).
  rewrite (Z.compare_antisym ex ey), (Pos.compare_antisym mx my).
  destruct sx, sy; try reflexivity;
    destruct (ex ?= ey)%Z; cbn; try reflexivity;
    destruct (mx ?= my)%positive; reflexivity.
Qed.

(** On floats [not (x < y)] is [y <= x], except when one side is NaN. *)
Lemma flt_false_iff (x y : float64) :
  config.flt x y = false <-> (SFcompare x y = None \/ config.fle y x = true).
Proof.
  unfold config.flt, config.fle, SFltb, SFleb. rewrite (SFcompare_antisym x y).
  destruct (SFcompare x y) as [[| |]|]; cbn; intuition congruence.
Qed.

Lemma SFcompare_None (x y : float64) :
  SFcompare x y = None <-> (is_nan x = true \/ is_nan y = true).
Proof.
  destruct x, y; cbn; split; intros Hx;
    try discriminate; try (destruct Hx; discriminate); auto.
Qed.

Lemma threshold_check (t : float64) :
  config.flt t fzero || fgt t f100 = false <-> config.inRangeOrNaN t.
Proof.
  unfold config.inRangeOrNaN, fgt. change (SFltb f100 t) with (config.flt f100 t).
  rewrite orb_false_iff, !flt_false_iff, !SFcompare_None.
  change (is_nan fzero) with false. change (is_nan f100) with false.
  split.
  - intros [[[Hn|Hn]|Hlo] [[Hn'|Hn']|Hhi]]; try discriminate; auto.
  - intros [Hn|[Hlo Hhi]]; auto.
Qed.

(** X20. [validate] accepts a configuration exactly when each of the two
    thresholds is NaN or lies in [0, 100], the interval is at least one
    second and the retention at least one day. The two comparisons of a
    threshold are both false on NaN, so a NaN threshold is not rejected. *)
Theorem validate_accepts_range_or_nan (cfg : config.Config) :
  config.validate cfg = None
  <-> (config.inRangeOrNaN (config.CPUThreshold (config.HealthCheck cfg))
       /\ config.inRangeOrNaN (config.MemoryThreshold (config.HealthCheck cfg))
       /\ (config.Second <= config.Interval (config.HealthCheck cfg))%Z
       /\ (1 <= config.Days (config.LogRetention cfg))%Z).
Proof.
  rewrite <- !threshold_check. unfold config.validate.
  destruct (config.flt (config.CPUThreshold (config.HealthCheck cfg)) fzero
            || fgt (config.CPUThreshold (config.HealthCheck cfg)) f100);
    [split; [discriminate | intros [Hc _]; discriminate]|].
  destruct (config.flt (config.MemoryThreshold (config.HealthCheck cfg)) fzero
            || fgt (config.MemoryThreshold (config.HealthCheck cfg)) f100);
    [split; [discriminate | intros (_ & Hm & _); discriminate]|].
  destruct (Z.ltb_spec (config.Interval (config.HealthCheck cfg)) config.Second) as [Hi|Hi];
    [split; [discriminate | intros (_ & _ & Hi' & _); lia]|].
  destruct (Z.ltb_spec (config.Days (config.LogRetention cfg)) 1) as [Hd|Hd];
    [split; [discriminate | intros (_ & _ & _ & Hd'); lia]|].
  split; [intros _; repeat split; auto | reflexivity].
Qed.

(** X21. A configuration whose CPU threshold is NaN and whose other
    settings are valid passes [validate], and the health probe run with it
    never reports a container critical for its CPU share: the status
    depends on the memory comparison alone. *)
Theorem nan_threshold_passes_and_never_alerts (cfg : config.Config)
    (cpuPercent memoryPercent : float64) :
  is_nan (config.CPUThreshold (config.HealthCheck cfg)) = true ->
  config.inRangeOrNaN (config.MemoryThreshold (config.HealthCheck cfg)) ->
  (config.Second <= config.Interval (config.HealthCheck cfg))%Z ->
  (1 <= config.Days (config.LogRetention cfg))%Z ->
  config.validate cfg = None
  /\ healthcheck.statusOf (config.thresholds cfg) cpuPercent memoryPercent
     = (if fgt memoryPercent (config.MemoryThreshold (config.HealthCheck cfg))
        then "resource_critical" else "healthy")%string.
Proof.
  intros Hnan Hmem Hi Hd. split.
  - unfold config.validate.
    pose proof (proj2 (threshold_check _) (or_introl Hnan)) as Hc. rewrite Hc.
    pose proof (proj2 (threshold_check _) Hmem) as Hm. rewrite Hm.
    destruct (Z.ltb_spec (config.Interval (config.HealthCheck cfg)) config.Second); [lia|].
    destruct (Z.ltb_spec (config.Days (config.LogRetention cfg)) 1); [lia|]. reflexivity.
  - unfold healthcheck.statusOf, config.thresholds. cbn.
    destruct (config.CPUThreshold (config.HealthCheck cfg)); try discriminate.
    unfold fgt at 1. unfold SFltb. cbn. reflexivity.
Qed.

End ConfigMore.

Lemma nan_threshold_passes_and_never_alerts_witness :
  config.validate
    {| config.Server := {| config.Host := "0.0.0.0"; config.Port := "8080";
                           config.Mode := "debug" |};
       config.Database := {| config.Path := "./helios.db" |};
       config.Docker := {| config.DockerHost := "unix:///var/run/docker.sock" |};
       config.HealthCheck := {| config.Interval := 30 * config.Second;
                                config.CPUThreshold := S754_nan;
                                config.MemoryThreshold := Go.f100;
                                config.Enabled := true |};
       config.LogRetention := {| config.Days := 30 |} |} = None
  /\ healthcheck.statusOf
       {| healthcheck.CPUThreshold := S754_nan; healthcheck.MemoryThreshold := Go.f100 |}
       (S754_infinity false) Go.f20 = "healthy"%string.
Proof.
  pose proof (nan_threshold_passes_and_never_alerts
    {| config.Server := {| config.Host := "0.0.0.0"; config.Port := "8080";
                           config.Mode := "debug" |};
       config.Database := {| config.Path := "./helios.db" |};
       config.Docker := {| config.DockerHost := "unix:///var/run/docker.sock" |};
       config.HealthCheck := {| config.Interval := 30 * config.Second;
                                config.CPUThreshold := S754_nan;
                                config.MemoryThreshold := Go.f100;
                                config.Enabled := true |};
       config.LogRetention := {| config.Days := 30 |} |}
    (S754_infinity false) Go.f20) as Hw.
  cbn in Hw. apply Hw.
  - reflexivity.
  - right. split; vm_compute; reflexivity.
  - vm_compute. discriminate.
  - vm_compute. discriminate.
Defined.

(* --------------------------------------------------------------------- *)
(** ** The container listing *)
(* --------------------------------------------------------------------- *)

Section ListingMore.

Import Go.

Variable ToLower : string -> string.

Lemma runningFrom_app (base : nat) (xs ys : list listing.ContainerInfo) :
  listing.runningFrom base (xs ++ ys)
  = listing.runningFrom base xs ++ listing.runningFrom (base + length xs) ys.
Proof.
  revert base. induction xs as [|x xs IH]; intros base; cbn.
  - rewrite Nat.add_0_r. reflexivity.
  - rewrite IH, <- app_assoc. do 3 f_equal. lia.
Qed.

Lemma runningFrom_elem (base : nat) (infos : list listing.ContainerInfo) (i : nat) :
  i ∈ listing.runningFrom base infos
  <-> (base <= i)%nat
      /\ exists info, infos !! (i - base)%nat = Some info
                      /\ listing.InfoState info = "running"%string.
Proof.
  revert base. induction infos as [|x xs IH]; intros base; cbn.
  - split; [intros Hin; inversion Hin | intros (_ & info & Hl & _); discriminate].
  - rewrite elem_of_app, IH. split.
    + intros [Hin|(Hle & info & Hl & Hs)].
      * case_bool_decide as Hx; [|inversion Hin].
        apply list_elem_of_singleton in Hin. subst i. split; [lia|].
        exists x. rewrite Nat.sub_diag. auto.
      * split; [lia|]. exists info. split; [|exact Hs].
        replace (i - base)%nat with (S (i - S base)) by lia. exact Hl.
    + intros (Hle & info & Hl & Hs).
      destruct (decide (i = base)) as [->|Hne].
      * left. rewrite Nat.sub_diag in Hl. cbn in Hl. inversion Hl; subst x.
        rewrite bool_decide_eq_true_2 by exact Hs. apply list_elem_of_singleton. reflexivity.
      * right. split; [lia|]. exists info. split; [|exact Hs].
        replace (i - base)%nat with (S (i - S base)) in Hl by lia. exact Hl.
Qed.

(** The first loop: what it appends to [result], and the indices it
    records, while the limit is not yet reached. *)
Lemma selectLoop_spec (containers : list listing.Container)
    (opts : listing.ContainerListOptions)
    (result : list listing.ContainerInfo) (running : list nat) :
  (0 < listing.Limit opts -> Z.of_nat (length result) < listing.Limit opts)%Z ->
  let more :=
    (if (0 <? listing.Limit opts)%Z
     then take (Z.to_nat (listing.Limit opts) - length result)
     else fun l => l)
      (listing.convertToContainerInfo <$> List.filter (listing.matched ToLower opts) containers) in
  listing.selectLoop ToLower containers opts result running
  = (result ++ more, running ++ listing.runningFrom (length result) more).
Proof.
  revert result running. induction containers as [|c rest IH]; intros result running Hroom; cbn.
  - destruct (0 <? listing.Limit opts)%Z; cbn; rewrite ?take_nil; cbn;
      rewrite !app_nil_r; reflexivity.
  - destruct (listing.matched ToLower opts c) eqn:Hm; cbn [negb]; [|apply IH; exact Hroom].
    rewrite length_app. cbn [length].
    replace (length result + 1 - 1)%nat with (length result) by lia.
    destruct (Z.ltb_spec 0 (listing.Limit opts)) as [Hpos|Hnon]; cbn [andb].
    + specialize (Hroom Hpos).
      destruct (Z.leb_spec (listing.Limit opts) (Z.of_nat (length result + 1))) as [Hfull|Hopen].
      * replace (Z.to_nat (listing.Limit opts) - length result)%nat with 1%nat by lia.
        cbn [fmap list_fmap take]. rewrite take_0. cbn [listing.runningFrom].
        change (listing.InfoState (listing.convertToContainerInfo c)) with (listing.State c).
        rewrite app_nil_r.
        destruct (bool_decide (listing.State c = "running"%string));
          rewrite ?app_nil_r; reflexivity.
      * rewrite IH by (intros _; rewrite length_app; cbn; lia).
        rewrite length_app. cbn [length].
        replace (Z.to_nat (listing.Limit opts) - length result)%nat
          with (S (Z.to_nat (listing.Limit opts) - (length result + 1))) by lia.
        cbn [fmap list_fmap take listing.runningFrom].
        change (listing.InfoState (listing.convertToContainerInfo c)) with (listing.State c).
        rewrite <- !app_assoc. cbn [app].
        replace (S (length result)) with (length result + 1)%nat by lia.
        destruct (bool_decide (listing.State c = "running"%string));
          rewrite <- ?app_assoc; reflexivity.
    + rewrite IH by lia.
      rewrite length_app. cbn [length fmap list_fmap listing.runningFrom].
      change (listing.InfoState (listing.convertToContainerInfo c)) with (listing.State c).
      rewrite <- !app_assoc. cbn [app].
      replace (S (length result)) with (length result + 1)%nat by lia.
      destruct (bool_decide (listing.State c = "running"%string));
        rewrite <- ?app_assoc; reflexivity.
Qed.

Lemma decorated_withStats (opts : listing.ContainerListOptions) (cache : service.StatsCache)
    (info : listing.ContainerInfo) (stats : service.ContainerStats) :
  listing.IncludeStats opts = true ->
  listing.InfoState info = "running"%string ->
  service.GetContainerStats cache (listing.InfoID info) = Some stats ->
  listing.decorated opts cache info = listing.withStats info stats
  /\ listing.decorated opts cache (listing.withStats info stats) = listing.withStats info stats.
Proof.
  intros Hinc Hstate Hhit. unfold listing.decorated, service.GetContainerStats in *.
  cbn [listing.InfoState listing.InfoID listing.withStats].
  rewrite Hinc, Hstate, Hhit, bool_decide_eq_true_2 by reflexivity.
  split; reflexivity.
Qed.

Lemma decorated_miss (opts : listing.ContainerListOptions) (cache : service.StatsCache)
    (info : listing.ContainerInfo) :
  service.GetContainerStats cache (listing.InfoID info) = None ->
  listing.decorated opts cache info = info.
Proof.
  intros Hmiss. unfold listing.decorated. rewrite Hmiss.
  destruct (listing.IncludeStats opts && _); reflexivity.
Qed.

(** The second loop: every recorded index is in range, and the entries at
    the recorded indices, and only they, get their cached stats. *)
Lemma attach_spec (opts : listing.ContainerListOptions) (cache : service.StatsCache)
    (running : list nat) (result : list listing.ContainerInfo) :
  listing.IncludeStats opts = true ->
  (forall i, i ∈ running ->
     exists info, result !! i = Some info /\ listing.InfoState info = "running"%string) ->
  exists result',
    listing.attach (service.GetAllContainerStats cache) running result = Some result'
    /\ forall i, result' !! i
                 = (if bool_decide (i ∈ running) then listing.decorated opts cache else id)
                     <$> result !! i.
Proof.
  intros Hinc. revert result. induction running as [|idx rest IH]; intros result Hrun; cbn.
  - exists result. split; [reflexivity|]. intros i.
    rewrite bool_decide_eq_false_2 by (intros Hin; inversion Hin).
    destruct (result !! i); reflexivity.
  - destruct (Hrun idx) as (info & Hidx & Hstate); [left|].
    rewrite Hidx.
    destruct (service.GetAllContainerStats cache !! listing.InfoID info) as [stats|] eqn:Hhit;
      rewrite GetAllContainerStats_rebuilds in Hhit.
    + destruct (decorated_withStats opts cache info stats Hinc Hstate Hhit) as [Hd Hdd].
      destruct (IH (<[idx := listing.withStats info stats]> result)) as (result' & Hatt & Hspec).
      { intros i Hi. destruct (decide (i = idx)) as [->|Hne].
        - exists (listing.withStats info stats). split; [|exact Hstate].
          apply list_lookup_insert_eq. eapply lookup_lt_Some; exact Hidx.
        - rewrite list_lookup_insert_ne by congruence. apply Hrun. right. exact Hi. }
      exists result'. split; [exact Hatt|]. intros i. rewrite Hspec.
      destruct (decide (i = idx)) as [->|Hne].
      * rewrite list_lookup_insert_eq by (eapply lookup_lt_Some; exact Hidx).
        rewrite Hidx, (bool_decide_eq_true_2 (idx ∈ idx :: rest)) by left.
        cbn. rewrite Hd. destruct (bool_decide (idx ∈ rest)); cbn; [rewrite Hdd|]; reflexivity.
      * rewrite list_lookup_insert_ne by congruence.
        rewrite (bool_decide_ext (i ∈ idx :: rest) (i ∈ rest)); [reflexivity|].
        rewrite elem_of_cons. intuition congruence.
    + pose proof (decorated_miss opts cache info Hhit) as Hd.
      destruct (IH result) as (result' & Hatt & Hspec).
      { intros i Hi. apply Hrun. right. exact Hi. }
      exists result'. split; [exact Hatt|]. intros i. rewrite Hspec.
      destruct (decide (i = idx)) as [->|Hne].
      * rewrite Hidx, (bool_decide_eq_true_2 (idx ∈ idx :: rest)) by left.
        cbn. rewrite Hd. destruct (bool_decide (idx ∈ rest)); cbn; [rewrite Hd|]; reflexivity.
      * rewrite (bool_decide_ext (i ∈ idx :: rest) (i ∈ rest)); [reflexivity|].
        rewrite elem_of_cons. intuition congruence.
Qed.

Lemma runningFrom_nil (infos : list listing.ContainerInfo) (i : nat)
    (info : listing.ContainerInfo) :
  i ∉ listing.runningFrom 0 infos ->
  infos !! i = Some info ->
  listing.InfoState info <> "running"%string.
Proof.
  intros Hnot Hl Hs. apply Hnot. apply runningFrom_elem. split; [lia|].
  exists info. rewrite Nat.sub_0_r. auto.
Qed.

Lemma decorated_not_running (opts : listing.ContainerListOptions) (cache : service.StatsCache)
    (info : listing.ContainerInfo) :
  listing.InfoState info <> "running"%string ->
  listing.decorated opts cache info = info.
Proof.
  intros Hs. unfold listing.decorated.
  rewrite (bool_decide_eq_false_2 _ Hs), andb_false_r. reflexivity.
Qed.

(** Both loops together. *)
Lemma listFrom_spec (containers : list listing.Container)
    (opts : listing.ContainerListOptions) (cache : service.StatsCache) :
  listing.listFrom ToLower containers opts cache
  = Some (listing.decorated opts cache
            <$> listing.limited opts
                  (listing.convertToContainerInfo
                     <$> List.filter (listing.matched ToLower opts) containers)).
Proof.
  unfold listing.listFrom.
  rewrite (selectLoop_spec containers opts [] []) by (cbn; lia).
  cbn [length app]. rewrite Nat.sub_0_r.
  set (kept := listing.convertToContainerInfo
                 <$> List.filter (listing.matched ToLower opts) containers).
  assert (Hmore : (if (0 <? listing.Limit opts)%Z
                   then take (Z.to_nat (listing.Limit opts))
                   else fun l => l) kept = listing.limited opts kept).
  { unfold listing.limited. destruct (0 <? listing.Limit opts)%Z; reflexivity. }
  rewrite Hmore. set (more := listing.limited opts kept).
  destruct (listing.IncludeStats opts) eqn:Hinc; cbn [andb].
  - destruct (0 <? length (listing.runningFrom 0 more))%nat eqn:Hany.
    + destruct (attach_spec opts cache (listing.runningFrom 0 more) more Hinc)
        as (result' & Hatt & Hspec).
      { intros i Hi. apply runningFrom_elem in Hi as (_ & info & Hl & Hs).
        rewrite Nat.sub_0_r in Hl. exists info. auto. }
      rewrite Hatt. f_equal. apply list_eq. intros i.
      rewrite Hspec, list_lookup_fmap.
      destruct (more !! i) as [info|] eqn:Hl; [|reflexivity]. cbn.
      case_bool_decide as Hin; [reflexivity|]. cbn. f_equal. symmetry.
      apply decorated_not_running. eapply runningFrom_nil; eauto.
    + f_equal. apply list_eq. intros i. rewrite list_lookup_fmap.
      destruct (more !! i) as [info|] eqn:Hl; [|reflexivity]. cbn. f_equal. symmetry.
      apply decorated_not_running. apply (runningFrom_nil more i); [|exact Hl].
      apply Nat.ltb_ge in Hany.
      destruct (listing.runningFrom 0 more); [intros Hin; inversion Hin | cbn in Hany; lia].
  - f_equal. apply list_eq. intros i. rewrite list_lookup_fmap.
    destruct (more !! i) as [info|]; [|reflexivity]. cbn. unfold listing.decorated.
    rewrite Hinc. reflexivity.
Qed.

Lemma filter_sublist {A : Type} (f : A -> bool) (l : list A) :
  List.filter f l `sublist_of` l.
Proof.
  induction l as [|x l IH]; cbn; [constructor|].
  destruct (f x); [apply sublist_skip | apply sublist_cons]; exact IH.
Qed.

Section Daemon.

Context {W : Type} `{!Runtime W}.

Variable ContainerList : bool -> M W (Go.result (list listing.Container)).

(** X22. [ListContainers] answers with the daemon's error, wrapped, when
    the list call fails. Otherwise it never panics on an index, and its
    result is: the containers of the daemon's list that pass the name
    filter, in the daemon's order, cut to the first [Limit] of them when
    the limit is positive, each converted, and each running one given its
    cached stats when stats are asked for and the cache has them. *)
Theorem ListContainers_result (opts : listing.ContainerListOptions)
    (cache : service.StatsCache) (w : W) :
  fst (listing.ListContainers ToLower ContainerList opts cache w)
  = match fst (ContainerList (listing.All opts) w) with
    | Go.Err e => Some (Go.Err ("failed to list containers: " +:+ e))
    | Ok containers =>
        Some (Ok (listing.decorated opts cache
                    <$> listing.limited opts
                          (listing.convertToContainerInfo
                             <$> List.filter (listing.matched ToLower opts) containers)))
    end.
Proof.
  unfold listing.ListContainers, bind, ret.
  destruct (ContainerList (listing.All opts) w) as [[containers|e] w1]; cbn.
  - rewrite listFrom_spec. reflexivity.
  - destruct (log_Printf _ w1) as [[] w2]. reflexivity.
Qed.

End Daemon.

(** X23. Whatever the daemon listed, the listing succeeds with entries
    that stand, in order, for a sub-list of the listed containers, each of
    them passing the name filter; there are no more than [Limit] of them
    when the limit is positive; and an entry carries stats exactly when
    stats were asked for, the container is running and the cache holds
    stats under its ID, which are then the cached ones. *)
Theorem listing_guarantees (containers : list listing.Container)
    (opts : listing.ContainerListOptions) (cache : service.StatsCache) :
  exists kept infos,
    listing.listFrom ToLower containers opts cache = Some infos
    /\ kept `sublist_of` containers
    /\ Forall (fun c => listing.matched ToLower opts c = true) kept
    /\ Forall2 (fun c info =>
                  listing.InfoID info = listing.ID c
                  /\ listing.InfoState info = listing.State c
                  /\ listing.Stats info
                     = if listing.IncludeStats opts
                          && bool_decide (listing.State c = "running"%string)
                       then service.GetContainerStats cache (listing.ID c)
                       else None) kept infos
    /\ (length infos <= if (0 <? listing.Limit opts)%Z
                        then Z.to_nat (listing.Limit opts)
                        else length containers)%nat.
Proof.
  set (passing := List.filter (listing.matched ToLower opts) containers).
  set (cut := fun {A : Type} (l : list A) =>
                if (0 <? listing.Limit opts)%Z then take (Z.to_nat (listing.Limit opts)) l
                else l).
  assert (Hcut : forall (A : Type) (l : list A), cut A l `sublist_of` l).
  { intros A l. unfold cut. destruct (0 <? listing.Limit opts)%Z; [apply sublist_take|reflexivity]. }
  exists (cut _ passing),
         (listing.decorated opts cache
            <$> listing.limited opts (listing.convertToContainerInfo <$> passing)).
  split; [apply listFrom_spec|].
  split; [etransitivity; [apply Hcut | apply filter_sublist]|].
  split.
  { assert (Hall : Forall (fun c => listing.matched ToLower opts c = true) passing).
    { apply List.Forall_forall. intros c Hc. apply List.filter_In in Hc. apply Hc. }
    unfold cut. destruct (0 <? listing.Limit opts)%Z; [apply Forall_take|]; exact Hall. }
  split.
  - assert (Hlim : listing.limited opts (listing.convertToContainerInfo <$> passing)
                   = listing.convertToContainerInfo <$> cut _ passing).
    { unfold listing.limited, cut. destruct (0 <? listing.Limit opts)%Z; [|reflexivity].
      rewrite fmap_take. reflexivity. }
    rewrite Hlim, <- list_fmap_compose.
    apply Forall2_fmap_r, Forall_Forall2_diag, List.Forall_forall. intros c _.
    unfold compose, listing.decorated, service.GetContainerStats.
    change (listing.InfoState (listing.convertToContainerInfo c)) with (listing.State c).
    change (listing.InfoID (listing.convertToContainerInfo c)) with (listing.ID c).
    destruct (listing.IncludeStats opts && bool_decide (listing.State c = "running"%string));
      [|auto].
    destruct (service.containerStats cache !! listing.ID c); auto.
  - rewrite length_fmap. unfold listing.limited.
    destruct (0 <? listing.Limit opts)%Z.
    + rewrite length_take. lia.
    + rewrite length_fmap. unfold passing. apply List.filter_length_le.
Qed.

End ListingMore.

(* --------------------------------------------------------------------- *)
(** ** The listing endpoint *)
(* --------------------------------------------------------------------- *)

Section ListingEndpoint.

Import Go.

Variable Query : string -> string.
Variable Atoi : string -> Go.result Z.
Variable ToLower : string -> string.

Context {W : Type} `{!Runtime W}.

Variable ContainerList : bool -> M W (Go.result (list listing.Container)).


End ListingEndpoint.

